(** * teststation_dvo: device registry, leasing, host command executor,
      chunked transfer and the execution pipeline

    A shallow embedding of

    - [grpc_wrapper/utils/device.py]        (module [device], class [Device]),
    - [grpc_wrapper/grpc_server.py]         ([VTestStation], [VTestFunctions],
                                             [CommunicationServicer]),
    - [grpc_wrapper/grpc_client.py]         (module functions and [GRPCClient]),
    - [grpc_wrapper/utils/device_context.py] ([DeviceUsage]),
    - [grpc_wrapper/app_executor.py]        ([execute_app]),
    - [grpc_wrapper/utils/apktools.py]      ([get_package_name]),
    - [fastapi_backend.py]                  (the device keys of [getdevices]
                                             and [executeApp]),

    followed by the properties of the specification that were checked
    against it (C1 to C10) and by further properties of the code (X1 to
    X27).

    Conventions of the embedding.

    - A Python [str] is a [string]: the sequence of bytes of its UTF-8
      encoding.  [bytes] are [list byte].  Case mapping, white space,
      digits, [int] and [repr] are computed for strings of characters below
      U+0080 and are those of the interpreter ([Py.Unicode], carried by
      [Env]) for every other string.
    - A [Path] is the string [pathlib] prints for it: separators and
      [.] components are normalised when the path is made ([pathlib.Path]),
      and a function that receives a [Path] normalises its argument.
    - A file system is a list of directories and an association list of
      files, both keyed by absolute normalised paths; a path is resolved
      component by component from the working directory, so that a missing
      directory, a file used as a directory and a directory opened as a
      file raise the [OSError] the kernel gives.  Permissions, links and
      the limits of the disk are not modelled.
    - Everything the program learns from outside (the adb processes, the
      package tools, the transport between client and host) is answered by
      an oracle [Env], asked with the number of interactions made so far;
      a property proved for every [Env] holds whatever the outside does.
    - Mutable state is threaded explicitly: the registry, the host files,
      the interaction counter and the log of RPCs live in [World]; a bound
      method receives its [Device] and returns the mutated one, which the
      caller stores back under the same key (the registry holds references).
    - An exception is a value of [Exn]; code that may raise returns
      [Raises A].  The status and the details of an RPC that the transport
      fails are those the oracle gives ([rpc_error]).
    - One pipeline runs at a time: the adb lock, threads and [asyncio] are
      not modelled; logging has no effect on the state, and [time.sleep]
      has none but to raise on a negative duration. *)

From Stdlib Require Import ZArith NArith List Strings.String Strings.Ascii
  Strings.Byte DecimalString Bool Lia.
From stdpp Require Import gmap strings list.
Import ListNotations.
Local Open Scope string_scope.

(* ===================================================================== *)
(** ** The parts of the Python runtime the program relies on              *)
(* ===================================================================== *)

Module Py.

Definition bytes := list byte.

(** *** [str] methods

    Case mapping, white space, digits, the conversion to [int] and [repr]
    follow the Unicode database and the settings of the interpreter that
    runs the program.  For a string of characters below U+0080 they are
    computed here; for any other string they are the functions of
    [Unicode], which the host provides (see [Env]).  A case mapping gives
    at least one character for each character. *)
Record Unicode := {
  str_lower : string -> string;             (* [s.lower()] *)
  str_strip : string -> string;             (* [s.strip()] *)
  str_split : string -> list string;        (* [s.split()] *)
  str_isdigit : string -> bool;             (* [s.isdigit()] *)
  str_int : string -> option Z;             (* [int(s)], [None]: [ValueError] *)
  str_repr : string -> string;              (* [repr(s)] *)
  str_lower_nonempty :
    forall s, s <> EmptyString -> str_lower s <> EmptyString
}.

Fixpoint all_chars (p : ascii -> bool) (s : string) : bool :=
  match s with
  | EmptyString => true
  | String c r => p c && all_chars p r
  end.

(** [s.isascii()] *)
Definition isascii (s : string) : bool :=
  all_chars (fun c => (nat_of_ascii c <? 128)%nat) s.

Definition isupper (c : ascii) : bool :=
  let n := nat_of_ascii c in (65 <=? n)%nat && (n <=? 90)%nat.

Definition lower_char (c : ascii) : ascii :=
  if isupper c then ascii_of_nat (nat_of_ascii c + 32) else c.

Fixpoint ascii_lower (s : string) : string :=
  match s with
  | EmptyString => EmptyString
  | String c r => String (lower_char c) (ascii_lower r)
  end.

(** [s.lower()] *)
Definition lower (U : Unicode) (s : string) : string :=
  if isascii s then ascii_lower s else str_lower U s.

(** [s.startswith(p)] *)
Fixpoint startswith (s p : string) : bool :=
  match p, s with
  | EmptyString, _ => true
  | String a p', String b s' => Ascii.eqb a b && startswith s' p'
  | String _ _, EmptyString => false
  end.

(** [s.endswith(p)] for one character. *)
Fixpoint endswith (s : string) (c : ascii) : bool :=
  match s with
  | EmptyString => false
  | String a EmptyString => Ascii.eqb a c
  | String _ r => endswith r c
  end.

(** [needle in hay] *)
Fixpoint contains (needle hay : string) : bool :=
  startswith hay needle
  || match hay with
     | EmptyString => false
     | String _ r => contains needle r
     end.

(** [s.split(sep)] for a separator of one character. *)
Fixpoint split (sep : ascii) (s : string) : list string :=
  match s with
  | EmptyString => [EmptyString]
  | String c r =>
      if Ascii.eqb c sep then EmptyString :: split sep r
      else match split sep r with
           | h :: t => String c h :: t
           | [] => [String c EmptyString]
           end
  end.

(** The characters [str.isspace] accepts below U+0080. *)
Definition isspace (c : ascii) : bool :=
  let n := nat_of_ascii c in
  ((9 <=? n)%nat && (n <=? 13)%nat) || ((28 <=? n)%nat && (n <=? 32)%nat).

Fixpoint lstrip (s : string) : string :=
  match s with
  | EmptyString => EmptyString
  | String c r => if isspace c then lstrip r else s
  end.

Fixpoint rstrip (s : string) : string :=
  match s with
  | EmptyString => EmptyString
  | String c r =>
      match rstrip r with
      | EmptyString => if isspace c then EmptyString else String c EmptyString
      | r' => String c r'
      end
  end.

Definition ascii_strip (s : string) : string := rstrip (lstrip s).

(** [s.strip()] *)
Definition strip (U : Unicode) (s : string) : string :=
  if isascii s then ascii_strip s else str_strip U s.

(** The maximal runs of non-space characters.  The helper returns the
    word that starts at the head, if any, and the later ones. *)
Fixpoint split_ws_go (s : string) : option string * list string :=
  match s with
  | EmptyString => (None, [])
  | String c r =>
      let '(cur, ws) := split_ws_go r in
      if isspace c
      then (None, match cur with Some w => w :: ws | None => ws end)
      else (Some (String c (default EmptyString cur)), ws)
  end.

Definition ascii_split_ws (s : string) : list string :=
  let '(cur, ws) := split_ws_go s in
  match cur with Some w => w :: ws | None => ws end.

(** [s.split()] *)
Definition split_ws (U : Unicode) (s : string) : list string :=
  if isascii s then ascii_split_ws s else str_split U s.

Definition isdigit_char (c : ascii) : bool :=
  let n := nat_of_ascii c in (48 <=? n)%nat && (n <=? 57)%nat.

Definition ascii_isdigit (s : string) : bool :=
  match s with
  | EmptyString => false
  | _ => all_chars isdigit_char s
  end.

(** [s.isdigit()] *)
Definition isdigit (U : Unicode) (s : string) : bool :=
  if isascii s then ascii_isdigit s else str_isdigit U s.

Fixpoint int_go (acc : Z) (s : string) : Z :=
  match s with
  | EmptyString => acc
  | String c r => int_go (10 * acc + (Z.of_nat (nat_of_ascii c) - 48)) r
  end.

(** [int(s)], [None] for a [ValueError].  The interpreter may refuse to
    convert a long string of digits; the lowest limit it can be set to is
    640 digits. *)
Definition int (U : Unicode) (s : string) : option Z :=
  if ascii_isdigit s && (String.length s <=? 640)%nat
  then Some (int_go 0 s)
  else str_int U s.

(** The bytes [10xxxxxx], which continue a character. *)
Definition is_continuation_char (c : ascii) : bool :=
  let n := nat_of_ascii c in (128 <=? n)%nat && (n <? 192)%nat.

Fixpoint skip_continuation (s : string) : string :=
  match s with
  | EmptyString => EmptyString
  | String c r => if is_continuation_char c then skip_continuation r else s
  end.

(** [s[1:]]: without the bytes of the first character. *)
Definition drop_first (s : string) : string :=
  match s with
  | EmptyString => EmptyString
  | String _ r => skip_continuation r
  end.

Definition reverse (s : string) : string :=
  string_of_list_ascii (rev (list_ascii_of_string s)).

(** [s[:-1]]: without the bytes of the last character. *)
Definition drop_last (s : string) : string :=
  match skip_continuation (reverse s) with
  | EmptyString => EmptyString
  | String _ r => reverse r
  end.

(** [s[1:-1]] *)
Definition slice_1_m1 (s : string) : string := drop_first (drop_last s).

(** [str(n)] for a natural number. *)
Definition str_of_nat (n : nat) : string :=
  NilEmpty.string_of_uint (Nat.to_uint n).

Definition hex_digit (n : N) : ascii :=
  ascii_of_N (if (n <? 10)%N then 48 + n else 87 + n)%N.

(** ["%02x" % b] *)
Definition hex2 (b : byte) : string :=
  let n := Byte.to_N b in
  String (hex_digit (n / 16)) (String (hex_digit (n mod 16)) EmptyString).

Definition backslash : ascii := ascii_of_nat 92.

(** [repr(s)] below U+0080: double quotes when [s] holds a single quote
    and no double quote, else single quotes; the quote and the backslash
    are escaped, as are the characters that are not printable. *)
Definition repr_char (quote c : ascii) : string :=
  let n := nat_of_ascii c in
  if Ascii.eqb c quote || Ascii.eqb c backslash
  then String backslash (String c EmptyString)
  else if (n =? 9)%nat then String backslash "t"
  else if (n =? 10)%nat then String backslash "n"
  else if (n =? 13)%nat then String backslash "r"
  else if (n <? 32)%nat || (n =? 127)%nat
  then String backslash "x" +:+ hex2 (byte_of_ascii c)
  else String c EmptyString.

Fixpoint repr_chars (quote : ascii) (s : string) : string :=
  match s with
  | EmptyString => EmptyString
  | String c r => repr_char quote c +:+ repr_chars quote r
  end.

Definition ascii_repr (s : string) : string :=
  let quote :=
    if contains "'" s && negb (contains (String (ascii_of_nat 34) EmptyString) s)
    then ascii_of_nat 34 else "'"%char in
  String quote (repr_chars quote s) +:+ String quote EmptyString.

(** [repr(s)] *)
Definition repr (U : Unicode) (s : string) : string :=
  if isascii s then ascii_repr s else str_repr U s.

(** *** [bytes.decode("utf-8", errors)]

    The decoder of CPython.  At the head of the remaining input it finds
    either a well-formed sequence of one to four bytes or one of three
    errors, each covering a definite number of bytes.  Under [strict] an
    error raises [UnicodeDecodeError]; under [ignore] the bytes it covers
    are dropped; under [replace] they become U+FFFD. *)

Inductive errors := strict | ignore | replace.

Inductive utf8_step :=
| Char (n : nat)                  (* a well-formed sequence of [n] bytes *)
| EndOfData                       (* truncated sequence: all that remains *)
| InvalidStart                    (* one byte *)
| InvalidContinuation (n : nat).  (* the [n] bytes before the offending one *)

Definition is_continuation (b : N) : bool := ((128 <=? b) && (b <? 192))%N.

Definition utf8_classify (bs : list N) : utf8_step :=
  match bs with
  | [] => EndOfData
  | ch :: t =>
      if (ch <? 0x80)%N then Char 1
      else if (ch <? 0xC2)%N then InvalidStart
      else if (ch <? 0xE0)%N then
        match t with
        | [] => EndOfData
        | ch2 :: _ =>
            if is_continuation ch2 then Char 2 else InvalidContinuation 1
        end
      else if (ch <? 0xF0)%N then
        match t with
        | [] => EndOfData
        | ch2 :: t2 =>
            if negb (is_continuation ch2)
               || (if (ch2 <? 0xA0)%N then (ch =? 0xE0)%N else (ch =? 0xED)%N)
            then InvalidContinuation 1
            else match t2 with
                 | [] => EndOfData
                 | ch3 :: _ =>
                     if is_continuation ch3 then Char 3
                     else InvalidContinuation 2
                 end
        end
      else if (ch <? 0xF5)%N then
        match t with
        | [] => EndOfData
        | ch2 :: t2 =>
            if negb (is_continuation ch2)
               || (if (ch2 <? 0x90)%N then (ch =? 0xF0)%N else (ch =? 0xF4)%N)
            then InvalidContinuation 1
            else match t2 with
                 | [] => EndOfData
                 | ch3 :: t3 =>
                     if negb (is_continuation ch3) then InvalidContinuation 2
                     else match t3 with
                          | [] => EndOfData
                          | ch4 :: _ =>
                              if is_continuation ch4 then Char 4
                              else InvalidContinuation 3
                          end
                 end
        end
      else InvalidStart
  end.

(** [UnicodeDecodeError]: the bytes [start, stop) and the reason. *)
Record UnicodeDecodeError := {
  ude_object : bytes;
  ude_start : nat;
  ude_end : nat;
  ude_reason : string
}.

(** [str(e)] of a [UnicodeDecodeError]. *)
Definition str_UnicodeDecodeError (e : UnicodeDecodeError) : string :=
  if (ude_end e =? S (ude_start e))%nat
  then "'utf-8' codec can't decode byte 0x"
       +:+ match ude_object e !! ude_start e with
           | Some b => hex2 b
           | None => EmptyString
           end
       +:+ " in position " +:+ str_of_nat (ude_start e)
       +:+ ": " +:+ ude_reason e
  else "'utf-8' codec can't decode bytes in position "
       +:+ str_of_nat (ude_start e) +:+ "-" +:+ str_of_nat (ude_end e - 1)
       +:+ ": " +:+ ude_reason e.

(** U+FFFD in UTF-8. *)
Definition replacement_character : string :=
  string_of_list_byte [xef; xbf; xbd].

(** The decoding loop.  [skip] counts the bytes at the head that belong
    to a sequence or an error already dealt with; [pos] is the index of
    the head in [whole]. *)
Fixpoint decode_from (e : errors) (whole : bytes) (pos skip : nat)
    (bs : bytes) : UnicodeDecodeError + string :=
  match bs with
  | [] => inr EmptyString
  | _ :: rest =>
      match skip with
      | S k => decode_from e whole (S pos) k rest
      | O =>
          let continue_with (out : string) (n : nat) :=
            match decode_from e whole (S pos) (n - 1) rest with
            | inl err => inl err
            | inr s => inr (out +:+ s)
            end in
          let on_error (n : nat) (reason : string) :=
            match e with
            | strict =>
                inl {| ude_object := whole; ude_start := pos;
                       ude_end := pos + n; ude_reason := reason |}
            | ignore => continue_with EmptyString n
            | replace => continue_with replacement_character n
            end in
          match utf8_classify (map Byte.to_N bs) with
          | Char n => continue_with (string_of_list_byte (take n bs)) n
          | EndOfData =>
              on_error (List.length bs) "unexpected end of data"
          | InvalidStart => on_error 1 "invalid start byte"
          | InvalidContinuation n => on_error n "invalid continuation byte"
          end
      end
  end.

(** [bs.decode("utf-8", e)] *)
Definition decode (e : errors) (bs : bytes) : UnicodeDecodeError + string :=
  decode_from e bs 0 0 bs.

(** [s.encode("utf-8")] *)
Definition encode (s : string) : bytes := list_byte_of_string s.

(** *** Reading a binary file in chunks

    [while True: chunk = f.read(n); if not chunk: break; yield chunk],
    where [rest] is the part of the file after the position of [f].  Each
    round of a loop that goes on consumes at least one byte, so one round
    more than there are bytes is enough. *)
Fixpoint read_loop (fuel n : nat) (rest : bytes) : list bytes :=
  match fuel with
  | O => []
  | S fuel' =>
      let chunk := take n rest in
      match chunk with
      | [] => []
      | _ :: _ => chunk :: read_loop fuel' n (drop n rest)
      end
  end.

Definition read_chunks (n : nat) (content : bytes) : list bytes :=
  read_loop (S (List.length content)) n content.

(** *** [dict] with insertion order, as an association list *)

Section Dict.
Context {V : Type}.

(** [d.get(k)] *)
Fixpoint dict_get (k : string) (d : list (string * V)) : option V :=
  match d with
  | [] => None
  | (k', v) :: r => if String.eqb k' k then Some v else dict_get k r
  end.

(** [k in d] *)
Definition dict_mem (k : string) (d : list (string * V)) : bool :=
  match dict_get k d with Some _ => true | None => false end.

(** [d[k] = v]: in place for a key that is present, else at the end. *)
Fixpoint dict_set (k : string) (v : V) (d : list (string * V))
    : list (string * V) :=
  match d with
  | [] => [(k, v)]
  | (k', v') :: r =>
      if String.eqb k' k then (k', v) :: r else (k', v') :: dict_set k v r
  end.

(** [del d[k]] *)
Definition dict_del (k : string) (d : list (string * V))
    : list (string * V) :=
  List.filter (fun kv => negb (String.eqb (fst kv) k)) d.

(** [list(d.keys())], [list(d.values())] *)
Definition dict_keys (d : list (string * V)) : list string := map fst d.
Definition dict_values (d : list (string * V)) : list V := map snd d.

(** [d.update(d2)] *)
Definition dict_update (d d2 : list (string * V)) : list (string * V) :=
  fold_left (fun acc kv => dict_set (fst kv) (snd kv) acc) d2 d.
End Dict.

(** [x in l] for a list of strings. *)
Definition list_mem (x : string) (l : list string) : bool :=
  existsb (String.eqb x) l.

End Py.

(** [pathlib.Path], in its POSIX form.  A path is held as the string
    that [str(p)] and [p.as_posix()] give; a function of the program that
    receives a [Path] receives a string [s] that stands for [Path(s)]. *)
Module pathlib.

Fixpoint lstrip_sep (s : string) : string :=
  match s with
  | EmptyString => EmptyString
  | String c r => if Ascii.eqb c "/" then lstrip_sep r else s
  end.

(** A list of components without the empty ones at its head. *)
Fixpoint lstrip_sep_list (l : list string) : list string :=
  match l with
  | [] => []
  | part :: rest =>
      if String.eqb part EmptyString then lstrip_sep_list rest else l
  end.

(** The root and the parts of a path: two leading separators are kept,
    any other number of them is one; empty parts and [.] are dropped. *)
Definition parse (s : string) : string * list string :=
  let rel := lstrip_sep s in
  let n := String.length s - String.length rel in
  let root := if (n =? 0)%nat then EmptyString
              else if (n =? 2)%nat then "//" else "/" in
  (root,
   List.filter (fun part => negb (String.eqb part EmptyString
                                  || String.eqb part "."))
               (Py.split "/" rel)).

(** [str(p)] *)
Definition str (p : string * list string) : string :=
  match p with
  | (EmptyString, []) => "."
  | (root, parts) => root +:+ String.concat "/" parts
  end.

(** [Path(s)] *)
Definition Path (s : string) : string := str (parse s).

(** [a / b] *)
Definition joinpath (a b : string) : string :=
  let '(root_a, parts_a) := parse a in
  let '(root_b, parts_b) := parse b in
  str (if String.eqb root_b EmptyString
       then (root_a, (parts_a ++ parts_b)%list)
       else (root_b, parts_b)).

(** [p.name] *)
Definition name (p : string) : string :=
  List.last (snd (parse p)) EmptyString.

(** [p.suffix] *)
Definition suffix (p : string) : string :=
  let n := name p in
  let ext := List.last (Py.split "." n) EmptyString in
  if (String.length ext + 1 <? String.length n)%nat
     && negb (String.eqb ext EmptyString)
  then "." +:+ ext else EmptyString.

End pathlib.

(* ===================================================================== *)
(** ** Exceptions, the outside world and the state                        *)
(* ===================================================================== *)

(** The status codes of gRPC. *)
Module grpc.

Inductive StatusCode :=
| OK | CANCELLED | UNKNOWN | INVALID_ARGUMENT | DEADLINE_EXCEEDED | NOT_FOUND
| ALREADY_EXISTS | PERMISSION_DENIED | UNAUTHENTICATED | RESOURCE_EXHAUSTED
| FAILED_PRECONDITION | ABORTED | OUT_OF_RANGE | UNIMPLEMENTED | INTERNAL
| UNAVAILABLE | DATA_LOSS.

(** [str(code)] *)
Definition str (code : StatusCode) : string :=
  "StatusCode." +:+
  match code with
  | OK => "OK" | CANCELLED => "CANCELLED" | UNKNOWN => "UNKNOWN"
  | INVALID_ARGUMENT => "INVALID_ARGUMENT"
  | DEADLINE_EXCEEDED => "DEADLINE_EXCEEDED" | NOT_FOUND => "NOT_FOUND"
  | ALREADY_EXISTS => "ALREADY_EXISTS"
  | PERMISSION_DENIED => "PERMISSION_DENIED"
  | UNAUTHENTICATED => "UNAUTHENTICATED"
  | RESOURCE_EXHAUSTED => "RESOURCE_EXHAUSTED"
  | FAILED_PRECONDITION => "FAILED_PRECONDITION" | ABORTED => "ABORTED"
  | OUT_OF_RANGE => "OUT_OF_RANGE" | UNIMPLEMENTED => "UNIMPLEMENTED"
  | INTERNAL => "INTERNAL" | UNAVAILABLE => "UNAVAILABLE"
  | DATA_LOSS => "DATA_LOSS"
  end.

End grpc.

(** The exceptions.  An [OSError] carries the [repr] of the path it is
    about; for a [grpc.RpcError], [str_Exn] is the text that [pull_file]
    makes of it, [f"{e.code()}, {e.details()}"]. *)
Inductive Exn :=
| RpcError (code details : string)          (* grpc.RpcError *)
| StopIteration
| KeyError (key : string)
| IndexError
| FileNotFoundError (shown : string)
| NotADirectoryError (shown : string)
| IsADirectoryError (shown : string)
| FileExistsError (shown : string)
| UnicodeError (e : Py.UnicodeDecodeError)
| Exception (msg : string).                 (* any other, [str(e) = msg] *)

(** [str(e)] *)
Definition str_Exn (e : Exn) : string :=
  match e with
  | RpcError code details => code +:+ ", " +:+ details
  | StopIteration => EmptyString
  | KeyError k => Py.ascii_repr k
  | IndexError => "list index out of range"
  | FileNotFoundError p => "[Errno 2] No such file or directory: " +:+ p
  | NotADirectoryError p => "[Errno 20] Not a directory: " +:+ p
  | IsADirectoryError p => "[Errno 21] Is a directory: " +:+ p
  | FileExistsError p => "[Errno 17] File exists: " +:+ p
  | UnicodeError e => Py.str_UnicodeDecodeError e
  | Exception msg => msg
  end.

Inductive Raises (A : Type) :=
| Returned (a : A)
| Raised (e : Exn).
Arguments Returned {A} a.
Arguments Raised {A} e.

(** [time.sleep(secs)]: the wait itself changes nothing. *)
Module time.

Definition sleep (secs : Z) : Raises unit :=
  if (secs <? 0)%Z then Raised (Exception "sleep length must be non-negative")
  else Returned tt.

End time.

(** The files and the directories of one machine, as the operating system
    finds them from a path.  A file is kept under its absolute path, a
    directory is in [dirs] under its own; the root is always there.  A
    path is followed from the root, or from [cwd], one component after the
    other, each one looked up in a directory.  There are no symbolic
    links, every access is permitted, every name is within the limits of
    the file system and the disk is never full. *)
Module os.
Section WithDisk.
Variable U : Py.Unicode.
Variable cwd : string.
Variable dirs : list string.
Variable files : gmap string Py.bytes.

(** The absolute path of a place, given by the names that lead to it. *)
Definition located (here : list string) : string :=
  "/" +:+ String.concat "/" here.

Definition is_dir (here : list string) : bool :=
  match here with
  | [] => true
  | _ :: _ => Py.list_mem (located here) dirs
  end.

Definition is_file (here : list string) : bool :=
  match files !! located here with
  | Some _ => true
  | None => false
  end.

Definition names (p : string) : list string :=
  List.filter (fun name => negb (String.eqb name EmptyString)) (Py.split "/" p).

(** One component: to go on from [here], [here] is a directory. *)
Fixpoint walk (p : string) (here : list string) (components : list string)
    : Raises (list string) :=
  match components with
  | [] => Returned here
  | name :: rest =>
      if is_dir here
      then walk p
             (if String.eqb name EmptyString || String.eqb name "." then here
              else if String.eqb name ".." then removelast here
              else (here ++ [name])%list)
             rest
      else if is_file here then Raised (NotADirectoryError (Py.repr U p))
      else Raised (FileNotFoundError (Py.repr U p))
  end.

(** The place that [p] names, which need not exist. *)
Definition lookup (p : string) : Raises (list string) :=
  if String.eqb p EmptyString then Raised (FileNotFoundError (Py.repr U p))
  else if Py.contains (String zero EmptyString) p
  then Raised (Exception "embedded null byte")
  else walk p (if Py.startswith p "/" then [] else names cwd) (Py.split "/" p).

(** What [p] names when the separators at its end are left out. *)
Definition lookup_stem (p : string) : Raises (list string) :=
  if Py.contains (String zero EmptyString) p
  then Raised (Exception "embedded null byte")
  else walk p (if Py.startswith p "/" then [] else names cwd)
         (rev (pathlib.lstrip_sep_list (rev (Py.split "/" p)))).

(** [os.path.exists(p)], [Path(p).exists()] *)
Definition path_exists (p : string) : bool :=
  match lookup p with
  | Returned here => is_dir here || is_file here
  | Raised _ => false
  end.

(** [open(p, "rb")] and the content read from it. *)
Definition read (p : string) : Raises Py.bytes :=
  match lookup p with
  | Raised e => Raised e
  | Returned here =>
      match files !! located here with
      | Some content => Returned content
      | None =>
          if is_dir here then Raised (IsADirectoryError (Py.repr U p))
          else Raised (FileNotFoundError (Py.repr U p))
      end
  end.

(** [open(p, "wb")] and the content written to it: the files afterwards.
    A path that ends with a separator is refused once the path before
    that separator has been followed. *)
Definition write (p : string) (content : Py.bytes)
    : Raises (gmap string Py.bytes) :=
  if Py.endswith p "/"
  then match lookup_stem p with
       | Raised e => Raised e
       | Returned _ => Raised (IsADirectoryError (Py.repr U p))
       end
  else match lookup p with
       | Raised e => Raised e
       | Returned here =>
           if is_dir here then Raised (IsADirectoryError (Py.repr U p))
           else Returned (<[located here := content]> files)
       end.

(** [Path(p).mkdir(exist_ok=True)]: the directories afterwards.  The
    parents are not made. *)
Definition mkdir (p : string) : Raises (list string) :=
  match lookup p with
  | Raised e => Raised e
  | Returned here =>
      if is_dir here then Returned dirs
      else if is_file here then Raised (FileExistsError (Py.repr U p))
      else Returned (dirs ++ [located here])%list
  end.

End WithDisk.
End os.

(** [str(x)] of a value that may be [None]. *)
Definition str_opt (o : option string) : string := default "None" o.

(** The [Device] dataclass of [device.py].  The shared [adb_lock] is not
    represented.  [logcat_collect_process] holds the pid of the [Popen]
    object and [logout_tempfile] the name of the temporary file. *)
Record Device := {
  id : string;
  properties : list (string * string);
  in_use : bool;
  last_installed_app : option string;
  running_app_pid : Z;
  logcat_file : string;
  logcat_collect_process : option Z;
  logout_tempfile : option string
}.

Definition set_in_use (b : bool) (d : Device) : Device :=
  {| id := id d; properties := properties d; in_use := b;
     last_installed_app := last_installed_app d;
     running_app_pid := running_app_pid d; logcat_file := logcat_file d;
     logcat_collect_process := logcat_collect_process d;
     logout_tempfile := logout_tempfile d |}.

Definition set_last_installed_app (a : option string) (d : Device) : Device :=
  {| id := id d; properties := properties d; in_use := in_use d;
     last_installed_app := a;
     running_app_pid := running_app_pid d; logcat_file := logcat_file d;
     logcat_collect_process := logcat_collect_process d;
     logout_tempfile := logout_tempfile d |}.

Definition set_running_app_pid (p : Z) (d : Device) : Device :=
  {| id := id d; properties := properties d; in_use := in_use d;
     last_installed_app := last_installed_app d;
     running_app_pid := p; logcat_file := logcat_file d;
     logcat_collect_process := logcat_collect_process d;
     logout_tempfile := logout_tempfile d |}.

Definition set_logcat (proc : option Z) (tmp : option string) (d : Device)
    : Device :=
  {| id := id d; properties := properties d; in_use := in_use d;
     last_installed_app := last_installed_app d;
     running_app_pid := running_app_pid d; logcat_file := logcat_file d;
     logcat_collect_process := proc;
     logout_tempfile := tmp |}.

(** The RPCs of [CommunicationService]. *)
Inductive Rpc :=
| UploadFile | PullFile | GetFreeDevices | UnlockDevice
| InstallApp | UninstallApp | IsPackageNameInstalled | StartLogcatCollect
| StopLogcatCollect | RunLastInstalledApk | KillApp.

(** What a child process started by [_exec_adb] does within
    [communicate(timeout=ADB_EXECUTION_TIMEOUT)]. *)
Inductive ProcessOutcome :=
| Completed (stdout stderr : Py.bytes)
| TimeoutExpired (msg : string)             (* [str(e)] of the exception *)
| PopenFailed (msg : string).               (* any other exception *)

(** [subprocess.check_output([ADB_BIN, "devices"], timeout=3)] *)
Inductive CheckOutput :=
| Output (out : Py.bytes)
| CheckTimeoutExpired
| CheckFailed (msg : string).

(** [terminate()] then [wait(timeout=5)] on the logcat process. *)
Inductive TerminateOutcome :=
| Terminated
| WaitTimeoutExpired                        (* then [kill()] is tried *)
| TerminateFailed (msg : string).

(** What happens to one RPC on its way. *)
Inductive Transport :=
| Delivered
| RequestLost                               (* the host never sees it *)
| ResponseLost.                             (* the host ran it, the answer is lost *)

(** The outside world.  The first argument of each oracle is the number of
    interactions made before this one.

    - [REL_DIR]: the environment variable.
    - [popen_communicate t e]: the process [e] of [_exec_adb].
    - [check_output_devices], [popen_getprop t devid]: the two processes of
      [get_all_devices]; the second gives the lines read, or [None] when
      starting or reading it raises.
    - [popen_logcat t devid], [terminate_wait], [logcat_captured]: the
      capture process of a device: its start (the pid, or the exception),
      its termination, and what it has written by then.
    - [NamedTemporaryFile t]: the name of a new temporary file, which
      [tempfile] has created: an absolute path without [.], [..] or
      doubled separators.
    - [get_package_name t apk], [sign_apk t apk]: what the functions of
      these names in [utils/apktools.py] return; they run the package tools
      and turn every exception into [None].  A signed package is a new
      file: its path and content.
    - [channel t rpc]: the transport of one RPC, and [rpc_error t rpc]:
      the status code and the details of the [grpc.RpcError] that the
      client is given when that RPC does not get through.
    - [unicode]: the methods of [str] beyond U+0080.
    - [cwd], [local_cwd]: the working directories of the host process and
      of the orchestrator. *)
Record Env := {
  REL_DIR : string;
  unicode : Py.Unicode;
  cwd : string;
  local_cwd : string;
  rpc_error : nat -> Rpc -> grpc.StatusCode * string;
  popen_communicate : nat -> list string -> ProcessOutcome;
  check_output_devices : nat -> CheckOutput;
  popen_getprop : nat -> string -> option (list Py.bytes);
  popen_logcat : nat -> string -> Raises Z;
  NamedTemporaryFile : nat -> string;
  terminate_wait : nat -> TerminateOutcome;
  logcat_captured : nat -> Py.bytes;
  get_package_name : nat -> string -> option string;
  sign_apk : nat -> string -> option (string * Py.bytes);
  channel : nat -> Rpc -> Transport
}.

(** The state: the registry [VTestStation.devices] (a [dict], in insertion
    order), the files and the directories of the host, those of the
    orchestrator, the number of interactions with the outside so far and
    the RPCs the client has attempted, latest last, each with its device
    id or file name. *)
Record World := {
  devices : list (string * Device);
  files : gmap string Py.bytes;
  dirs : list string;
  local_files : gmap string Py.bytes;
  local_dirs : list string;
  now : nat;
  rpc_log : list (Rpc * string)
}.

Definition set_devices (ds : list (string * Device)) (w : World) : World :=
  {| devices := ds; files := files w; dirs := dirs w;
     local_files := local_files w; local_dirs := local_dirs w;
     now := now w; rpc_log := rpc_log w |}.

Definition set_files (fs : gmap string Py.bytes) (w : World) : World :=
  {| devices := devices w; files := fs; dirs := dirs w;
     local_files := local_files w; local_dirs := local_dirs w;
     now := now w; rpc_log := rpc_log w |}.

Definition set_dirs (ds : list string) (w : World) : World :=
  {| devices := devices w; files := files w; dirs := ds;
     local_files := local_files w; local_dirs := local_dirs w;
     now := now w; rpc_log := rpc_log w |}.

Definition set_local_files (fs : gmap string Py.bytes) (w : World) : World :=
  {| devices := devices w; files := files w; dirs := dirs w;
     local_files := fs; local_dirs := local_dirs w;
     now := now w; rpc_log := rpc_log w |}.

Definition set_now (n : nat) (w : World) : World :=
  {| devices := devices w; files := files w; dirs := dirs w;
     local_files := local_files w; local_dirs := local_dirs w;
     now := n; rpc_log := rpc_log w |}.

Definition set_rpc_log (l : list (Rpc * string)) (w : World) : World :=
  {| devices := devices w; files := files w; dirs := dirs w;
     local_files := local_files w; local_dirs := local_dirs w;
     now := now w; rpc_log := l |}.

(** The files of the host and of the orchestrator, through [os]. *)
Definition host_exists (E : Env) (w : World) (p : string) : bool :=
  os.path_exists (unicode E) (cwd E) (dirs w) (files w) p.

Definition host_read (E : Env) (w : World) (p : string) : Raises Py.bytes :=
  os.read (unicode E) (cwd E) (dirs w) (files w) p.

Definition host_write (E : Env) (w : World) (p : string) (content : Py.bytes)
    : Raises (gmap string Py.bytes) :=
  os.write (unicode E) (cwd E) (dirs w) (files w) p content.

Definition host_mkdir (E : Env) (w : World) (p : string) : Raises (list string) :=
  os.mkdir (unicode E) (cwd E) (dirs w) (files w) p.

Definition local_read (E : Env) (w : World) (p : string) : Raises Py.bytes :=
  os.read (unicode E) (local_cwd E) (local_dirs w) (local_files w) p.

(** *** The state monad *)

Definition M (A : Type) : Type := World -> A * World.

Definition pure {A} (a : A) : M A := fun w => (a, w).

Definition bind {A B} (m : M A) (k : A -> M B) : M B :=
  fun w => let (a, w') := m w in k a w'.

Declare Scope monad_scope.
Delimit Scope monad_scope with monad.
Notation "x <- m ;; k" := (bind m (fun x => k))
  (at level 62, m at next level, right associativity) : monad_scope.
#[warnings="-notation-incompatible-prefix"]
Notation "' p <- m ;; k" := (bind m (fun x => let 'p := x in k))
  (at level 62, p pattern, m at next level, right associativity) : monad_scope.
Local Open Scope monad_scope.

Definition gets {A} (f : World -> A) : M A := fun w => (f w, w).
Definition modify (f : World -> World) : M unit := fun w => (tt, f w).

(** One interaction with the outside: its index. *)
Definition tick : M nat := fun w => (now w, set_now (S (now w)) w).

(** The responses of [grpc_server.py]: [RPCResponse] and its subclasses. *)
Record RPCResponse (A : Type) := {
  result : A;
  error : string
}.
Arguments result {A} r.
Arguments error {A} r.

Inductive PyVal := VStr (s : string) | VBool (b : bool).

Definition DeviceListResponse := RPCResponse (list (list (string * PyVal))).
Definition DeviceIdResponse := RPCResponse (list string).
Definition BooleanResponse := RPCResponse bool.
Definition LogcatResponse := RPCResponse (option (string + Z)).

(* ===================================================================== *)
(** ** [grpc_wrapper/utils/device.py]                                      *)
(* ===================================================================== *)

Module device.
Section WithEnv.
Variable E : Env.

Definition ADB_BIN : string := "adb".
Definition ADB_EXECUTION_TIMEOUT : Z := 10.
Definition VALID_DEVICE_STATES : list string := ["device"; "unauthorized"].
Definition DEVICE_PROPERTIES : list (string * string) :=
  [ ("ro.product.cpu.abi", EmptyString);
    ("ro.product.model", EmptyString);
    ("ro.build.version.release", EmptyString);
    ("ro.build.version.sdk", EmptyString);
    ("ro.product.manufacturer", EmptyString) ].

(** [p.exists()] *)
Definition path_exists (p : string) : M bool :=
  gets (fun w => host_exists E w p).

(** The first loop of [get_all_devices]: the lines of [adb devices] that
    have two tab-separated fields and a valid state. *)
Definition parse_devices (lines : list string)
    : list (string * list (string * string)) :=
  fold_left
    (fun devices line =>
       match Py.split "009" (Py.strip (unicode E) line) with
       | [dev; state] =>
           if Py.list_mem state VALID_DEVICE_STATES
           then Py.dict_set dev [("state", state)] devices
           else devices
       | _ => devices
       end)
    lines [].

(** The body of [for prop in props]: one line of [getprop]. *)
Definition read_prop (properties : list (string * string)) (prop : Py.bytes)
    : Raises (list (string * string)) :=
  match Py.decode Py.replace prop with
  | inl e => Raised (UnicodeError e)
  | inr s =>
      let prop := Py.strip (unicode E) s in
      match List.find (fun key => Py.contains ("[" +:+ key +:+ "]") prop)
                      (Py.dict_keys properties) with
      | None => Returned properties
      | Some key =>
          match Py.split ":" prop with
          | _ :: v :: _ =>
              Returned (Py.dict_set key
                          (Py.slice_1_m1 (Py.strip (unicode E) v)) properties)
          | _ => Raised IndexError
          end
      end
  end.

Fixpoint read_props (properties : list (string * string))
    (props : list Py.bytes) : Raises (list (string * string)) :=
  match props with
  | [] => Returned properties
  | prop :: rest =>
      match read_prop properties prop with
      | Returned properties' => read_props properties' rest
      | Raised e => Raised e
      end
  end.

(** The second loop of [get_all_devices]: the properties of each device;
    a device whose properties cannot be read keeps its state only. *)
Fixpoint fetch_properties (devices : list (string * list (string * string)))
    : M (list (string * list (string * string))) :=
  match devices with
  | [] => pure []
  | (devid, vals) :: rest =>
      t <- tick ;;
      let vals' :=
        match popen_getprop E t devid with
        | None => vals
        | Some props =>
            match read_props DEVICE_PROPERTIES props with
            | Returned properties => Py.dict_update vals properties
            | Raised _ => vals
            end
        end in
      rest' <- fetch_properties rest ;;
      pure ((devid, vals') :: rest')
  end.

Definition get_all_devices
    : M (Raises (list (string * list (string * string)))) :=
  t <- tick ;;
  match check_output_devices E t with
  | CheckTimeoutExpired => pure (Returned [])
  | CheckFailed msg => pure (Raised (Exception msg))
  | Output out =>
      match Py.decode Py.ignore out with
      | inl e => pure (Raised (UnicodeError e))
      | inr text =>
          devices <- fetch_properties (parse_devices (Py.split "010" text)) ;;
          pure (Returned devices)
      end
  end.

(** *** class [Device] *)

Definition new_Device (id : string) (properties : list (string * string))
    : Device :=
  {| id := id; properties := properties; in_use := false;
     last_installed_app := None; running_app_pid := 0;
     logcat_file := EmptyString; logcat_collect_process := None;
     logout_tempfile := None |}.

Definition unlock (self : Device) : Device := set_in_use false self.

(** What [_exec_adb] makes of the outcome of its process. *)
Definition communicate (outcome : ProcessOutcome) : string * option string :=
  match outcome with
  | Completed stdout stderr =>
      match Py.decode Py.replace stdout with
      | inl err => (EmptyString, Some (Py.str_UnicodeDecodeError err))
      | inr stdout_str =>
          match stderr with
          | [] => (stdout_str, None)
          | _ :: _ =>
              match Py.decode Py.replace stderr with
              | inl err =>
                  (EmptyString, Some (Py.str_UnicodeDecodeError err))
              | inr stderr_str => (stdout_str, Some stderr_str)
              end
          end
      end
  | TimeoutExpired msg => (EmptyString, Some msg)
  | PopenFailed msg => (EmptyString, Some msg)
  end.

Definition _exec_adb (self : Device) (cmd : list string)
    : M (string * option string) :=
  t <- tick ;;
  let e := ([ADB_BIN; "-s"; id self] ++ cmd)%list in
  pure (communicate (popen_communicate E t e)).

Definition _logcat (self : Device) (msg : string) : M unit :=
  _ <- _exec_adb self ["shell"; "log"; "-t"; "DENUVO_DEBUG"; msg] ;;
  pure tt.

(** [any(package_name.lower() in line.lower() for line in
    stdout.split("\n"))] *)
Definition any_line_contains (package_name stdout : string) : bool :=
  existsb (fun line => Py.contains (Py.lower (unicode E) package_name)
                                   (Py.lower (unicode E) line))
          (Py.split "010" stdout).

Definition is_package_installed (self : Device) (package_name : string)
    : M bool :=
  '(stdout, _) <- _exec_adb self ["shell"; "pm"; "list"; "packages"] ;;
  pure (any_line_contains package_name stdout).

Definition uninstall_apk (self : Device) (package_name : option string)
    : M (bool * Device) :=
  let uninstall (del_package : string) (self : Device) :=
    _ <- _logcat self ("Uninstall: " +:+ del_package) ;;
    _ <- _exec_adb self ["uninstall"; del_package] ;;
    pure (true, self) in
  match package_name with
  | Some del_package => uninstall del_package self
  | None =>
      match last_installed_app self with
      | Some del_package =>
          uninstall del_package (set_last_installed_app None self)
      | None => pure (false, self)
      end
  end.

Definition install_apk (self : Device) (filename : string)
    : M ((bool * string) * Device) :=
  let filename := pathlib.Path filename in
  ex <- path_exists filename ;;
  if negb ex then pure ((true, "File to install not found!"), self)
  else
    t <- tick ;;
    match get_package_name E t filename with
    | None => pure ((true, "Could not get package name"), self)
    | Some pname =>
        '(_, self) <- uninstall_apk self (Some pname) ;;
        _ <- _logcat self ("Installing APK: " +:+ filename) ;;
        '(_, stderr) <- _exec_adb self ["install"; filename] ;;
        installed <- is_package_installed self pname ;;
        if installed
        then pure ((false, EmptyString),
                  set_last_installed_app (Some pname) self)
        else
          let msg := "Could not install App, stderr: " in
          let msg := match stderr with
                     | Some stderr => msg +:+ stderr
                     | None => msg
                     end in
          pure ((true, msg), self)
    end.

Definition run_apk (self : Device) (custom_cmd : string) : M bool :=
  match last_installed_app self with
  | None => pure false
  | Some app =>
      let cmd :=
        if negb (String.eqb custom_cmd EmptyString)
        then Py.split " " custom_cmd
        else ["shell"; "monkey"; "-p"; app; "-c";
              "android.intent.category.LAUNCHER"; "1"] in
      _ <- _logcat self ("Starting APK: " +:+ app +:+ ", Device: " +:+ id self) ;;
      _ <- _exec_adb self cmd ;;
      pure true
  end.

Definition kill_apk (self : Device) : M bool :=
  match last_installed_app self with
  | None => pure false
  | Some EmptyString => pure false
  | Some app =>
      let cmd_force := ["shell"; "am"; "force-stop"; app] in
      let cmd_clear := ["shell"; "pm"; "clear"; app] in
      _ <- _logcat self ("Stopping APP: " +:+ app) ;;
      '(out, err) <- _exec_adb self cmd_clear ;;
      _ <- (if negb (String.eqb (Py.strip (unicode E) out) "Success")
               || match err with Some _ => true | None => false end
            then
              _ <- _logcat self ("Stopped APP (ERROR): " +:+ app) ;;
              _ <- _exec_adb self cmd_force ;;
              pure tt
            else pure tt) ;;
      _ <- _logcat self ("Stopped APP: " +:+ app) ;;
      pure true
  end.

Definition is_running (self : Device) (pname : string) : M (option Z) :=
  let lookup_pid (pname : string) :=
    '(stdout, _) <- _exec_adb self ["shell"; "pidof " +:+ pname] ;;
    pure match Py.split_ws (unicode E) stdout with
        | pid :: _ =>
            if Py.isdigit (unicode E) pid then Py.int (unicode E) pid else None
        | [] => None
        end in
  if String.eqb pname EmptyString
  then match last_installed_app self with
       | None => pure None
       | Some app => lookup_pid app
       end
  else lookup_pid pname.

Definition clear_logcat (self : Device) : M unit :=
  _ <- _exec_adb self ["logcat"; "-c"] ;;
  pure tt.

(** The temporary file is created empty; the capture process fills it
    while it runs, and what it has written is in the file when it is
    stopped (see [stop_collect_logcat]). *)
Definition start_collect_logcat (self : Device) : M (Raises Z * Device) :=
  t <- tick ;;
  let tmp := NamedTemporaryFile E t in
  _ <- modify (fun w => set_files (<[tmp := []]> (files w)) w) ;;
  let self := set_logcat (logcat_collect_process self) (Some tmp) self in
  t <- tick ;;
  match popen_logcat E t (id self) with
  | Returned pid => pure (Returned pid, set_logcat (Some pid) (Some tmp) self)
  | Raised e =>
      pure (Raised e, set_logcat (logcat_collect_process self) None self)
  end.

Definition stop_collect_logcat (self : Device)
    : M (option string * Device) :=
  _ <- _logcat self ("Stop logcat - app: " +:+ str_opt (last_installed_app self)) ;;
  match logcat_collect_process self, logout_tempfile self with
  | None, _ => pure (None, self)
  | Some _, None => pure (None, self)
  | Some _, Some tmp =>
      t <- tick ;;
      match terminate_wait E t with
      | TerminateFailed _ => pure (None, self)
      | Terminated | WaitTimeoutExpired =>
          _ <- modify (fun w =>
                 set_files (<[tmp := logcat_captured E t]> (files w)) w) ;;
          pure (Some tmp, set_logcat None None self)
      end
  end.

End WithEnv.
End device.

(* ===================================================================== *)
(** ** [grpc_wrapper/grpc_server.py]                                       *)
(* ===================================================================== *)

Definition CHUNK_SIZE : nat := 1024 * 1024.

Module VTestStation.

Definition add_device (device : Device) : M unit :=
  modify (fun w =>
    if Py.dict_mem (id device) (devices w) then w
    else set_devices (Py.dict_set (id device) device (devices w)) w).

Definition del_device (device_id : string) : M unit :=
  modify (fun w =>
    if Py.dict_mem device_id (devices w)
    then set_devices (Py.dict_del device_id (devices w)) w
    else w).

Definition get_device (id : string) : M (option Device) :=
  gets (fun w => Py.dict_get id (devices w)).

Definition devices_as_dict : M (list (list (string * PyVal))) :=
  gets (fun w =>
    map (fun d =>
           Py.dict_update
             [("id", VStr (id d)); ("in_use", VBool (in_use d))]
             (map (fun kv => (fst kv, VStr (snd kv))) (properties d)))
        (Py.dict_values (devices w))).

(** The registry holds references: what a method did to the object
    obtained from [get_device did] is visible under [did]. *)
Definition store (did : string) (dev : Device) : M unit :=
  modify (fun w => set_devices (Py.dict_set did dev (devices w)) w).

End VTestStation.

Module VTestFunctions.
Section WithEnv.
Variable E : Env.

Definition ok {A} (r : A) : RPCResponse A :=
  {| result := r; error := EmptyString |}.
Definition failed {A} (dflt : A) (e : string) : RPCResponse A :=
  {| result := dflt; error := e |}.

(** First loop of [getAdbDevices]: a record for each online device that
    has none. *)
Fixpoint add_online (devices : list (string * list (string * string)))
    : M (Raises unit) :=
  match devices with
  | [] => pure (Returned tt)
  | (id, properties) :: rest =>
      match Py.dict_get "state" properties with
      | None => pure (Raised (KeyError "state"))
      | Some state =>
          _ <- (if negb (String.eqb state "device") then pure tt
                else VTestStation.add_device (device.new_Device id properties)) ;;
          add_online rest
      end
  end.

(** Second loop of [getAdbDevices]: over a copy of the keys. *)
Fixpoint remove_absent (known present : list string) : M unit :=
  match known with
  | [] => pure tt
  | devid :: rest =>
      _ <- (if negb (Py.list_mem devid present)
            then VTestStation.del_device devid else pure tt) ;;
      remove_absent rest present
  end.

Definition getAdbDevices : M (Raises DeviceListResponse) :=
  r <- device.get_all_devices E ;;
  match r with
  | Raised e =>
      pure (Returned (failed [] ("Get all devices failed: " +:+ str_Exn e)))
  | Returned devs =>
      r <- add_online devs ;;
      match r with
      | Raised e => pure (Raised e)
      | Returned _ =>
          known <- gets (fun w => Py.dict_keys (devices w)) ;;
          _ <- remove_absent known (Py.dict_keys devs) ;;
          res <- VTestStation.devices_as_dict ;;
          pure (Returned (ok res))
      end
  end.

(** The loop of [getFreeDevices] over [VTestStation.devices.values()]:
    the registry with the leased devices marked, and [ret_devices]. *)
Fixpoint scan (num_devices : Z) (wish_devices : list string)
    (ds : list (string * Device)) (ret_devices : list string)
    : list (string * Device) * list string :=
  match ds with
  | [] => ([], ret_devices)
  | (k, device) :: rest =>
      let continue (device : Device) (ret_devices : list string) :=
        let '(rest', r) := scan num_devices wish_devices rest ret_devices in
        ((k, device) :: rest', r) in
      let add_device (device : Device) :=
        continue (set_in_use true device) (ret_devices ++ [id device])%list in
      if in_use device then continue device ret_devices
      else if (List.length wish_devices =? 0)%nat then
        if (Z.of_nat (List.length ret_devices) =? num_devices)%Z
        then (ds, ret_devices)
        else add_device device
      else if Py.list_mem (id device) wish_devices then add_device device
      else continue device ret_devices
  end.

(** [if len(VTestStation.devices) == 0: VTestFunctions.getAdbDevices()] *)
Definition lazy_discovery : M (Raises DeviceListResponse) :=
  n <- gets (fun w => List.length (devices w)) ;;
  if (n =? 0)%nat then getAdbDevices else pure (Returned (ok [])).

Definition getFreeDevices (num_devices : Z) (wish_devices : list string)
    : M (Raises DeviceIdResponse) :=
  r <- lazy_discovery ;;
  match r with
  | Raised e => pure (Raised e)
  | Returned _ =>
      ds <- gets devices ;;
      let '(ds', ret_devices) := scan num_devices wish_devices ds [] in
      _ <- modify (set_devices ds') ;;
      if (List.length ret_devices =? 0)%nat
      then pure (Returned (failed [] "No free devices"))
      else pure (Returned (ok ret_devices))
  end.

(** [sign_apk(app_file, ...)]: the tool writes the signed package, and
    the function returns its path when the file is there afterwards. *)
Definition signed_by_tool (app_file : string) : M (option string) :=
  t <- tick ;;
  match sign_apk E t app_file with
  | None => pure None
  | Some (signed_file, content) =>
      let signed_file := pathlib.Path signed_file in
      written <- gets (fun w => host_write E w signed_file content) ;;
      match written with
      | Raised _ => pure None
      | Returned files' =>
          _ <- modify (set_files files') ;;
          pure (Some signed_file)
      end
  end.

Definition installApp (did : string) (server_file : string)
    (sign_file : bool) : M BooleanResponse :=
  let app_file := pathlib.joinpath (REL_DIR E) server_file in
  ex <- device.path_exists E app_file ;;
  if negb ex then pure (failed false "Appfile not found!")
  else if negb (String.eqb (pathlib.suffix app_file) ".apk")
  then pure (failed false "only .apk files can be installed!")
  else
    signed <- (if sign_file then signed_by_tool app_file
               else pure (Some app_file)) ;;
    match signed with
    | None => pure (failed false "Could not sign apk")
    | Some signed_file =>
        dev <- VTestStation.get_device did ;;
        match dev with
        | None => pure (failed false "Device not found: None")
        | Some dev =>
            '((error, stderr_msg), dev) <- device.install_apk E dev signed_file ;;
            _ <- VTestStation.store did dev ;;
            if error then pure (failed false stderr_msg)
            else pure (ok true)
        end
    end.

Definition uninstallApp (did : string) : M BooleanResponse :=
  dev <- VTestStation.get_device did ;;
  match dev with
  | None =>
      pure (failed false ("Uninstall app failed, device not available: " +:+ did))
  | Some dev =>
      '(done, dev) <- device.uninstall_apk E dev None ;;
      _ <- VTestStation.store did dev ;;
      if done then pure (ok true) else pure (failed false "Uninstall Failed!")
  end.

Definition isPackageNameInstalled (did package_name : string)
    : M BooleanResponse :=
  dev <- VTestStation.get_device did ;;
  match dev with
  | None =>
      pure (failed false
              ("isPackageNameInstalled failed, device not available: " +:+ did))
  | Some dev =>
      b <- device.is_package_installed E dev package_name ;;
      pure (ok b)
  end.

Definition startLogcatCollect (did : string) : M LogcatResponse :=
  dev <- VTestStation.get_device did ;;
  match dev with
  | None =>
      pure (failed None ("Logcat start failed, device not available: " +:+ did))
  | Some dev =>
      _ <- device.clear_logcat E dev ;;
      '(r, dev) <- device.start_collect_logcat E dev ;;
      _ <- VTestStation.store did dev ;;
      match r with
      | Returned logcat_pid => pure (ok (Some (inr logcat_pid)))
      | Raised e => pure (failed None ("Logcat start failed: " +:+ str_Exn e))
      end
  end.

Definition stopLogcatCollect (did : string) : M LogcatResponse :=
  dev <- VTestStation.get_device did ;;
  match dev with
  | None =>
      pure (failed None ("Logcat stop failed, device not available: " +:+ did))
  | Some dev =>
      '(logcat_file, dev) <- device.stop_collect_logcat E dev ;;
      _ <- VTestStation.store did dev ;;
      match logcat_file with
      | None => pure (failed None "Logcat stop failed, no output file!")
      | Some f => pure (ok (Some (inl f)))
      end
  end.

(** [time.sleep(execution_time)] comes after the pid has been stored and
    before the app is killed; it raises for a negative time. *)
Definition runLastInstalledApk (did : string) (execution_time : Z)
    (custom_cmd : string) : M (Raises BooleanResponse) :=
  dev <- VTestStation.get_device did ;;
  match dev with
  | None =>
      pure (Returned
              (failed false
                 ("runLastInstalledApk failed, device not available: " +:+ did)))
  | Some dev =>
      started <- device.run_apk E dev custom_cmd ;;
      if negb started then pure (Returned (failed false "No App specified"))
      else
        pid <- device.is_running E dev EmptyString ;;
        match pid with
        | None => pure (Returned (failed false "App not running, startup fail!"))
        | Some pid =>
            let dev := set_running_app_pid pid dev in
            _ <- VTestStation.store did dev ;;
            match time.sleep execution_time with
            | Raised e => pure (Raised e)
            | Returned _ =>
                killed <- device.kill_apk E dev ;;
                if negb killed
                then pure (Returned (failed false "Killing failed after execution"))
                else pure (Returned (ok true))
            end
        end
  end.

Definition killApp (did : string) : M BooleanResponse :=
  dev <- VTestStation.get_device did ;;
  match dev with
  | None => pure (failed false ("killApp failed, device not available: " +:+ did))
  | Some dev =>
      killed <- device.kill_apk E dev ;;
      if killed then pure (ok true) else pure (failed false "Killing app failed")
  end.

Definition unlockDevice (did : string) : M BooleanResponse :=
  if String.eqb did "__ALL__"
  then
    _ <- modify (fun w =>
           set_devices
             (map (fun kv => (fst kv, set_in_use false (snd kv))) (devices w)) w) ;;
    pure (ok true)
  else
    dev <- VTestStation.get_device did ;;
    match dev with
    | None => pure (failed false ("Device not found: " +:+ did))
    | Some dev =>
        _ <- VTestStation.store did (set_in_use false dev) ;;
        pure (ok true)
    end.

End WithEnv.
End VTestFunctions.

(** The messages of [communication.proto], as far as the program reads and
    writes their fields.  A chunk of a pulled file is represented by its
    [chunk_data], its [error] being empty. *)
Module communication_pb2.

(** Modelled from the spec: the generated module [communication_pb2] is
    not among the sources.  A chunk of an upload: "the first chunk carries
    filename and destination-directory metadata, every chunk (including
    the first) carries a payload fragment"; the client fills the three
    fields of every chunk. *)
Record FileUploadRequest := {
  filename : string;
  chunk_data : Py.bytes;
  storage_path : string
}.

(** Modelled from the spec: the generated module [communication_pb2] is
    not among the sources.  The reply of a unary RPC: the [error] field
    that every reply has, empty for success, and the other field of the
    reply, if it has one ([device_list], [logcat_pid], [logcat_file],
    [installed]). *)
Record Reply (A : Type) := {
  reply_error : string;
  reply_value : A
}.
Arguments reply_error {A} r.
Arguments reply_value {A} r.

End communication_pb2.

Module CommunicationServicer.
Section WithEnv.
Variable E : Env.
Import communication_pb2.

Definition reply {A} (e : string) (v : A) : Reply A :=
  {| reply_error := e; reply_value := v |}.

(** [storage_path.mkdir(exist_ok=True)] makes the directory when its
    parent is there, and raises when it is not or when a file has that
    name; [open(..., "wb")] raises when it cannot make the file.  The
    file receives the chunks in order. *)
Definition UploadFile (request_iterator : list FileUploadRequest)
    : M (Raises string) :=
  match request_iterator with
  | [] => pure (Raised StopIteration)
  | first_request :: rest =>
      let storage_path :=
        pathlib.joinpath (REL_DIR E) (storage_path first_request) in
      made <- gets (fun w => host_mkdir E w storage_path) ;;
      match made with
      | Raised e => pure (Raised e)
      | Returned dirs' =>
          _ <- modify (set_dirs dirs') ;;
          let dest := pathlib.joinpath storage_path (filename first_request) in
          let written :=
            fold_left (fun f request => (f ++ chunk_data request)%list)
                      rest (chunk_data first_request) in
          opened <- gets (fun w => host_write E w dest written) ;;
          match opened with
          | Raised e => pure (Raised e)
          | Returned files' =>
              _ <- modify (set_files files') ;;
              pure (Returned "OK")
          end
      end
  end.

(** The chunks streamed, and the status that ends the stream when it is
    not OK.  An exception of [open] ends the iteration of the responses. *)
Definition PullFile (filename : string)
    : M (list Py.bytes * option (grpc.StatusCode * string)) :=
  gets (fun w =>
    if negb (host_exists E w filename)
    then ([], Some (grpc.NOT_FOUND, "File not found"))
    else match host_read E w filename with
         | Returned content => (Py.read_chunks CHUNK_SIZE content, None)
         | Raised e =>
             ([], Some (grpc.UNKNOWN,
                        "Exception iterating responses: " +:+ str_Exn e))
         end).

Definition GetFreeDevices (num_devices : Z) (device_list : list string)
    : M (Raises (Reply (list string))) :=
  r <- VTestFunctions.getFreeDevices E num_devices device_list ;;
  pure match r with
       | Raised e => Raised e
       | Returned r => Returned (reply (error r) (result r))
       end.

Definition UnlockDevice (device_id : string) : M (Raises (Reply unit)) :=
  r <- VTestFunctions.unlockDevice device_id ;;
  pure (Returned (reply (error r) tt)).

Definition InstallApp (device_id server_path : string) (sign_app : bool)
    : M (Raises (Reply unit)) :=
  r <- VTestFunctions.installApp E device_id server_path sign_app ;;
  pure (Returned (reply (error r) tt)).

Definition UninstallApp (device_id : string) : M (Raises (Reply unit)) :=
  r <- VTestFunctions.uninstallApp E device_id ;;
  pure (Returned (reply (error r) tt)).

Definition IsPackageNameInstalled (device_id package_name : string)
    : M (Raises (Reply bool)) :=
  r <- VTestFunctions.isPackageNameInstalled E device_id package_name ;;
  pure (Returned (reply EmptyString (result r))).

(** A protobuf field that is given [None] keeps its default. *)
Definition StartLogcatCollect (device_id : string) : M (Raises (Reply Z)) :=
  r <- VTestFunctions.startLogcatCollect E device_id ;;
  pure (Returned (reply (error r)
          match result r with Some (inr pid) => pid | _ => 0%Z end)).

Definition StopLogcatCollect (device_id : string)
    : M (Raises (Reply string)) :=
  r <- VTestFunctions.stopLogcatCollect E device_id ;;
  pure (Returned (reply (error r)
          match result r with Some (inl f) => f | _ => EmptyString end)).

Definition RunLastInstalledApk (device_id : string) (execution_time : Z)
    (custom_cmd : string) : M (Raises (Reply unit)) :=
  r <- VTestFunctions.runLastInstalledApk E device_id execution_time custom_cmd ;;
  pure match r with
       | Raised e => Raised e
       | Returned r => Returned (reply (error r) tt)
       end.

Definition KillApp (device_id : string) : M (Raises (Reply unit)) :=
  r <- VTestFunctions.killApp E device_id ;;
  pure (Returned (reply (error r) tt)).

End WithEnv.
End CommunicationServicer.

(* ===================================================================== *)
(** ** [grpc_wrapper/grpc_client.py]                                       *)
(* ===================================================================== *)

Module grpc_client.

Record GRPCResult (A : Type) := {
ret : option A;
err : option string
}.
Arguments ret {A} g.
Arguments err {A} g.

Section WithEnv.
Variable E : Env.
Import communication_pb2.

(** [grpc.RpcError(code, details)] *)
Definition rpc_failure (status : grpc.StatusCode * string) : Exn :=
  RpcError (grpc.str (fst status)) (snd status).

(** The [grpc.RpcError] of the RPC [r] that did not get through at
    interaction [t]. *)
Definition transport_error (t : nat) (r : Rpc) : Exn :=
  rpc_failure (rpc_error E t r).

(** A unary call, or a call with a request stream, through the stub: the
    attempt is logged, the transport decides whether the servicer runs
    and whether its answer arrives; an exception of the servicer reaches
    the client as an [RpcError]. *)
Definition stub {A} (r : Rpc) (arg : string) (servicer : M (Raises A))
    : M (Raises A) :=
  _ <- modify (fun w => set_rpc_log (rpc_log w ++ [(r, arg)])%list w) ;;
  t <- tick ;;
  match channel E t r with
  | RequestLost => pure (Raised (transport_error t r))
  | ResponseLost => _ <- servicer ;; pure (Raised (transport_error t r))
  | Delivered =>
      a <- servicer ;;
      pure match a with
           | Returned a => Returned a
           | Raised e =>
               Raised (rpc_failure
                         (grpc.UNKNOWN,
                          "Exception calling application: " +:+ str_Exn e))
           end
  end.

(** A call with a response stream: the chunks received and the
    [RpcError] that ends the iteration, if any. *)
Definition stub_stream (r : Rpc) (arg : string)
    (servicer : M (list Py.bytes * option (grpc.StatusCode * string)))
    : M (list Py.bytes * option Exn) :=
  _ <- modify (fun w => set_rpc_log (rpc_log w ++ [(r, arg)])%list w) ;;
  t <- tick ;;
  match channel E t r with
  | RequestLost => pure ([], Some (transport_error t r))
  | ResponseLost => _ <- servicer ;; pure ([], Some (transport_error t r))
  | Delivered =>
      '(chunks, status) <- servicer ;;
      pure (chunks, option_map rpc_failure status)
  end.

(** The generator of [upload_file]: it raises when the local file cannot
    be opened. *)
Definition file_chunk_generator (filename storage_path : string)
    : M (Raises (list FileUploadRequest)) :=
  gets (fun w =>
    match local_read E w filename with
    | Raised e => Raised e
    | Returned content =>
        Returned
          (map (fun chunk =>
                  {| communication_pb2.filename := pathlib.name filename;
                     chunk_data := chunk;
                     communication_pb2.storage_path := storage_path |})
               (Py.read_chunks CHUNK_SIZE content))
    end).

Definition upload_file (filename storage_path : string) : M bool :=
  let filename := pathlib.Path filename in
  let storage_path := pathlib.Path storage_path in
  gen <- file_chunk_generator filename storage_path ;;
  response <- stub UploadFile filename
                match gen with
                | Returned requests => CommunicationServicer.UploadFile E requests
                | Raised e => pure (Raised e)
                end ;;
  pure match response with
       | Returned message => String.eqb message "OK"
       | Raised _ => false
       end.

Definition pull_file (filename : string) : M (bool * string) :=
  let filename := pathlib.Path filename in
  '(chunks, failure) <- stub_stream PullFile filename
                          (CommunicationServicer.PullFile E filename) ;;
  match failure with
  | Some e => pure (true, str_Exn e)
  | None =>
      let full_response :=
        fold_left (fun acc chunk => (acc ++ chunk)%list) chunks [] in
      match Py.decode Py.ignore full_response with
      | inr text => pure (false, text)
      | inl e => pure (true, "Decode Error: " +:+ Py.str_UnicodeDecodeError e)
      end
  end.

Definition get_free_device (num_devices : Z) (device_list : list string) :=
  stub GetFreeDevices EmptyString
    (CommunicationServicer.GetFreeDevices E num_devices device_list).

Definition unlock_device (device_id : string) :=
  stub UnlockDevice device_id (CommunicationServicer.UnlockDevice device_id).

Definition install_app (device_id server_path : string) (sign_app : bool) :=
  stub InstallApp device_id
    (CommunicationServicer.InstallApp E device_id (pathlib.Path server_path)
       sign_app).

Definition uninstall_app (device_id : string) :=
  stub UninstallApp device_id (CommunicationServicer.UninstallApp E device_id).

Definition is_package_name_installed (device_id package_name : string) :=
  stub IsPackageNameInstalled device_id
    (CommunicationServicer.IsPackageNameInstalled E device_id package_name).

Definition start_logcat_collect (device_id : string) :=
  stub StartLogcatCollect device_id
    (CommunicationServicer.StartLogcatCollect E device_id).

Definition stop_logcat_collect (device_id : string) :=
  stub StopLogcatCollect device_id
    (CommunicationServicer.StopLogcatCollect E device_id).

Definition run_last_installed_apk (device_id : string) (execution_time : Z)
    (custom_cmd : string) :=
  stub RunLastInstalledApk device_id
    (CommunicationServicer.RunLastInstalledApk E device_id execution_time
       custom_cmd).

Definition kill_app (device_id : string) :=
  stub KillApp device_id (CommunicationServicer.KillApp E device_id).

End WithEnv.

(** *** class [GRPCClient]

  [_execute_grpc_call] opens a channel, runs the function on its stub and
  returns what it returns; an exception of the function passes through. *)
Module GRPCClient.
Section WithEnv.
Variable E : Env.
Import communication_pb2.

Definition error_of (e : string) : option string :=
  if String.eqb e EmptyString then None else Some e.

(** The shape shared by the methods that turn a reply into a
    [GRPCResult]. *)
Definition wrap {A B} (call : M (Raises (Reply A)))
    (value : Reply A -> option B) : M (Raises (GRPCResult B)) :=
  r <- call ;;
  pure match r with
       | Raised e => Raised e
       | Returned r =>
           Returned {| ret := value r; err := error_of (reply_error r) |}
       end.

Definition upload_file (filename storage_path : string)
    : M (GRPCResult bool) :=
  r <- upload_file E filename storage_path ;;
  pure (if r then {| ret := Some true; err := None |}
        else {| ret := None; err := Some "Upload failed" |}).

Definition pull_file (filename : string) : M (GRPCResult string) :=
  '(error, result) <- pull_file E filename ;;
  pure (if error then {| ret := None; err := Some result |}
        else {| ret := Some result; err := None |}).

Definition get_free_device (num_devices : Z) (device_list : list string)
    : M (Raises (GRPCResult (list string))) :=
  wrap (get_free_device E num_devices device_list)
       (fun r => Some (reply_value r)).

Definition unlock_device (device_id : string)
    : M (Raises (GRPCResult bool)) :=
  wrap (unlock_device E device_id)
       (fun r => Some (String.eqb (reply_error r) EmptyString)).

Definition install_app (device_id server_path : string) (sign_app : bool)
    : M (Raises (GRPCResult bool)) :=
  wrap (install_app E device_id server_path sign_app)
       (fun r => Some (String.eqb (reply_error r) EmptyString)).

Definition uninstall_app (device_id : string)
    : M (Raises (GRPCResult unit)) :=
  wrap (uninstall_app E device_id) (fun _ => None).

Definition is_package_name_installed (device_id package_name : string)
    : M (Raises (GRPCResult bool)) :=
  r <- is_package_name_installed E device_id package_name ;;
  pure match r with
       | Raised e => Raised e
       | Returned r => Returned {| ret := Some (reply_value r); err := None |}
       end.

Definition start_logcat_collect (device_id : string)
    : M (Raises (GRPCResult Z)) :=
  wrap (start_logcat_collect E device_id) (fun r => Some (reply_value r)).

Definition stop_logcat_collect (device_id : string)
    : M (Raises (GRPCResult string)) :=
  wrap (stop_logcat_collect E device_id) (fun r => Some (reply_value r)).

Definition run_last_installed_apk (device_id : string)
    (execution_time : Z) (custom_cmd : string)
    : M (Raises (GRPCResult unit)) :=
  wrap (run_last_installed_apk E device_id execution_time custom_cmd)
       (fun _ => None).

Definition kill_app (device_id : string) : M (Raises (GRPCResult unit)) :=
  wrap (kill_app E device_id) (fun _ => None).

End WithEnv.
End GRPCClient.

End grpc_client.

(* ===================================================================== *)
(** ** [grpc_wrapper/utils/device_context.py]                              *)
(* ===================================================================== *)

Module DeviceUsage.
Section WithEnv.
Variable E : Env.
Import grpc_client.

(** An operation of the cleanup, its result dropped. *)
Definition operation {A} (call : string -> M (Raises A)) (device_id : string)
    : M (Raises unit) :=
  r <- call device_id ;;
  pure match r with
       | Returned _ => Returned tt
       | Raised e => Raised e
       end.

Definition cleanup_operations : list ((string -> M (Raises unit)) * string) :=
  [ (operation (GRPCClient.uninstall_app E), "Uninstalling app");
    (operation (GRPCClient.stop_logcat_collect E), "Stopping logcat collection");
    (operation (GRPCClient.unlock_device E), "Unlocking device") ].

(** [for operation, description in ...: try: operation(self.device_id)
    except Exception: continue] *)
Fixpoint run_operations (ops : list ((string -> M (Raises unit)) * string))
    (device_id : string) : M unit :=
  match ops with
  | [] => pure tt
  | (operation, _) :: rest =>
      r <- operation device_id ;;
      match r with
      | Returned _ => run_operations rest device_id
      | Raised _ => run_operations rest device_id
      end
  end.

Definition __enter__ : M unit := pure tt.

Definition __exit__ (device_id : string) : M unit :=
  run_operations cleanup_operations device_id.

End WithEnv.
End DeviceUsage.

(* ===================================================================== *)
(** ** [grpc_wrapper/app_executor.py]                                      *)
(* ===================================================================== *)

Module app_executor.

Record ExecutionResult := {
error : bool;
devid : string;
result : string;
logcat_file : option string;
server_name : option string
}.

Section WithEnv.
Variable E : Env.
Import grpc_client.

Definition set_error (b : bool) (r : ExecutionResult) : ExecutionResult :=
  {| error := b; devid := devid r; result := result r;
     logcat_file := logcat_file r; server_name := server_name r |}.

Definition set_result (s : string) (r : ExecutionResult) : ExecutionResult :=
  {| error := error r; devid := devid r; result := s;
     logcat_file := logcat_file r; server_name := server_name r |}.

Definition set_logcat_file (f : option string) (r : ExecutionResult)
    : ExecutionResult :=
  {| error := error r; devid := devid r; result := result r;
     logcat_file := f; server_name := server_name r |}.

(** How a block ends: by [return exec_result], by an exception, or by
    reaching its end. *)
Inductive Completion :=
| Return
| Raise (e : Exn)
| FallThrough.

(** The [try] block.  [exec_result] is one object: the block returns it
    as it has mutated it. *)
Definition try_block (exec_result : ExecutionResult) (devid stored_file : string)
    (execution_time : Z) (sign_app : bool) (custom_cmd : string)
    : M (ExecutionResult * Completion) :=
  response <- GRPCClient.start_logcat_collect E devid ;;
  match response with
  | Raised e => pure (exec_result, Raise e)
  | Returned response =>
  match err response with
  | Some e =>
      pure (set_result ("Error start_logcat_collect: " +:+ e) exec_result,
            Return)
  | None =>
  response <- GRPCClient.install_app E devid stored_file sign_app ;;
  match response with
  | Raised e => pure (exec_result, Raise e)
  | Returned response =>
  match err response with
  | Some e =>
      pure (set_result ("Error install_app: " +:+ e) exec_result, Return)
  | None =>
  response <- GRPCClient.run_last_installed_apk E devid execution_time
                custom_cmd ;;
  match response with
  | Raised e => pure (exec_result, Raise e)
  | Returned response =>
  match err response with
  | Some e => pure (set_result e exec_result, Return)
  | None =>
  response <- GRPCClient.uninstall_app E devid ;;
  match response with
  | Raised e => pure (exec_result, Raise e)
  | Returned response =>
  match err response with
  | Some e =>
      pure (set_result ("Error uninstall_app: " +:+ e) exec_result, Return)
  | None => pure (set_error false exec_result, Return)
  end end end end end end end end.

(** The [finally] block. *)
Definition finally_block (exec_result : ExecutionResult) (devid : string)
    : M (ExecutionResult * Completion) :=
  response <- GRPCClient.stop_logcat_collect E devid ;;
  match response with
  | Raised e => pure (exec_result, Raise e)
  | Returned response =>
      match err response, ret response with
      | None, Some logcat =>
          result <- GRPCClient.pull_file E logcat ;;
          match err result, ret result with
          | None, Some text =>
              t <- tick ;;
              let logcat_path := NamedTemporaryFile E t in
              _ <- modify (fun w =>
                     set_local_files
                       (<[logcat_path := Py.encode text]> (local_files w)) w) ;;
              pure (set_logcat_file (Some logcat_path) exec_result, FallThrough)
          | _, _ =>
              pure (set_result ("Error pulling logcat: " +:+ str_opt (err response))
                      (set_error true exec_result),
                    Return)
          end
      | _, _ =>
          pure (set_result ("Error stopping logcat: " +:+ str_opt (err response))
                  (set_error true exec_result),
                Return)
      end
  end.

(** [try: ... finally: ...]: a [return] or an exception of the [finally]
    block replaces the outcome of the [try] block. *)
Definition try_finally (exec_result : ExecutionResult) (devid stored_file : string)
    (execution_time : Z) (sign_app : bool) (custom_cmd : string)
    : M (Raises ExecutionResult) :=
  '(exec_result, tried) <- try_block exec_result devid stored_file
                             execution_time sign_app custom_cmd ;;
  '(exec_result, finished) <- finally_block exec_result devid ;;
  pure match finished with
       | Return => Returned exec_result
       | Raise e => Raised e
       | FallThrough =>
           match tried with
           | Raise e => Raised e
           | Return | FallThrough => Returned exec_result
           end
       end.

(** [with DeviceUsage(...)]: [__exit__] runs however the body ends and
    returns [None], so an exception of the body goes on. *)
Definition execute_app (devid stored_file : string) (server_name : string)
    (execution_time : Z) (sign_app : bool) (custom_cmd : string)
    : M (Raises ExecutionResult) :=
  let exec_result :=
    {| error := true; devid := devid; result := EmptyString;
       logcat_file := None; server_name := Some server_name |} in
  _ <- DeviceUsage.__enter__ ;;
  outcome <- try_finally exec_result devid stored_file execution_time
               sign_app custom_cmd ;;
  _ <- DeviceUsage.__exit__ E devid ;;
  pure outcome.

End WithEnv.
End app_executor.

(* ===================================================================== *)
(** ** [grpc_wrapper/utils/apktools.py]: the name of a package            *)
(* ===================================================================== *)

Module apktools.

(** [needle in hay] for [bytes] *)
Fixpoint bytes_startswith (hay needle : Py.bytes) : bool :=
  match needle, hay with
  | [], _ => true
  | a :: needle', b :: hay' => Byte.eqb a b && bytes_startswith hay' needle'
  | _ :: _, [] => false
  end.

Fixpoint bytes_contains (needle hay : Py.bytes) : bool :=
  bytes_startswith hay needle
  || match hay with
     | [] => false
     | _ :: rest => bytes_contains needle rest
     end.

(** [s.split(sep)] for a separator of several characters; [skip] counts
    the characters at the head that belong to an occurrence of the
    separator already found. *)
Fixpoint split_str (sep : string) (skip : nat) (s : string) : list string :=
  match s with
  | EmptyString => [EmptyString]
  | String c r =>
      match skip with
      | S k => split_str sep k r
      | O =>
          if Py.startswith s sep
          then EmptyString :: split_str sep (String.length sep - 1) r
          else match split_str sep 0 r with
               | h :: t => String c h :: t
               | [] => [String c EmptyString]
               end
      end
  end.

(** The loop of [get_package_name] over the lines that [aapt2 dump
    badging] printed.  An index out of range is an exception, which the
    function answers with [None]. *)
Fixpoint package_name_of (out : list Py.bytes) : option string :=
  match out with
  | [] => Some EmptyString
  | line :: rest =>
      if bytes_contains (Py.encode "package: name=") line
      then
        match Py.decode Py.replace line with
        | inl _ => None
        | inr text =>
            match split_str "name='" 0 text with
            | _ :: after :: _ =>
                match Py.split "'" after with
                | name :: _ => Some name
                | [] => None
                end
            | _ => None
            end
        end
      else package_name_of rest
  end.

(** [get_package_name], given the lines that the tool printed, or [None]
    when the tool could not be run. *)
Definition get_package_name (aapt2 : option (list Py.bytes)) : option string :=
  match aapt2 with
  | None => None
  | Some out => package_name_of out
  end.

End apktools.

(* ===================================================================== *)
(** ** [fastapi_backend.py]: the device keys of the HTTP façade           *)
(* ===================================================================== *)

Module fastapi_backend.
Section WithUnicode.
Variable U : Py.Unicode.

(** [HTTPException(status_code, detail)] *)
Record HTTPException := {
status_code : Z;
detail : string
}.

(** [d[key].append(value)] on a [defaultdict(list)] *)
Definition append_to (key value : string) (d : list (string * list string))
    : list (string * list string) :=
  Py.dict_set key
    (match Py.dict_get key d with
     | Some l => (l ++ [value])%list
     | None => [value]
     end) d.

(** [a, b = parts]; the [ValueError] is carried as [Exception], with its
    message. *)
Definition unpack2 (parts : list string) : Raises (string * string) :=
  match parts with
  | [a; b] => Returned (a, b)
  | [] | [_] =>
      Raised (Exception
                ("not enough values to unpack (expected 2, got "
                 +:+ Py.str_of_nat (List.length parts) +:+ ")"))
  | _ => Raised (Exception "too many values to unpack (expected 2)")
  end.

(** [ExecuteAppRequest.validate_devices], the loop. *)
Fixpoint validate_items (items : list string) : Raises unit :=
  match items with
  | [] => Returned tt
  | dev :: rest =>
      if negb (Py.contains "_" dev)
      then Raised (Exception ("Invalid device format: " +:+ dev))
      else if negb (List.length (Py.split "_" dev) =? 2)%nat
      then Raised (Exception ("Invalid device format: " +:+ dev))
      else validate_items rest
  end.

Definition validate_devices (v : string) : Raises string :=
  if String.eqb v EmptyString
  then Raised (Exception "Devices list cannot be empty")
  else match validate_items (Py.split "," v) with
       | Returned _ => Returned v
       | Raised e => Raised e
       end.

(** The loop of [getdevices] over [ids.split(",")]. *)
Fixpoint group_ids (items : list string)
    (requested_ids : list (string * list string))
    : Raises (list (string * list string)) :=
  match items with
  | [] => Returned requested_ids
  | device_id :: rest =>
      match unpack2 (Py.split "_" device_id) with
      | Raised e => Raised e
      | Returned (device_id, server_name) =>
          group_ids rest (append_to server_name device_id requested_ids)
      end
  end.

(** [requested_ids] of [getdevices], or the exception it raises. *)
Definition requested_ids (ids : string)
    : HTTPException + list (string * list string) :=
  if String.eqb ids EmptyString then inr []
  else match group_ids (Py.split "," ids) [] with
       | Returned requested_ids => inr requested_ids
       | Raised e =>
           inl {| status_code := 406;
                  detail := "Invalid ID format: " +:+ str_Exn e |}
       end.

(** [device_key] of [getdevices], also the keys of the results of
    [executeApp]: [f"{id}_{server_name}"]. *)
Definition device_key (id server_name : string) : string :=
  id +:+ "_" +:+ server_name.

(** The loop of [executeApp] over [request.devices.split(",")]. *)
Fixpoint group_devs (items : list string)
    (devs_per_server : list (string * list string))
    : Raises (list (string * list string)) :=
  match items with
  | [] => Returned devs_per_server
  | dev :: rest =>
      match unpack2 (Py.split "_" dev) with
      | Raised e => Raised e
      | Returned (devid, server_name) =>
          group_devs rest
            (append_to (Py.strip U server_name) (Py.strip U devid)
               devs_per_server)
      end
  end.

Definition devs_per_server (devices : string)
    : Raises (list (string * list string)) :=
  group_devs (Py.split "," devices) [].

End WithUnicode.
End fastapi_backend.

(* ===================================================================== *)
(** ** The leasing rule in the words of the specification                 *)
(* ===================================================================== *)

Module Spec.

(** "A device is eligible only if [in_use = false].  If [desired_ids] is
    non-empty, eligibility additionally requires membership in
    [desired_ids]." *)
Definition eligible (desired_ids : list string) (d : Device) : bool :=
  negb (in_use d)
  && match desired_ids with
     | [] => true
     | _ :: _ => Py.list_mem (id d) desired_ids
     end.

(** "Scans devices in registry iteration order ... Otherwise, the scan
    stops once [count] devices are collected."  A count that is never
    reached stops nothing. *)
Definition leasable (count : Z) (desired_ids : list string)
    (registry : list (string * Device)) : list string :=
  let candidates :=
    map id (List.filter (eligible desired_ids) (Py.dict_values registry)) in
  match desired_ids with
  | [] => if (count <? 0)%Z then candidates
          else take (Z.to_nat count) candidates
  | _ :: _ => candidates
  end.

End Spec.

(* ===================================================================== *)
(** ** Vocabulary of the statements                                        *)
(* ===================================================================== *)

(** An entry of an enumeration carries a ["state"]. *)
Definition has_state (kv : string * list (string * string)) : Prop :=
  Py.dict_get "state" (snd kv) <> None.

Definition is_online (properties : list (string * string)) : bool :=
  match Py.dict_get "state" properties with
  | Some state => String.eqb state "device"
  | None => false
  end.

(** The properties under which an enumeration reports [k] as online. *)
Definition online_props (k : string)
    (enum : list (string * list (string * string)))
    : option (list (string * string)) :=
  option_map snd
    (List.find (fun kv => String.eqb (fst kv) k && is_online (snd kv)) enum).

(** The registry that the scan of [getFreeDevices] goes through: the
    registry of the call, after the discovery when it is empty. *)
Definition registry_at_scan (E : Env) (w : World) : list (string * Device) :=
  devices (snd (VTestFunctions.lazy_discovery E w)).

(** The ids of the free devices of a registry, in its order. *)
Definition free_ids (registry : list (string * Device)) : list string :=
  map id (List.filter (fun d => negb (in_use d)) (Py.dict_values registry)).

(** The command line [_exec_adb] runs for [cmd]. *)
Definition adb_command (self : Device) (cmd : list string) : list string :=
  ([device.ADB_BIN; "-s"; id self] ++ cmd)%list.

(** The package listing of the device of [self], as asked at interaction
    [t]: what [is_package_installed] reads there. *)
Definition pm_listing (E : Env) (self : Device) (t : nat) : string :=
  fst (device.communicate
         (popen_communicate E t
            (adb_command self ["shell"; "pm"; "list"; "packages"]))).

(** A line of [listing] contains [pname], both in lower case. *)
Definition listed (U : Py.Unicode) (pname listing : string) : Prop :=
  exists line,
    In line (Py.split "010" listing)
    /\ Py.contains (Py.lower U pname) (Py.lower U line) = true.

(** The file that [installApp] hands to [install_apk] for the package
    [app_file], or [None] when it could not be signed. *)
Definition file_to_install (E : Env) (app_file : string) (sign_file : bool)
    : M (option string) :=
  if sign_file then VTestFunctions.signed_by_tool E app_file
  else pure (Some app_file).

(** The directory that [UploadFile] makes for what [upload_file] sends,
    and the file it stores it in. *)
Definition upload_directory (E : Env) (storage_path : string) : string :=
  pathlib.joinpath (REL_DIR E) (pathlib.Path storage_path).

Definition upload_destination (E : Env) (filename storage_path : string)
    : string :=
  pathlib.joinpath (upload_directory E storage_path)
    (pathlib.name (pathlib.Path filename)).

(** An upload of a local file followed by a pull of the stored file. *)
Definition upload_then_pull (E : Env) (filename storage_path : string)
    : M (grpc_client.GRPCResult bool * grpc_client.GRPCResult string) :=
  up <- grpc_client.GRPCClient.upload_file E filename storage_path ;;
  down <- grpc_client.GRPCClient.pull_file E
            (upload_destination E filename storage_path) ;;
  pure (up, down).

(** [m] leaves the ids of the registry as they are and has the client
    attempt exactly the RPCs [l], when [did] is registered. *)
Definition calls {A} (did : string) (l : list (Rpc * string)) (m : M A) : Prop :=
  forall w, Py.dict_get did (devices w) <> None ->
    Py.dict_keys (devices (snd (m w))) = Py.dict_keys (devices w)
    /\ rpc_log (snd (m w)) = (rpc_log w ++ l)%list.

(** As [calls], for RPCs that depend on the run. *)
Definition visits {A} (did : string) (m : M A) : Prop :=
  forall w, Py.dict_get did (devices w) <> None ->
    Py.dict_keys (devices (snd (m w))) = Py.dict_keys (devices w)
    /\ exists l, rpc_log (snd (m w)) = (rpc_log w ++ l)%list.

(** [m] changes neither the registry nor the log of RPCs. *)
Definition quiet {A} (m : M A) : Prop :=
  forall w, devices (snd (m w)) = devices w /\ rpc_log (snd (m w)) = rpc_log w.

(** A registry as [add_device] fills it: one record for each id, stored
    under the id it carries. *)
Definition registry_ok (registry : list (string * Device)) : Prop :=
  NoDup (Py.dict_keys registry)
  /\ Forall (fun kv => id (snd kv) = fst kv) registry.

(** [d'] is under the id and the lease flag of [d]. *)
Definition same_lease (d d' : Device) : Prop :=
  id d' = id d /\ in_use d' = in_use d.

(** [m] changes at most the record of [did], and neither the id nor the
    lease flag of that record. *)
Definition confined {A} (did : string) (m : M A) : Prop :=
  forall w,
    match Py.dict_get did (devices w) with
    | None => devices (snd (m w)) = devices w
    | Some d =>
        exists d',
          devices (snd (m w)) = Py.dict_set did d' (devices w)
          /\ same_lease d d'
    end.

(** What is run on the object [d] obtained from [get_device did]: [m]
    returns a value in [Q] and stores under [did], if anything, an object
    under the id and the lease flag of [d]. *)
Definition updates {A} (did : string) (d : Device) (Q : A -> Prop) (m : M A)
    : Prop :=
  forall w,
    Q (fst (m w))
    /\ (devices (snd (m w)) = devices w
        \/ exists d',
             devices (snd (m w)) = Py.dict_set did d' (devices w)
             /\ same_lease d d').

(** [unlockDevice] for each id of a list, in its order. *)
Fixpoint unlock_each (ids : list string) : M unit :=
  match ids with
  | [] => pure tt
  | did :: rest =>
      _ <- VTestFunctions.unlockDevice did ;;
      unlock_each rest
  end.

(** The number of records of a registry that are marked as leased. *)
Definition leases (registry : list (string * Device)) : nat :=
  List.length (List.filter in_use (Py.dict_values registry)).

(** The RPCs of the [try] block of [execute_app], in its order. *)
Definition pipeline_stages (devid : string) : list (Rpc * string) :=
  [(StartLogcatCollect, devid); (InstallApp, devid);
   (RunLastInstalledApk, devid); (UninstallApp, devid)].

(** The RPCs of [DeviceUsage.__exit__], in its order. *)
Definition release_actions (devid : string) : list (Rpc * string) :=
  [(UninstallApp, devid); (StopLogcatCollect, devid); (UnlockDevice, devid)].

(** The [exec_result] with which [execute_app] starts. *)
Definition fresh_result (devid server_name : string)
    : app_executor.ExecutionResult :=
  {| app_executor.error := true; app_executor.devid := devid;
     app_executor.result := EmptyString; app_executor.logcat_file := None;
     app_executor.server_name := Some server_name |}.

(** The world in which the [finally] block of [execute_app] starts. *)
Definition after_try (E : Env) (devid stored_file server_name : string)
    (execution_time : Z) (sign_app : bool) (custom_cmd : string) (w : World)
    : World :=
  snd (app_executor.try_block E (fresh_result devid server_name) devid
         stored_file execution_time sign_app custom_cmd w).

(** A part of a path: not empty, not [.], without a separator. *)
Definition is_part (part : string) : Prop :=
  part <> EmptyString /\ part <> "." /\ Py.contains "/" part = false.

(** A root and parts as [pathlib] keeps them. *)
Definition is_parsed (p : string * list string) : Prop :=
  (fst p = EmptyString \/ fst p = "/" \/ fst p = "//")
  /\ Forall is_part (snd p).

(** A call of the client that came back without error. *)
Definition succeeded {A} (r : Raises (grpc_client.GRPCResult A)) : bool :=
  match r with
  | Returned response =>
      match grpc_client.err response with
      | None => true
      | Some _ => false
      end
  | Raised _ => false
  end.

(** The calls of the four stages of the pipeline, each with whether it
    succeeded. *)
Definition stage_calls (E : Env) (devid stored_file : string)
    (execution_time : Z) (sign_app : bool) (custom_cmd : string)
    : list (M bool) :=
  [ r <- grpc_client.GRPCClient.start_logcat_collect E devid ;;
    pure (succeeded r);
    r <- grpc_client.GRPCClient.install_app E devid stored_file sign_app ;;
    pure (succeeded r);
    r <- grpc_client.GRPCClient.run_last_installed_apk E devid execution_time
           custom_cmd ;;
    pure (succeeded r);
    r <- grpc_client.GRPCClient.uninstall_app E devid ;;
    pure (succeeded r) ].

(** Calls made in order up to the first that fails: how many were made,
    and whether all of them succeeded. *)
Fixpoint until_failure (calls : list (M bool)) : M (nat * bool) :=
  match calls with
  | [] => pure (0, true)
  | call :: rest =>
      ok <- call ;;
      if ok
      then '(n, all) <- until_failure rest ;; pure (S n, all)
      else pure (1, false)
  end.

(** [m] keeps the lease flag of the device [did], when it is registered. *)
Definition keeps_lease {A} (did : string) (m : M A) : Prop :=
  forall w d,
    Py.dict_get did (devices w) = Some d ->
    exists d',
      Py.dict_get did (devices (snd (m w))) = Some d'
      /\ in_use d' = in_use d.

(* ===================================================================== *)
(** ** Concrete hosts, for the examples                                    *)
(* ===================================================================== *)

Module Ex.

(** The examples hold characters below U+0080 only, for which [unicode]
    is not asked. *)
Definition below_u0080 : Py.Unicode :=
  {| Py.str_lower := fun s => s;
     Py.str_strip := fun s => s;
     Py.str_split := fun s => [s];
     Py.str_isdigit := fun _ => false;
     Py.str_int := fun _ => None;
     Py.str_repr := fun s => s;
     Py.str_lower_nonempty := fun s H => H |}.

(** What the client is given when the host cannot be reached. *)
Definition unavailable : nat -> Rpc -> grpc.StatusCode * string :=
  fun _ _ => (grpc.UNAVAILABLE, "failed to connect to all addresses").

(** A host on which the tools answer as given, every other process works
    and the package tool names [com.example.app]. *)
Definition env (adb : nat -> list string -> ProcessOutcome)
    (adb_devices : CheckOutput) (net : nat -> Rpc -> Transport) : Env :=
  {| REL_DIR := "/srv";
     unicode := below_u0080;
     cwd := "/";
     local_cwd := "/";
     rpc_error := unavailable;
     popen_communicate := adb;
     check_output_devices := fun _ => adb_devices;
     popen_getprop := fun _ _ => None;
     popen_logcat := fun _ _ => Returned 4711%Z;
     NamedTemporaryFile := fun t => "/tmp/tmp" +:+ Py.str_of_nat t;
     terminate_wait := fun _ => Terminated;
     logcat_captured := fun _ => Py.encode "--------- beginning of main";
     get_package_name := fun _ _ => Some "com.example.app";
     sign_apk := fun _ f => Some (f +:+ ".signed", []);
     channel := net |}.

Definition delivered : nat -> Rpc -> Transport := fun _ _ => Delivered.

(** Every adb process ends at once, with nothing on either stream. *)
Definition silent : nat -> list string -> ProcessOutcome :=
  fun _ _ => Completed [] [].

(** Every adb process exceeds its timeout. *)
Definition hanging : nat -> list string -> ProcessOutcome :=
  fun _ _ => TimeoutExpired "Command timed out after 10 seconds".

Definition dev (i : string) (used : bool) : Device :=
  set_in_use used (device.new_Device i [("state", "device")]).

(** The host has the directories [/srv], [/srv/UploadedFiles] and [/tmp];
    the orchestrator has [/tmp]. *)
Definition world (registry : list (string * Device)) : World :=
  {| devices := registry; files := ∅;
     dirs := ["/srv"; "/srv/UploadedFiles"; "/tmp"];
     local_files := ∅; local_dirs := ["/tmp"]; now := 0;
     rpc_log := [] |}.

(** Three devices, the second one leased. *)
Definition three : World :=
  world [("A", dev "A" false); ("B", dev "B" true); ("C", dev "C" false)].

(** A device that tracks an installed package. *)
Definition with_app (d : Device) : Device :=
  set_last_installed_app (Some "com.example.app") d.

(** One leased device with a tracked package. *)
Definition leased : World :=
  world [("A", with_app (dev "A" true))].

(** The install invocation writes to stderr and the listing shows the
    package, in another case. *)
Definition noisy_install : nat -> list string -> ProcessOutcome :=
  fun _ cmd =>
    match cmd with
    | [_; _; _; "install"; _] =>
        Completed [] (Py.encode "All files should be loaded. Notifying the device.")
    | [_; _; _; "shell"; "pm"; "list"; "packages"] =>
        Completed (Py.encode "package:com.android.shell
package:com.Example.App
") []
    | _ => Completed [] []
    end.

(** A host that works, with no device attached. *)
Definition working : Env := env silent CheckTimeoutExpired delivered.

(** The orchestrator holds the file [a.bin] with the given content in
    its working directory. *)
Definition holding (content : Py.bytes) : World :=
  set_local_files {[ "/a.bin" := content ]} (world []).

(** The host holds the file [/tmp/log] with the given content. *)
Definition storing (content : Py.bytes) : World :=
  set_files {[ "/tmp/log" := content ]} (world []).

(** The device answers every command of the pipeline as it should. *)
Definition responsive : nat -> list string -> ProcessOutcome :=
  fun _ cmd =>
    match cmd with
    | [_; _; _; "shell"; "pm"; "list"; "packages"] =>
        Completed (Py.encode "package:com.example.app
") []
    | [_; _; _; "shell"; "pm"; "clear"; _] =>
        Completed (Py.encode "Success
") []
    | [_; _; _; "shell"; "pidof com.example.app"] =>
        Completed (Py.encode "4242
") []
    | _ => Completed [] []
    end.

(** As [responsive], but no process of the app is found. *)
Definition not_starting : nat -> list string -> ProcessOutcome :=
  fun t cmd =>
    match cmd with
    | [_; _; _; "shell"; "pidof com.example.app"] => Completed [] []
    | _ => responsive t cmd
    end.

(** A host for the pipeline: the device tool, the start of the capture
    process, its termination and the transport as given. *)
Definition pipeline_env (adb : nat -> list string -> ProcessOutcome)
    (logcat : Raises Z) (terminate : TerminateOutcome)
    (net : nat -> Rpc -> Transport) : Env :=
  {| REL_DIR := "/srv";
     unicode := below_u0080;
     cwd := "/";
     local_cwd := "/";
     rpc_error := unavailable;
     popen_communicate := adb;
     check_output_devices := fun _ => CheckTimeoutExpired;
     popen_getprop := fun _ _ => None;
     popen_logcat := fun _ _ => logcat;
     NamedTemporaryFile := fun t => "/tmp/tmp" +:+ Py.str_of_nat t;
     terminate_wait := fun _ => terminate;
     logcat_captured := fun _ => Py.encode "--------- beginning of main";
     get_package_name := fun _ _ => Some "com.example.app";
     sign_apk := fun _ f => Some (f +:+ ".signed", []);
     channel := net |}.

(** The transport loses the first request to uninstall. *)
Definition uninstall_lost_once : nat -> Rpc -> Transport :=
  fun t r =>
    match r with
    | UninstallApp => if (t <? 20)%nat then RequestLost else Delivered
    | _ => Delivered
    end.

(** One leased device, and the package to run stored on the host. *)
Definition ready : World :=
  set_files {[ "/srv/UploadedFiles/a.apk" := [] ]}
    (world [("A", dev "A" true)]).

(** The run of the pipeline on [ready]: how it ends, the flag of the
    device afterwards and the RPCs attempted. *)
Definition run (E : Env)
    : Raises app_executor.ExecutionResult * option bool * list (Rpc * string) :=
  let '(outcome, w) :=
    app_executor.execute_app E "A" "UploadedFiles/a.apk" "host" 5 false
      EmptyString ready in
  (outcome, option_map in_use (Py.dict_get "A" (devices w)), rpc_log w).

(** A host whose package tool finds no package line in any file, and
    whose device tool never answers in time. *)
Definition nameless : Env :=
  {| REL_DIR := "/srv";
     unicode := below_u0080;
     cwd := "/";
     local_cwd := "/";
     rpc_error := unavailable;
     popen_communicate := hanging;
     check_output_devices := fun _ => CheckTimeoutExpired;
     popen_getprop := fun _ _ => None;
     popen_logcat := fun _ _ => Returned 4711%Z;
     NamedTemporaryFile := fun t => "/tmp/tmp" +:+ Py.str_of_nat t;
     terminate_wait := fun _ => Terminated;
     logcat_captured := fun _ => [];
     get_package_name := fun _ _ => Some EmptyString;
     sign_apk := fun _ f => Some (f +:+ ".signed", []);
     channel := delivered |}.

(** [adb devices] sees one device, unauthorized. *)
Definition unauthorized_only : Env :=
  env silent
      (Output (Py.encode "List of devices attached
X	unauthorized
"))
      delivered.

(** [adb devices] sees one device, online. *)
Definition one_online : Env :=
  env silent
      (Output (Py.encode "List of devices attached
N	device
"))
      delivered.

(** [adb devices] sees no device. *)
Definition none_attached : Env :=
  env silent (Output (Py.encode "List of devices attached
")) delivered.

End Ex.

(* ===================================================================== *)
(** ** Dictionaries                                                        *)
(* ===================================================================== *)

Section DictFacts.
Context {V : Type}.
Implicit Types (d : list (string * V)) (k : string) (v : V).

Lemma dict_get_set_eq k v d : Py.dict_get k (Py.dict_set k v d) = Some v.
Proof.
  induction d as [|[k' v'] d IH]; simpl.
  - now rewrite String.eqb_refl.
  - destruct (String.eqb_spec k' k) as [->|Hne]; simpl.
    + now rewrite String.eqb_refl.
    + destruct (String.eqb_spec k' k); [contradiction|exact IH].
Qed.

Lemma dict_get_set_ne k k' v d :
  k <> k' -> Py.dict_get k (Py.dict_set k' v d) = Py.dict_get k d.
Proof.
  intros Hne. induction d as [|[k0 v0] d IH]; simpl.
  - destruct (String.eqb_spec k' k); congruence.
  - destruct (String.eqb_spec k0 k') as [->|Hne']; simpl.
    + destruct (String.eqb_spec k' k); congruence.
    + destruct (String.eqb_spec k0 k); [reflexivity|exact IH].
Qed.

Lemma dict_keys_set_present k v v0 d :
  Py.dict_get k d = Some v0 -> Py.dict_keys (Py.dict_set k v d) = Py.dict_keys d.
Proof.
  unfold Py.dict_keys.
  induction d as [|[k' v'] d IH]; simpl; [discriminate|].
  destruct (String.eqb_spec k' k) as [->|Hne]; simpl; [reflexivity|].
  intros H. f_equal. auto.
Qed.

Lemma dict_get_del k k' d :
  Py.dict_get k (Py.dict_del k' d)
  = if String.eqb k k' then None else Py.dict_get k d.
Proof.
  unfold Py.dict_del. induction d as [|[k0 v0] d IH]; simpl.
  - now destruct (String.eqb k k').
  - destruct (String.eqb_spec k0 k') as [->|Hne]; simpl.
    + rewrite IH. destruct (String.eqb_spec k k') as [->|Hne'].
      * reflexivity.
      * destruct (String.eqb_spec k' k); congruence.
    + rewrite IH. destruct (String.eqb_spec k0 k) as [->|Hne0].
      * destruct (String.eqb_spec k k'); congruence.
      * reflexivity.
Qed.

Lemma dict_get_None_keys k d :
  Py.dict_get k d = None <-> ~ In k (Py.dict_keys d).
Proof.
  induction d as [|[k0 v0] d IH]; simpl.
  - tauto.
  - destruct (String.eqb_spec k0 k) as [->|Hne].
    + split; [discriminate|]. intros H. exfalso. apply H. now left.
    + rewrite IH. unfold Py.dict_keys. tauto.
Qed.

Lemma dict_get_Some_In k v d : Py.dict_get k d = Some v -> In (k, v) d.
Proof.
  induction d as [|[k0 v0] d IH]; simpl; [discriminate|].
  destruct (String.eqb_spec k0 k) as [->|Hne].
  - intros [= ->]. now left.
  - intros H. right. auto.
Qed.

Lemma dict_get_is_Some_set k k' v d :
  Py.dict_get k d <> None -> Py.dict_get k (Py.dict_set k' v d) <> None.
Proof.
  intros H. destruct (String.eqb_spec k k') as [->|Hne].
  - now rewrite dict_get_set_eq.
  - now rewrite dict_get_set_ne.
Qed.

Lemma dict_get_is_Some_update k d d2 :
  Py.dict_get k d <> None -> Py.dict_get k (Py.dict_update d d2) <> None.
Proof.
  unfold Py.dict_update. revert d.
  induction d2 as [|[k' v'] d2 IH]; intros d H; simpl; [exact H|].
  apply IH. now apply dict_get_is_Some_set.
Qed.

End DictFacts.

Lemma list_mem_In x l : Py.list_mem x l = true <-> In x l.
Proof.
  unfold Py.list_mem. rewrite existsb_exists. split.
  - intros (y & Hy & Heq). apply String.eqb_eq in Heq. now subst.
  - intros H. exists x. split; [exact H|apply String.eqb_refl].
Qed.

(* ===================================================================== *)
(** ** Enumeration and refresh                                             *)
(* ===================================================================== *)

Lemma set_devices_same w : set_devices (devices w) w = w.
Proof. now destruct w. Qed.

Lemma Forall_dict_set {V} (P : string * V -> Prop) k v (d : list (string * V)) :
  (forall k', P (k', v)) -> Forall P d -> Forall P (Py.dict_set k v d).
Proof.
  intros Hv. induction 1 as [|[k0 v0] d Hx Hd IH]; simpl.
  - constructor; [apply Hv|constructor].
  - destruct (String.eqb k0 k); constructor; auto.
Qed.

Lemma parse_devices_has_state E lines :
  Forall has_state (device.parse_devices E lines).
Proof.
  unfold device.parse_devices.
  assert (H : Forall has_state (@nil (string * list (string * string))))
    by constructor.
  revert H. generalize (@nil (string * list (string * string))) as acc.
  induction lines as [|line lines IH]; intros acc H; simpl; [exact H|].
  apply IH.
  destruct (Py.split "009" (Py.strip (unicode E) line)) as [|dev [|state [|? ?]]]; try exact H.
  match goal with |- context [if ?b then _ else _] => destruct b end;
    [|exact H].
  apply Forall_dict_set; [|exact H].
  intros k'. unfold has_state. simpl. discriminate.
Qed.

Lemma fetch_properties_spec E devs w :
  exists r n,
    device.fetch_properties E devs w = (r, set_now n w)
    /\ map fst r = map fst devs
    /\ (Forall has_state devs -> Forall has_state r).
Proof.
  revert w. induction devs as [|[devid vals] devs IH]; intros w; simpl.
  - exists [], (now w). unfold pure. repeat split; auto. now destruct w.
  - unfold bind, tick at 1.
    destruct (IH (set_now (S (now w)) w)) as (r & n & Heq & Hk & Hs).
    rewrite Heq. unfold pure.
    eexists _, n. repeat split.
    + simpl. now rewrite Hk.
    + intros Hall. inversion Hall as [|? ? Hhd Htl]; subst.
      constructor; [|auto].
      unfold has_state in *. simpl in *.
      destruct (popen_getprop E (now w) devid); [|exact Hhd].
      destruct (device.read_props _ _ _); [|exact Hhd].
      now apply dict_get_is_Some_update.
Qed.

Lemma get_all_devices_spec E w :
  exists r n,
    device.get_all_devices E w = (r, set_now n w)
    /\ forall enum, r = Returned enum -> Forall has_state enum.
Proof.
  unfold device.get_all_devices, bind, tick.
  destruct (check_output_devices E (now w)) as [out| |msg].
  - destruct (Py.decode Py.ignore out) as [e|text].
    + eexists _, _. split; [reflexivity|]. discriminate.
    + destruct (fetch_properties_spec E
                  (device.parse_devices E (Py.split "010" text))
                  (set_now (S (now w)) w)) as (r & n & Heq & _ & Hs).
      rewrite Heq. unfold pure. eexists _, n. split; [reflexivity|].
      intros enum [= <-]. apply Hs, parse_devices_has_state.
  - eexists _, _. split; [reflexivity|]. intros enum [= <-]. constructor.
  - eexists _, _. split; [reflexivity|]. discriminate.
Qed.

Lemma add_device_spec dev w :
  exists reg',
    VTestStation.add_device dev w = (tt, set_devices reg' w)
    /\ forall k, Py.dict_get k reg'
         = match Py.dict_get k (devices w) with
           | Some d => Some d
           | None => if String.eqb k (id dev) then Some dev else None
           end.
Proof.
  unfold VTestStation.add_device, modify, Py.dict_mem.
  destruct (Py.dict_get (id dev) (devices w)) as [d0|] eqn:Hget.
  - exists (devices w). rewrite set_devices_same. split; [reflexivity|].
    intros k. destruct (Py.dict_get k (devices w)) eqn:Hk; [reflexivity|].
    destruct (String.eqb_spec k (id dev)); congruence.
  - exists (Py.dict_set (id dev) dev (devices w)). split; [reflexivity|].
    intros k. destruct (String.eqb_spec k (id dev)) as [->|Hne].
    + now rewrite dict_get_set_eq, Hget.
    + rewrite dict_get_set_ne by exact Hne.
      now destruct (Py.dict_get k (devices w)).
Qed.

Lemma add_online_spec enum :
  Forall has_state enum ->
  forall w, exists reg',
    VTestFunctions.add_online enum w = (Returned tt, set_devices reg' w)
    /\ forall k, Py.dict_get k reg'
         = match Py.dict_get k (devices w) with
           | Some d => Some d
           | None => option_map (device.new_Device k) (online_props k enum)
           end.
Proof.
  induction 1 as [|[i props] enum Hhd Htl IH]; intros w; simpl.
  - exists (devices w). rewrite set_devices_same. split; [reflexivity|].
    intros k. now destruct (Py.dict_get k (devices w)).
  - unfold has_state in Hhd. simpl in Hhd.
    unfold online_props, is_online. simpl.
    destruct (Py.dict_get "state" props) as [state|] eqn:Hst; [|congruence].
    unfold bind.
    destruct (String.eqb_spec state "device") as [->|Hoff]; cbn [negb].
    + destruct (add_device_spec (device.new_Device i props) w)
        as (reg1 & Heq & Hreg1).
      rewrite Heq.
      destruct (IH (set_devices reg1 w)) as (reg' & Heq' & Hreg').
      rewrite Heq'. exists reg'. split; [reflexivity|].
      intros k. rewrite Hreg'. simpl. rewrite Hreg1. simpl.
      destruct (Py.dict_get k (devices w)); [reflexivity|].
      rewrite (String.eqb_sym i k), andb_true_r.
      destruct (String.eqb_spec k i) as [->|Hne]; reflexivity.
    + unfold pure. destruct (IH w) as (reg' & Heq' & Hreg').
      rewrite Heq'. exists reg'. split; [reflexivity|].
      intros k. rewrite Hreg'. now rewrite andb_false_r.
Qed.

Lemma remove_absent_spec known present :
  forall w, exists reg',
    VTestFunctions.remove_absent known present w = (tt, set_devices reg' w)
    /\ forall k, Py.dict_get k reg'
         = if Py.list_mem k known && negb (Py.list_mem k present)
           then None else Py.dict_get k (devices w).
Proof.
  induction known as [|devid known IH]; intros w; simpl.
  - exists (devices w). rewrite set_devices_same. now split.
  - unfold bind.
    assert (Hstep : exists reg1,
      (if negb (Py.list_mem devid present)
       then VTestStation.del_device devid else pure tt) w
      = (tt, set_devices reg1 w)
      /\ forall k, Py.dict_get k reg1
           = if String.eqb k devid && negb (Py.list_mem devid present)
             then None else Py.dict_get k (devices w)).
    { destruct (Py.list_mem devid present); simpl.
      - exists (devices w). rewrite set_devices_same. split; [reflexivity|].
        intros k. now rewrite andb_false_r.
      - unfold VTestStation.del_device, modify, Py.dict_mem.
        destruct (Py.dict_get devid (devices w)) eqn:Hget.
        + eexists. split; [reflexivity|]. intros k.
          rewrite dict_get_del. now rewrite andb_true_r.
        + exists (devices w). rewrite set_devices_same. split; [reflexivity|].
          intros k. rewrite andb_true_r.
          destruct (String.eqb_spec k devid) as [->|]; [now rewrite Hget|reflexivity]. }
    destruct Hstep as (reg1 & Heq1 & Hreg1). rewrite Heq1.
    destruct (IH (set_devices reg1 w)) as (reg' & Heq' & Hreg').
    rewrite Heq'. exists reg'. split; [reflexivity|].
    intros k. rewrite Hreg'. simpl. rewrite Hreg1.
    destruct (String.eqb_spec k devid) as [->|Hne]; simpl.
    + destruct (Py.list_mem devid present); simpl.
      * now rewrite andb_false_r.
      * now destruct (Py.list_mem devid known).
    + reflexivity.
Qed.

Lemma list_mem_dict_keys {V} k (d : list (string * V)) :
  Py.list_mem k (Py.dict_keys d) = Py.dict_mem k d.
Proof.
  unfold Py.dict_mem, Py.dict_keys.
  induction d as [|[k0 v0] d IH]; simpl; [reflexivity|].
  rewrite (String.eqb_sym k k0).
  destruct (String.eqb k0 k); simpl; [reflexivity|exact IH].
Qed.

(** What a refresh leaves under each key, given the enumeration. *)
Lemma getAdbDevices_spec E w enum :
  fst (device.get_all_devices E w) = Returned enum ->
  exists reg' res n,
    VTestFunctions.getAdbDevices E w
    = (Returned (VTestFunctions.ok res), set_devices reg' (set_now n w))
    /\ forall k, Py.dict_get k reg'
         = if Py.list_mem k (Py.dict_keys enum)
           then match Py.dict_get k (devices w) with
                | Some d => Some d
                | None => option_map (device.new_Device k) (online_props k enum)
                end
           else None.
Proof.
  intros Henum. unfold VTestFunctions.getAdbDevices, bind.
  destruct (get_all_devices_spec E w) as (r & n & Heq & Hstate).
  rewrite Heq in Henum |- *. simpl in Henum. subst r.
  destruct (add_online_spec enum (Hstate _ eq_refl) (set_now n w))
    as (reg1 & Heq1 & Hreg1).
  rewrite Heq1. unfold gets at 1.
  destruct (remove_absent_spec (Py.dict_keys (devices (set_devices reg1 (set_now n w))))
              (Py.dict_keys enum) (set_devices reg1 (set_now n w)))
    as (reg' & Heq' & Hreg').
  rewrite Heq'. unfold VTestStation.devices_as_dict, gets, pure.
  eexists reg', _, n. split; [reflexivity|].
  intros k. rewrite Hreg'. simpl. rewrite list_mem_dict_keys.
  unfold Py.dict_mem. rewrite Hreg1. simpl.
  destruct (Py.list_mem k (Py.dict_keys enum)); simpl.
  - now rewrite andb_false_r.
  - rewrite andb_true_r.
    destruct (Py.dict_get k (devices w)); [reflexivity|].
    now destruct (option_map _ _).
Qed.

Lemma getAdbDevices_failed E w e :
  fst (device.get_all_devices E w) = Raised e ->
  exists n,
    VTestFunctions.getAdbDevices E w
    = (Returned (VTestFunctions.failed []
                   ("Get all devices failed: " +:+ str_Exn e)),
       set_now n w).
Proof.
  intros Hr. unfold VTestFunctions.getAdbDevices, bind.
  destruct (get_all_devices_spec E w) as (r & n & Heq & _).
  rewrite Heq in Hr |- *. simpl in Hr. subst r. now exists n.
Qed.

(* ===================================================================== *)
(** ** Leasing                                                             *)
(* ===================================================================== *)

Lemma lazy_discovery_spec E w :
  exists r reg' n,
    VTestFunctions.lazy_discovery E w
    = (Returned r, set_devices reg' (set_now n w))
    /\ (devices w <> [] -> reg' = devices w /\ n = now w)
    /\ (devices w = [] ->
        forall k d, Py.dict_get k reg' = Some d -> in_use d = false).
Proof.
  unfold VTestFunctions.lazy_discovery, bind, gets.
  destruct (devices w) as [|kv reg] eqn:Hreg; simpl.
  - destruct (fst (device.get_all_devices E w)) as [enum|e] eqn:Henum.
    + destruct (getAdbDevices_spec E w enum Henum) as (reg' & res & n & Heq & Hget).
      rewrite Heq. eexists _, reg', n. split; [reflexivity|].
      split; [congruence|]. intros _ k d. rewrite Hget, Hreg. simpl.
      destruct (Py.list_mem k (Py.dict_keys enum)); [|discriminate].
      destruct (online_props k enum); simpl; [|discriminate].
      now intros [= <-].
    + destruct (getAdbDevices_failed E w e Henum) as (n & Heq).
      rewrite Heq. eexists _, (devices w), n.
      rewrite Hreg. split; [|split; [congruence|intros _ k d; discriminate]].
      f_equal. destruct w; simpl in *. now subst.
  - unfold pure. eexists _, (kv :: reg), (now w).
    split; [|split; [auto|discriminate]].
    f_equal. destruct w; simpl in *. now subst.
Qed.

Lemma registry_at_scan_nonempty E w :
  devices w <> [] -> registry_at_scan E w = devices w.
Proof.
  intros Hne. unfold registry_at_scan.
  destruct (lazy_discovery_spec E w) as (r & reg' & n & Heq & Hsame & _).
  rewrite Heq. simpl. now apply Hsame.
Qed.

Lemma snd_let_pair {A B C} (p : A * B) (f : A -> C) :
  snd (let '(a, b) := p in (f a, b)) = snd p.
Proof. now destruct p. Qed.

Lemma scan_wish num wish ds ret :
  wish <> [] ->
  snd (VTestFunctions.scan num wish ds ret)
  = (ret ++ map id (List.filter (Spec.eligible wish) (Py.dict_values ds)))%list.
Proof.
  intros Hwish. destruct wish as [|x wish]; [congruence|]. clear Hwish.
  revert ret. induction ds as [|[k d] ds IH]; intros ret.
  - simpl. now rewrite app_nil_r.
  - cbn [VTestFunctions.scan Py.dict_values map snd List.filter List.length Nat.eqb].
    fold (Py.dict_values ds). unfold Spec.eligible at 1.
    destruct (in_use d); cbn [negb andb].
    + now rewrite snd_let_pair, IH.
    + destruct (Py.list_mem (id d) (x :: wish)).
      * rewrite snd_let_pair, IH, <- app_assoc. reflexivity.
      * now rewrite snd_let_pair, IH.
Qed.

Lemma free_ids_eligible ds :
  map id (List.filter (Spec.eligible []) (Py.dict_values ds)) = free_ids ds.
Proof.
  unfold free_ids. f_equal. apply filter_ext. intros d.
  unfold Spec.eligible. now rewrite andb_true_r.
Qed.

Lemma scan_count num ds ret :
  snd (VTestFunctions.scan num [] ds ret)
  = (ret ++ if (num <? Z.of_nat (List.length ret))%Z then free_ids ds
            else take (Z.to_nat num - List.length ret) (free_ids ds))%list.
Proof.
  revert ret. induction ds as [|[k d] ds IH]; intros ret.
  - simpl. unfold free_ids. simpl.
    destruct (num <? _)%Z; [|rewrite take_nil]; now rewrite app_nil_r.
  - cbn [VTestFunctions.scan]. unfold free_ids. cbn [Py.dict_values map snd List.filter].
    fold (Py.dict_values ds).
    destruct (in_use d); cbn [negb map].
    + fold (free_ids ds). now rewrite snd_let_pair, IH.
    + fold (free_ids ds). cbn [List.length Nat.eqb].
      destruct (Z.eqb_spec (Z.of_nat (List.length ret)) num) as [Heq|Hne].
      * cbn [snd]. subst num. rewrite Z.ltb_irrefl, Nat2Z.id, Nat.sub_diag.
        now rewrite app_nil_r.
      * rewrite snd_let_pair, IH, <- app_assoc, length_app. cbn [List.length].
        f_equal.
        destruct (Z.ltb_spec num (Z.of_nat (List.length ret)));
          destruct (Z.ltb_spec num (Z.of_nat (List.length ret + 1))); try lia.
        { reflexivity. }
        { replace (Z.to_nat num - List.length ret)%nat
            with (S (Z.to_nat num - (List.length ret + 1)))%nat by lia.
          reflexivity. }
Qed.

(** The ids that [getFreeDevices] collects are those of the specification. *)
Lemma scan_leasable num wish ds :
  snd (VTestFunctions.scan num wish ds []) = Spec.leasable num wish ds.
Proof.
  destruct wish as [|x wish].
  - rewrite scan_count. unfold Spec.leasable. rewrite free_ids_eligible.
    cbn [List.length app]. rewrite Nat.sub_0_r.
    change (Z.of_nat 0) with 0%Z. reflexivity.
  - rewrite scan_wish by discriminate. reflexivity.
Qed.

Lemma scan_none_requested ds : VTestFunctions.scan 0 [] ds [] = (ds, []).
Proof.
  induction ds as [|[k d] ds IH]; [reflexivity|].
  cbn [VTestFunctions.scan]. destruct (in_use d) eqn:Hd.
  - now rewrite IH.
  - reflexivity.
Qed.

Lemma getFreeDevices_spec E num wish w :
  exists reg n,
    snd (VTestFunctions.lazy_discovery E w) = set_devices reg (set_now n w)
    /\ VTestFunctions.getFreeDevices E num wish w
       = (Returned
            (if (List.length (Spec.leasable num wish reg) =? 0)%nat
             then VTestFunctions.failed [] "No free devices"
             else VTestFunctions.ok (Spec.leasable num wish reg)),
          set_devices (fst (VTestFunctions.scan num wish reg []))
            (set_now n w)).
Proof.
  destruct (lazy_discovery_spec E w) as (r & reg & n & Heq & _).
  exists reg, n. rewrite Heq. split; [reflexivity|].
  unfold VTestFunctions.getFreeDevices, bind. rewrite Heq.
  unfold gets, modify. cbn [devices set_devices].
  rewrite <- scan_leasable.
  destruct (VTestFunctions.scan num wish reg []) as [ds' got]. cbn [fst snd].
  now destruct (List.length got =? 0)%nat.
Qed.

Lemma leasable_free num wish reg x :
  In x (Spec.leasable num wish reg) ->
  exists d, In d (Py.dict_values reg) /\ id d = x /\ in_use d = false
            /\ (wish <> [] -> In x wish).
Proof.
  assert (Hcand : In x (map id (List.filter (Spec.eligible wish)
                                  (Py.dict_values reg))) ->
                  exists d, In d (Py.dict_values reg) /\ id d = x
                            /\ in_use d = false /\ (wish <> [] -> In x wish)).
  { rewrite in_map_iff. intros (d & Hid & Hin).
    apply filter_In in Hin. destruct Hin as [Hin Hel].
    unfold Spec.eligible in Hel. apply andb_true_iff in Hel.
    destruct Hel as [Hfree Hwish]. apply negb_true_iff in Hfree.
    exists d. repeat split; auto.
    intros Hne. destruct wish; [congruence|].
    subst x. now apply list_mem_In. }
  unfold Spec.leasable. destruct wish as [|y wish]; [|exact Hcand].
  destruct (num <? 0)%Z; [exact Hcand|].
  intros Hin. apply Hcand. apply list_elem_of_In.
  apply list_elem_of_In in Hin. revert Hin. apply subseteq_take.
Qed.

(** C10.  Asking for zero devices with no desired ids answers "No free
    devices" and leaves every flag of the registry as the scan found it,
    whether or not free devices exist: the registry after the call is the
    registry the scan went through (the registry of the call when that was
    not empty), and a device that is in use afterwards was so before. *)
Theorem getFreeDevices_zero_requested E w :
  exists w',
    VTestFunctions.getFreeDevices E 0 [] w
    = (Returned (VTestFunctions.failed [] "No free devices"), w')
    /\ devices w' = registry_at_scan E w
    /\ (devices w <> [] -> devices w' = devices w)
    /\ (forall k d, Py.dict_get k (devices w') = Some d -> in_use d = true ->
        Py.dict_get k (devices w) = Some d).
Proof.
  destruct (getFreeDevices_spec E 0 [] w) as (reg & n & Hscan & Heq).
  destruct (lazy_discovery_spec E w) as (r & reg0 & n0 & Hlazy & Hsame & Hfresh).
  rewrite Hlazy in Hscan. cbn [snd] in Hscan.
  assert (reg0 = reg) by now apply (f_equal devices) in Hscan.
  subst reg0.
  rewrite scan_none_requested in Heq. cbn [fst] in Heq.
  eexists. split; [rewrite Heq; reflexivity|].
  cbn [devices set_devices]. unfold registry_at_scan. rewrite Hlazy.
  cbn [snd devices set_devices]. split; [reflexivity|].
  split; [intros Hne; now apply Hsame|].
  intros k d Hget Huse. destruct (devices w) as [|kv reg1] eqn:Hreg.
  - rewrite (Hfresh eq_refl k d Hget) in Huse. discriminate.
  - destruct (Hsame ltac:(discriminate)) as [-> _]. exact Hget.
Qed.

(** C3.  A lease always answers.  With desired ids every returned id is one
    of them; without, and for a count that is not negative, at most the
    count is returned; and every returned id is the id of a device that was
    free in the registry the scan went through, which is the registry of
    the call when that was not empty. *)
Theorem getFreeDevices_returns_free_requested E num_devices wish_devices w :
  exists r,
    fst (VTestFunctions.getFreeDevices E num_devices wish_devices w) = Returned r
    /\ (wish_devices <> [] -> forall x, In x (result r) -> In x wish_devices)
    /\ (wish_devices = [] -> (0 <= num_devices)%Z ->
        (Z.of_nat (List.length (result r)) <= num_devices)%Z)
    /\ (forall x, In x (result r) ->
        exists d, In d (Py.dict_values (registry_at_scan E w))
                  /\ id d = x /\ in_use d = false)
    /\ (devices w <> [] -> registry_at_scan E w = devices w).
Proof.
  destruct (getFreeDevices_spec E num_devices wish_devices w)
    as (reg & n & Hscan & Heq).
  assert (Hreg : registry_at_scan E w = reg)
    by (unfold registry_at_scan; now rewrite Hscan).
  rewrite Heq, Hreg. cbn [fst]. eexists. split; [reflexivity|].
  assert (Hres : forall x,
    In x (result (if (List.length (Spec.leasable num_devices wish_devices reg) =? 0)%nat
                  then VTestFunctions.failed [] "No free devices"
                  else VTestFunctions.ok (Spec.leasable num_devices wish_devices reg))) ->
    In x (Spec.leasable num_devices wish_devices reg)).
  { intros x. destruct (Nat.eqb _ _); simpl; tauto. }
  repeat split.
  - intros Hne x Hx. apply Hres, leasable_free in Hx.
    destruct Hx as (d & _ & _ & _ & Hw). now apply Hw.
  - intros -> Hnum. destruct (Nat.eqb _ _); simpl; [lia|].
    unfold Spec.leasable. destruct (Z.ltb_spec num_devices 0); [lia|].
    rewrite length_take. lia.
  - intros x Hx. apply Hres, leasable_free in Hx.
    destruct Hx as (d & Hin & Hid & Hfree & _). now exists d.
  - intros Hne. rewrite <- Hreg. now apply registry_at_scan_nonempty.
Qed.

(** C5.  A lease answers "No free devices" exactly when there is nothing
    it could lease; otherwise it answers without error with exactly the
    ids it could lease.  In particular, without desired ids and with at
    least one but fewer free devices than requested, it answers without
    error with all the free devices. *)
Theorem getFreeDevices_error_iff_nothing_leasable E num_devices wish_devices w :
  exists r,
    fst (VTestFunctions.getFreeDevices E num_devices wish_devices w) = Returned r
    /\ (error r = "No free devices"
        <-> Spec.leasable num_devices wish_devices (registry_at_scan E w) = [])
    /\ (Spec.leasable num_devices wish_devices (registry_at_scan E w) <> [] ->
        error r = EmptyString
        /\ result r = Spec.leasable num_devices wish_devices (registry_at_scan E w))
    /\ (wish_devices = [] ->
        (0 < List.length (free_ids (registry_at_scan E w)))%nat ->
        (Z.of_nat (List.length (free_ids (registry_at_scan E w))) < num_devices)%Z ->
        error r = EmptyString /\ result r = free_ids (registry_at_scan E w)).
Proof.
  destruct (getFreeDevices_spec E num_devices wish_devices w)
    as (reg & n & Hscan & Heq).
  assert (Hreg : registry_at_scan E w = reg)
    by (unfold registry_at_scan; now rewrite Hscan).
  rewrite Heq, Hreg. cbn [fst]. eexists. split; [reflexivity|].
  assert (Hsome : Spec.leasable num_devices wish_devices reg <> [] ->
    (if (List.length (Spec.leasable num_devices wish_devices reg) =? 0)%nat
     then VTestFunctions.failed [] "No free devices"
     else VTestFunctions.ok (Spec.leasable num_devices wish_devices reg))
    = VTestFunctions.ok (Spec.leasable num_devices wish_devices reg)).
  { destruct (Spec.leasable num_devices wish_devices reg); [congruence|reflexivity]. }
  split; [|split].
  - destruct (Spec.leasable num_devices wish_devices reg) eqn:Hl; simpl.
    + tauto.
    + split; discriminate.
  - intros Hne. rewrite (Hsome Hne). now split.
  - intros -> Hpos Hlt.
    assert (Hall : Spec.leasable num_devices [] reg = free_ids reg).
    { unfold Spec.leasable. rewrite free_ids_eligible.
      destruct (Z.ltb_spec num_devices 0); [reflexivity|].
      apply take_ge. lia. }
    assert (Hne : Spec.leasable num_devices [] reg <> []).
    { rewrite Hall. destruct (free_ids reg); simpl in Hpos; [lia|discriminate]. }
    rewrite (Hsome Hne), Hall. now split.
Qed.

Lemma online_props_In k enum props :
  online_props k enum = Some props -> In (k, props) enum /\ is_online props = true.
Proof.
  unfold online_props.
  destruct (List.find _ enum) as [[k' p]|] eqn:Hfind; [|discriminate].
  simpl. intros [= ->]. apply find_some in Hfind. destruct Hfind as [Hin Hp].
  simpl in Hp. apply andb_true_iff in Hp. destruct Hp as [Hk Ho].
  apply String.eqb_eq in Hk. now subst.
Qed.

(** C6.  A device that the registry knows and that the new enumeration
    does not report is gone after the refresh, whatever its record says,
    [in_use] included. *)
Theorem getAdbDevices_deletes_absent E w enum devid d :
  fst (device.get_all_devices E w) = Returned enum ->
  Py.dict_get devid (devices w) = Some d ->
  ~ In devid (Py.dict_keys enum) ->
  Py.dict_get devid (devices (snd (VTestFunctions.getAdbDevices E w))) = None.
Proof.
  intros Henum _ Habsent.
  destruct (getAdbDevices_spec E w enum Henum) as (reg' & res & n & Heq & Hget).
  rewrite Heq. cbn [snd devices set_devices]. rewrite Hget.
  destruct (Py.list_mem devid (Py.dict_keys enum)) eqn:Hmem; [|reflexivity].
  apply list_mem_In in Hmem. contradiction.
Qed.

(** C4, as amended.  After a refresh every enumerated device whose state
    is online ([device]) has a record; the record of a device that was
    known and is still enumerated is the one it had; and a record that is
    new is the fresh record of a device enumerated as online. *)
Theorem getAdbDevices_adds_online_only E w enum :
  fst (device.get_all_devices E w) = Returned enum ->
  (forall k props, Py.dict_get k enum = Some props -> is_online props = true ->
     Py.dict_get k (devices (snd (VTestFunctions.getAdbDevices E w))) <> None)
  /\ (forall k d, Py.dict_get k (devices w) = Some d -> In k (Py.dict_keys enum) ->
        Py.dict_get k (devices (snd (VTestFunctions.getAdbDevices E w))) = Some d)
  /\ (forall k d', Py.dict_get k (devices w) = None ->
        Py.dict_get k (devices (snd (VTestFunctions.getAdbDevices E w))) = Some d' ->
        exists props, In (k, props) enum /\ is_online props = true
                      /\ d' = device.new_Device k props).
Proof.
  intros Henum.
  destruct (getAdbDevices_spec E w enum Henum) as (reg' & res & n & Heq & Hget).
  rewrite Heq. cbn [snd devices set_devices]. repeat split.
  - intros k props Hk Hon. rewrite Hget.
    assert (Hin : In k (Py.dict_keys enum)).
    { destruct (in_dec string_dec k (Py.dict_keys enum)) as [|Hn]; [assumption|].
      apply dict_get_None_keys in Hn. congruence. }
    apply list_mem_In in Hin. rewrite Hin.
    destruct (Py.dict_get k (devices w)); [discriminate|].
    unfold online_props.
    destruct (List.find _ enum) eqn:Hfind; [discriminate|].
    apply dict_get_Some_In in Hk.
    apply (find_none _ _ Hfind) in Hk. simpl in Hk.
    now rewrite String.eqb_refl, Hon in Hk.
  - intros k d Hk Hin. rewrite Hget. apply list_mem_In in Hin.
    now rewrite Hin, Hk.
  - intros k d' Hk. rewrite Hget, Hk.
    destruct (Py.list_mem k (Py.dict_keys enum)); [|discriminate].
    destruct (online_props k enum) as [props|] eqn:Hon; [|discriminate].
    simpl. intros [= <-]. exists props.
    apply online_props_In in Hon. tauto.
Qed.

(** With three devices known, one of them leased, a request for zero
    devices is refused and the registry is as it was. *)
Lemma getFreeDevices_zero_requested_witness :
  exists w',
    VTestFunctions.getFreeDevices Ex.none_attached 0 [] Ex.three
    = (Returned (VTestFunctions.failed [] "No free devices"), w')
    /\ devices w' = devices Ex.three.
Proof.
  destruct (getFreeDevices_zero_requested Ex.none_attached Ex.three)
    as (w' & Heq & _ & Hsame & _).
  exists w'. split; [exact Heq|]. apply Hsame. discriminate.
Defined.

(** Desired ids [C] and [Z] on the three devices: what is returned is
    among them. *)
Lemma getFreeDevices_returns_free_requested_witness :
  exists r,
    fst (VTestFunctions.getFreeDevices Ex.none_attached 1 ["C"; "Z"] Ex.three)
    = Returned r
    /\ forall x, In x (result r) -> In x ["C"; "Z"].
Proof.
  destruct (getFreeDevices_returns_free_requested Ex.none_attached 1
              ["C"; "Z"] Ex.three) as (r & Heq & Hwish & _).
  exists r. split; [exact Heq|]. apply Hwish. discriminate.
Defined.

(** Three devices requested, two free: both are leased, without error. *)
Lemma getFreeDevices_error_iff_nothing_leasable_witness :
  exists r,
    fst (VTestFunctions.getFreeDevices Ex.none_attached 3 [] Ex.three)
    = Returned r
    /\ error r = EmptyString /\ result r = ["A"; "C"].
Proof.
  destruct (getFreeDevices_error_iff_nothing_leasable Ex.none_attached 3 []
              Ex.three) as (r & Heq & _ & _ & Hpartial).
  exists r. split; [exact Heq|].
  apply Hpartial; [reflexivity | vm_compute; lia | vm_compute; reflexivity].
Defined.

(** The leased device [B] disappears when no device is attached any more. *)
Lemma getAdbDevices_deletes_absent_witness :
  fst (device.get_all_devices Ex.none_attached Ex.three) = Returned []
  /\ Py.dict_get "B" (devices Ex.three) = Some (Ex.dev "B" true)
  /\ ~ In "B" (Py.dict_keys (@nil (string * list (string * string))))
  /\ Py.dict_get "B"
       (devices (snd (VTestFunctions.getAdbDevices Ex.none_attached Ex.three)))
     = None.
Proof.
  assert (H1 : fst (device.get_all_devices Ex.none_attached Ex.three)
               = Returned []) by reflexivity.
  assert (H2 : Py.dict_get "B" (devices Ex.three) = Some (Ex.dev "B" true))
    by reflexivity.
  assert (H3 : ~ In "B" (Py.dict_keys (@nil (string * list (string * string)))))
    by (simpl; tauto).
  split; [exact H1|]. split; [exact H2|]. split; [exact H3|].
  exact (getAdbDevices_deletes_absent Ex.none_attached Ex.three [] "B"
           (Ex.dev "B" true) H1 H2 H3).
Defined.

(** C4, counterexample.  A device enumerated as [unauthorized], a usable
    state by [VALID_DEVICE_STATES], gets no record. *)
Lemma getAdbDevices_skips_unauthorized :
  fst (device.get_all_devices Ex.unauthorized_only (Ex.world []))
  = Returned [("X", [("state", "unauthorized")])]
  /\ Py.dict_get "X"
       (devices (snd (VTestFunctions.getAdbDevices Ex.unauthorized_only
                        (Ex.world []))))
     = None.
Proof. split; reflexivity. Qed.

(** One device attached and online, the three known ones gone: the new one
    has a record, and it is a fresh one. *)
Lemma getAdbDevices_adds_online_only_witness :
  fst (device.get_all_devices Ex.one_online Ex.three)
  = Returned [("N", [("state", "device")])]
  /\ Py.dict_get "N"
       (devices (snd (VTestFunctions.getAdbDevices Ex.one_online Ex.three)))
     <> None.
Proof.
  assert (H1 : fst (device.get_all_devices Ex.one_online Ex.three)
               = Returned [("N", [("state", "device")])]) by reflexivity.
  split; [exact H1|].
  destruct (getAdbDevices_adds_online_only Ex.one_online Ex.three _ H1)
    as (Honline & _).
  apply (Honline "N" [("state", "device")]); reflexivity.
Defined.

(* ===================================================================== *)
(** ** The host command executor                                           *)
(* ===================================================================== *)

Lemma exec_adb_spec E self cmd w :
  device._exec_adb E self cmd w
  = (device.communicate (popen_communicate E (now w) (adb_command self cmd)),
     set_now (S (now w)) w).
Proof. reflexivity. Qed.

Lemma logcat_spec E self msg w :
  device._logcat E self msg w = (tt, set_now (S (now w)) w).
Proof. reflexivity. Qed.

Lemma is_package_installed_spec E self p w :
  device.is_package_installed E self p w
  = (device.any_line_contains E p (pm_listing E self (now w)),
     set_now (S (now w)) w).
Proof.
  unfold device.is_package_installed, bind. rewrite exec_adb_spec.
  unfold pm_listing.
  now destruct (device.communicate _).
Qed.

Lemma uninstall_apk_named E self p w :
  device.uninstall_apk E self (Some p) w
  = ((true, self), set_now (S (S (now w))) w).
Proof. reflexivity. Qed.

Lemma uninstall_apk_tracked E self app w :
  last_installed_app self = Some app ->
  device.uninstall_apk E self None w
  = ((true, set_last_installed_app None self), set_now (S (S (now w))) w).
Proof. intros H. unfold device.uninstall_apk. now rewrite H. Qed.

Lemma run_apk_tracked E self custom_cmd app w :
  last_installed_app self = Some app ->
  device.run_apk E self custom_cmd w = (true, set_now (S (S (now w))) w).
Proof. intros H. unfold device.run_apk. now rewrite H. Qed.

Lemma kill_apk_tracked E self app w :
  last_installed_app self = Some app -> app <> EmptyString ->
  fst (device.kill_apk E self w) = true.
Proof.
  intros H Hne. unfold device.kill_apk. rewrite H.
  destruct app as [|c app]; [congruence|].
  unfold bind. rewrite logcat_spec, exec_adb_spec.
  destruct (device.communicate _) as [out err].
  destruct (negb (Py.strip _ out =? "Success") || _); reflexivity.
Qed.

(** What an installation does, in one equation: the error flag and the
    tracked package depend on the package listing read after the install
    invocation, and on nothing else that the tool says. *)
Lemma install_apk_spec E self filename w :
  device.install_apk E self filename w
  = let file := pathlib.Path filename in
    if host_exists E w file
    then
        match get_package_name E (now w) file with
        | None =>
            ((true, "Could not get package name"), self, set_now (S (now w)) w)
        | Some pname =>
            if device.any_line_contains E pname (pm_listing E self (now w + 5))
            then ((false, EmptyString),
                  set_last_installed_app (Some pname) self,
                  set_now (now w + 6) w)
            else ((true,
                   match snd (device.communicate
                                (popen_communicate E (now w + 4)
                                   (adb_command self ["install"; file]))) with
                   | Some stderr => "Could not install App, stderr: " +:+ stderr
                   | None => "Could not install App, stderr: "
                   end),
                  self, set_now (now w + 6) w)
        end
    else ((true, "File to install not found!"), self, w).
Proof.
  unfold device.install_apk, bind, device.path_exists, gets.
  cbv zeta. generalize (pathlib.Path filename) as file. intros file.
  destruct (host_exists E w file); [|reflexivity]. cbn [negb].
  unfold tick at 1. cbn [now set_now].
  destruct (get_package_name E (now w) file) as [pname|]; [|reflexivity].
  rewrite uninstall_apk_named. cbv beta iota.
  rewrite logcat_spec. cbv beta iota.
  rewrite exec_adb_spec. cbv beta iota.
  destruct (device.communicate
              (popen_communicate E _ (adb_command self ["install"; file])))
    as [out stderr] eqn:Hinstall.
  rewrite is_package_installed_spec. cbn [now set_now] in *.
  replace (now w + 5) with (S (S (S (S (S (now w)))))) by lia.
  replace (now w + 4) with (S (S (S (S (now w))))) by lia.
  replace (now w + 6) with (S (S (S (S (S (S (now w))))))) by lia.
  rewrite Hinstall. cbn [snd]. unfold pure.
  destruct (device.any_line_contains E pname _); [reflexivity|].
  destruct stderr; reflexivity.
Qed.

Lemma contains_empty_hay needle :
  needle <> EmptyString -> Py.contains needle EmptyString = false.
Proof. destruct needle; [congruence|reflexivity]. Qed.

Lemma lower_nonempty U s : s <> EmptyString -> Py.lower U s <> EmptyString.
Proof.
  intros H. unfold Py.lower. destruct (Py.isascii s).
  - destruct s; [congruence|discriminate].
  - now apply Py.str_lower_nonempty.
Qed.

Lemma any_line_contains_empty E p :
  p <> EmptyString -> device.any_line_contains E p EmptyString = false.
Proof.
  intros H. unfold device.any_line_contains. cbn [Py.split existsb].
  replace (Py.lower (unicode E) EmptyString) with EmptyString by reflexivity.
  now rewrite contains_empty_hay by now apply lower_nonempty.
Qed.

Lemma bind_eq {A B} (m : M A) (k : A -> M B) w :
  bind m k w = let (a, w') := m w in k a w'.
Proof. reflexivity. Qed.

Lemma dict_set_same {V} k (v : V) d :
  Py.dict_get k d = Some v -> Py.dict_set k v d = d.
Proof.
  induction d as [|[k0 v0] d IH]; simpl; [discriminate|].
  destruct (String.eqb_spec k0 k) as [->|Hne].
  - now intros [= ->].
  - intros H. now rewrite IH.
Qed.

Lemma any_line_contains_listed E pname listing :
  device.any_line_contains E pname listing = true
  <-> listed (unicode E) pname listing.
Proof.
  unfold device.any_line_contains, listed. rewrite existsb_exists.
  split; intros (line & Hin & Hc); exists line; now split.
Qed.

Lemma signed_by_tool_keeps E app_file w :
  devices (snd (VTestFunctions.signed_by_tool E app_file w)) = devices w
  /\ rpc_log (snd (VTestFunctions.signed_by_tool E app_file w)) = rpc_log w.
Proof.
  unfold VTestFunctions.signed_by_tool, bind, tick, gets, modify, pure.
  destruct (sign_apk E (now w) app_file) as [[signed_file content]|];
    [|now split].
  destruct (host_write E _ _ content); now split.
Qed.

Lemma file_to_install_keeps E app_file sign_file w :
  devices (snd (file_to_install E app_file sign_file w)) = devices w
  /\ rpc_log (snd (file_to_install E app_file sign_file w)) = rpc_log w.
Proof.
  unfold file_to_install. destruct sign_file;
    [apply signed_by_tool_keeps|now split].
Qed.

(** [installApp], from the file it hands to the device on: the answer and
    the record of the device are those of [install_apk]. *)
Lemma installApp_spec E did server_file sign_file w :
  VTestFunctions.installApp E did server_file sign_file w
  = let app_file := pathlib.joinpath (REL_DIR E) server_file in
    if negb (host_exists E w app_file)
    then (VTestFunctions.failed false "Appfile not found!", w)
    else if negb (pathlib.suffix app_file =? ".apk")
    then (VTestFunctions.failed false "only .apk files can be installed!", w)
    else
      let '(signed, w1) := file_to_install E app_file sign_file w in
      match signed with
      | None => (VTestFunctions.failed false "Could not sign apk", w1)
      | Some file =>
          match Py.dict_get did (devices w1) with
          | None => (VTestFunctions.failed false "Device not found: None", w1)
          | Some dev =>
              let '((error, msg), dev', w2) := device.install_apk E dev file w1 in
              (if error then VTestFunctions.failed false msg
               else VTestFunctions.ok true,
               set_devices (Py.dict_set did dev' (devices w2)) w2)
          end
      end.
Proof.
  unfold VTestFunctions.installApp, file_to_install. cbv zeta.
  rewrite bind_eq. unfold device.path_exists at 1, gets at 1.
  destruct (negb (host_exists E w _)); [reflexivity|].
  destruct (negb (_ =? ".apk")); [reflexivity|].
  rewrite bind_eq.
  match goal with
  | |- context [(if sign_file then ?a else ?b) w] =>
      destruct ((if sign_file then a else b) w) as [[file|] w1]
  end; [|reflexivity].
  rewrite bind_eq. unfold VTestStation.get_device at 1, gets at 1.
  destruct (Py.dict_get did (devices w1)) as [dev|]; [|reflexivity].
  rewrite bind_eq.
  destruct (device.install_apk E dev file w1) as [[[error msg] dev'] w2].
  rewrite bind_eq. unfold VTestStation.store, modify.
  now destruct error.
Qed.

Lemma install_apk_devices E self filename w :
  devices (snd (device.install_apk E self filename w)) = devices w.
Proof.
  rewrite install_apk_spec. cbv zeta.
  destruct (host_exists E w _); [|reflexivity].
  destruct (get_package_name E (now w) _); [|reflexivity].
  now destruct (device.any_line_contains E _ _).
Qed.

Lemma install_apk_error_keeps E self filename w :
  fst (fst (fst (device.install_apk E self filename w))) = true ->
  snd (fst (device.install_apk E self filename w)) = self
  /\ snd (fst (fst (device.install_apk E self filename w))) <> EmptyString.
Proof.
  rewrite install_apk_spec. cbv zeta.
  destruct (host_exists E w _); [|now split].
  destruct (get_package_name E (now w) _); [|now split].
  destruct (device.any_line_contains E _ _); [discriminate|].
  intros _. split; [reflexivity|]. cbn [fst snd].
  now destruct (snd (device.communicate _)).
Qed.

(** C7.  An installation that gets as far as the tool decides by the
    package listing it reads after the install invocation: it reports no
    error exactly when a line of that listing contains the package name,
    both in lower case; then the device tracks the package and the message
    is empty, and otherwise it reports an error and the device is as it
    was.  What the install invocation itself returned (the interaction
    before the listing) takes no part.  When the file or the package name
    is missing it reports an error and the device is as it was.  On the
    host, [installApp] answers for a registered device what the
    installation of the file it hands over reports, without error when
    that reports none and with its message otherwise, and the registry
    holds the device as the installation left it; whenever it answers with
    an error the registry is as it was. *)
Theorem install_verified_by_package_listing E self filename did server_file
    sign_file w :
  let file := pathlib.Path filename in
  let run := device.install_apk E self filename w in
  (host_exists E w file = true ->
   forall pname, get_package_name E (now w) file = Some pname ->
     let listing := pm_listing E self (now w + 5) in
     (fst (fst (fst run)) = false <-> listed (unicode E) pname listing)
     /\ (listed (unicode E) pname listing ->
         fst (fst run) = (false, EmptyString)
         /\ snd (fst run) = set_last_installed_app (Some pname) self)
     /\ (~ listed (unicode E) pname listing ->
         fst (fst (fst run)) = true /\ snd (fst run) = self))
  /\ (host_exists E w file = false \/ get_package_name E (now w) file = None ->
      fst (fst (fst run)) = true /\ snd (fst run) = self)
  /\ (let app_file := pathlib.joinpath (REL_DIR E) server_file in
      let answer := VTestFunctions.installApp E did server_file sign_file w in
      (forall dev to_install w1,
         host_exists E w app_file = true ->
         pathlib.suffix app_file = ".apk" ->
         file_to_install E app_file sign_file w = (Some to_install, w1) ->
         Py.dict_get did (devices w) = Some dev ->
         let installed := device.install_apk E dev to_install w1 in
         fst answer
         = (if fst (fst (fst installed))
            then VTestFunctions.failed false (snd (fst (fst installed)))
            else VTestFunctions.ok true)
         /\ (error (fst answer) = EmptyString
             <-> fst (fst (fst installed)) = false)
         /\ Py.dict_get did (devices (snd answer)) = Some (snd (fst installed)))
      /\ (error (fst answer) <> EmptyString ->
          result (fst answer) = false /\ devices (snd answer) = devices w)).
Proof.
  cbv zeta. split; [|split; [|split]].
  - intros Hex pname Hname. rewrite install_apk_spec. cbv zeta.
    rewrite Hex, Hname.
    destruct (device.any_line_contains E pname (pm_listing E self (now w + 5)))
      eqn:Hany.
    + apply any_line_contains_listed in Hany. cbn [fst snd].
      split; [now split|]. split; [now split|].
      intros Hno. now contradiction Hno.
    + assert (Hno : ~ listed (unicode E) pname (pm_listing E self (now w + 5))).
      { intros Hl. apply any_line_contains_listed in Hl. congruence. }
      cbn [fst snd]. split; [split; [discriminate|intros Hl; now contradiction Hno]|].
      split; [intros Hl; now contradiction Hno|now split].
  - rewrite install_apk_spec. cbv zeta. intros [Hex|Hname].
    + now rewrite Hex.
    + rewrite Hname. now destruct (host_exists E w _).
  - intros dev to_install w1 Hex Hsuffix Hfile Hdev.
    rewrite installApp_spec. cbv zeta. rewrite Hex, Hsuffix, Hfile.
    cbn [negb String.eqb Ascii.eqb Bool.eqb].
    assert (Hw1 : devices w1 = devices w).
    { pose proof (proj1 (file_to_install_keeps E
                           (pathlib.joinpath (REL_DIR E) server_file)
                           sign_file w)) as H.
      now rewrite Hfile in H. }
    rewrite Hw1, Hdev.
    pose proof (install_apk_error_keeps E dev to_install w1) as Herr.
    destruct (device.install_apk E dev to_install w1)
      as [[[flag msg] dev'] w2].
    cbn [fst snd] in *. split; [reflexivity|]. split.
    + destruct flag; cbn [fst error VTestFunctions.failed VTestFunctions.ok].
      * destruct (Herr eq_refl) as [_ Hmsg]. split; [congruence|discriminate].
      * now split.
    + cbn [devices set_devices]. apply dict_get_set_eq.
  - rewrite installApp_spec. cbv zeta.
    destruct (negb (host_exists E w _)); [now split|].
    destruct (negb (_ =? ".apk")); [now split|].
    pose proof (file_to_install_keeps E
                  (pathlib.joinpath (REL_DIR E) server_file) sign_file w)
      as [Hw1 _].
    destruct (file_to_install E _ sign_file w) as [[file|] w1];
      cbn [snd] in Hw1; [|now split].
    destruct (Py.dict_get did (devices w1)) as [dev|] eqn:Hdev; [|now split].
    pose proof (install_apk_error_keeps E dev file w1) as Herr.
    pose proof (install_apk_devices E dev file w1) as Hdevs.
    destruct (device.install_apk E dev file w1) as [[[flag msg] dev'] w2].
    cbn [fst snd] in *. destruct flag.
    + destruct (Herr eq_refl) as [-> _]. intros _. split; [reflexivity|].
      cbn [devices set_devices]. rewrite Hdevs, <- Hw1.
      now apply dict_set_same.
    + intros H. now contradiction H.
Qed.

(** The tool writes to stderr while installing, the listing shows the
    package in another case: the installation succeeds. *)
Example install_apk_ignores_stderr :
  fst (device.install_apk (Ex.env Ex.noisy_install CheckTimeoutExpired Ex.delivered)
         (Ex.dev "A" true) "/srv/a.apk"
         (set_files {[ "/srv/a.apk" := [] ]} (Ex.world [])))
  = ((false, EmptyString), Ex.with_app (Ex.dev "A" true)).
Proof. reflexivity. Qed.

(** The same installation on a device whose listing is empty fails, on
    the host as well, and the registry is as it was. *)
Example installApp_not_listed :
  let E := Ex.env Ex.silent CheckTimeoutExpired Ex.delivered in
  let answer := VTestFunctions.installApp E "A" "UploadedFiles/a.apk" false Ex.ready in
  fst answer
  = VTestFunctions.failed false "Could not install App, stderr: "
  /\ devices (snd answer) = devices Ex.ready.
Proof. split; reflexivity. Qed.

(** The installation of [install_apk_ignores_stderr], through the theorem:
    the listing holds the package in another case, so there is no error
    and the package is tracked; with an empty listing the installation
    reports an error and the device is as it was. *)
Lemma install_verified_by_package_listing_witness :
  (fst (fst (device.install_apk
               (Ex.env Ex.noisy_install CheckTimeoutExpired Ex.delivered)
               (Ex.dev "A" true) "/srv/a.apk"
               (set_files {[ "/srv/a.apk" := [] ]} (Ex.world []))))
   = (false, EmptyString)
   /\ snd (fst (device.install_apk
                  (Ex.env Ex.noisy_install CheckTimeoutExpired Ex.delivered)
                  (Ex.dev "A" true) "/srv/a.apk"
                  (set_files {[ "/srv/a.apk" := [] ]} (Ex.world []))))
      = Ex.with_app (Ex.dev "A" true))
  /\ (fst (fst (fst (device.install_apk
                       (Ex.env Ex.silent CheckTimeoutExpired Ex.delivered)
                       (Ex.dev "A" true) "/srv/a.apk"
                       (set_files {[ "/srv/a.apk" := [] ]} (Ex.world [])))))
      = true
      /\ snd (fst (device.install_apk
                     (Ex.env Ex.silent CheckTimeoutExpired Ex.delivered)
                     (Ex.dev "A" true) "/srv/a.apk"
                     (set_files {[ "/srv/a.apk" := [] ]} (Ex.world []))))
         = Ex.dev "A" true).
Proof.
  split.
  - refine (proj1 (proj2 (proj1 (install_verified_by_package_listing
                   (Ex.env Ex.noisy_install CheckTimeoutExpired Ex.delivered)
                   (Ex.dev "A" true) "/srv/a.apk" "A" "a.apk" false
                   (set_files {[ "/srv/a.apk" := [] ]} (Ex.world [])))
                  _ "com.example.app" _)) _); [reflexivity|reflexivity|].
    exists "package:com.Example.App". split; [|reflexivity].
    right. left. reflexivity.
  - refine (proj2 (proj2 (proj1 (install_verified_by_package_listing
                   (Ex.env Ex.silent CheckTimeoutExpired Ex.delivered)
                   (Ex.dev "A" true) "/srv/a.apk" "A" "a.apk" false
                   (set_files {[ "/srv/a.apk" := [] ]} (Ex.world [])))
                  _ "com.example.app" _)) _); [reflexivity|reflexivity|].
    intros (line & [<-|[]] & Hc). discriminate Hc.
Defined.

(** C8, as amended.  An invocation of the device tool that exceeds its
    timeout comes back from [_exec_adb] to the operation that made it as an
    empty output with the text of the timeout in the place of stderr.  The
    operations do not pass it on: uninstall, run and kill report success
    whatever their invocations do, given a package to act on; the package
    query answers from the empty output, so "not installed" for a package
    name that is not empty; and install reports the text of the timeout of
    its install invocation in its error when the package is not in the
    listing read afterwards, and success when it is. *)
Theorem timeout_stops_at_the_operation E self w :
  (forall cmd msg,
     popen_communicate E (now w) (adb_command self cmd) = TimeoutExpired msg ->
     fst (device._exec_adb E self cmd w) = (EmptyString, Some msg))
  /\ (forall p, fst (fst (device.uninstall_apk E self (Some p) w)) = true)
  /\ (forall app, last_installed_app self = Some app ->
        fst (fst (device.uninstall_apk E self None w)) = true)
  /\ (forall app custom_cmd, last_installed_app self = Some app ->
        fst (device.run_apk E self custom_cmd w) = true)
  /\ (forall app, last_installed_app self = Some app -> app <> EmptyString ->
        fst (device.kill_apk E self w) = true)
  /\ (forall p msg,
        popen_communicate E (now w)
          (adb_command self ["shell"; "pm"; "list"; "packages"])
        = TimeoutExpired msg ->
        p <> EmptyString ->
        fst (device.is_package_installed E self p w) = false)
  /\ (forall filename pname msg,
        host_exists E w (pathlib.Path filename) = true ->
        get_package_name E (now w) (pathlib.Path filename) = Some pname ->
        popen_communicate E (now w + 4)
          (adb_command self ["install"; pathlib.Path filename])
        = TimeoutExpired msg ->
        fst (fst (device.install_apk E self filename w))
        = if device.any_line_contains E pname (pm_listing E self (now w + 5))
          then (false, EmptyString)
          else (true, "Could not install App, stderr: " +:+ msg)).
Proof.
  repeat apply conj.
  - intros cmd msg H. rewrite exec_adb_spec. cbn [fst]. now rewrite H.
  - intros p. now rewrite uninstall_apk_named.
  - intros app H. now rewrite (uninstall_apk_tracked E self app).
  - intros app custom_cmd H. now rewrite (run_apk_tracked E self custom_cmd app).
  - intros app H Hne. now apply (kill_apk_tracked E self app).
  - intros p msg H Hp. rewrite is_package_installed_spec. cbn [fst].
    unfold pm_listing. rewrite H. cbn [device.communicate fst].
    now apply any_line_contains_empty.
  - intros filename pname msg Hfile Hname H.
    rewrite install_apk_spec. cbv zeta.
    rewrite Hfile, Hname, H. cbn [device.communicate snd].
    now destruct (device.any_line_contains E pname _).
Qed.

(** Every invocation hangs: the timeout reaches the operations, and the
    uninstall of a named package still reports success. *)
Lemma timeout_stops_at_the_operation_witness :
  fst (device._exec_adb (Ex.env Ex.hanging CheckTimeoutExpired Ex.delivered)
         (Ex.dev "A" true) ["uninstall"; "com.example.app"] (Ex.world []))
  = (EmptyString, Some "Command timed out after 10 seconds")
  /\ fst (fst (device.uninstall_apk
                 (Ex.env Ex.hanging CheckTimeoutExpired Ex.delivered)
                 (Ex.dev "A" true) (Some "com.example.app") (Ex.world [])))
     = true.
Proof.
  destruct (timeout_stops_at_the_operation
              (Ex.env Ex.hanging CheckTimeoutExpired Ex.delivered)
              (Ex.dev "A" true) (Ex.world [])) as (Hexec & Hun & _).
  split; [apply Hexec; reflexivity|apply Hun].
Defined.

(** C8, counterexample.  On a host where every invocation of the device
    tool exceeds its timeout (the uninstall invocation among them),
    [uninstallApp] and [killApp] answer with success, [run_apk] reports
    that it launched, and [isPackageNameInstalled] answers "not installed"
    without an error. *)
Lemma timeout_swallowed_by_operations :
  popen_communicate (Ex.env Ex.hanging CheckTimeoutExpired Ex.delivered) 1
    ["adb"; "-s"; "A"; "uninstall"; "com.example.app"]
  = TimeoutExpired "Command timed out after 10 seconds"
  /\ fst (VTestFunctions.uninstallApp
            (Ex.env Ex.hanging CheckTimeoutExpired Ex.delivered) "A" Ex.leased)
     = VTestFunctions.ok true
  /\ fst (VTestFunctions.killApp
            (Ex.env Ex.hanging CheckTimeoutExpired Ex.delivered) "A" Ex.leased)
     = VTestFunctions.ok true
  /\ fst (device.run_apk (Ex.env Ex.hanging CheckTimeoutExpired Ex.delivered)
            (Ex.with_app (Ex.dev "A" true)) EmptyString Ex.leased)
     = true
  /\ fst (VTestFunctions.isPackageNameInstalled
            (Ex.env Ex.hanging CheckTimeoutExpired Ex.delivered) "A"
            "com.example.app" Ex.leased)
     = VTestFunctions.ok false.
Proof. repeat split; reflexivity. Qed.

(* ===================================================================== *)
(** ** Chunked transfer                                                    *)
(* ===================================================================== *)

Lemma CHUNK_SIZE_pos : 0 < CHUNK_SIZE.
Proof. unfold CHUNK_SIZE. lia. Qed.

Lemma take_nil_inv {A} n (l : list A) : 0 < n -> take n l = [] -> l = [].
Proof. destruct n; [lia|]. now destruct l. Qed.

Lemma read_loop_concat n fuel rest :
  0 < n -> List.length rest < fuel ->
  concat (Py.read_loop fuel n rest) = rest.
Proof.
  intros Hn. revert rest. induction fuel as [|fuel IH]; intros rest Hlt; [lia|].
  cbn [Py.read_loop]. destruct (take n rest) as [|b chunk] eqn:Htake.
  - symmetry. now apply (take_nil_inv n).
  - cbn [concat]. rewrite IH.
    + rewrite <- Htake. apply take_drop.
    + rewrite length_drop.
      destruct rest; [rewrite take_nil in Htake; discriminate|].
      cbn [List.length] in *. lia.
Qed.

Lemma read_chunks_concat n content :
  0 < n -> concat (Py.read_chunks n content) = content.
Proof. intros Hn. apply read_loop_concat; [exact Hn|lia]. Qed.

Lemma read_chunks_nonempty n content :
  0 < n -> content <> [] -> Py.read_chunks n content <> [].
Proof.
  intros Hn Hne. unfold Py.read_chunks. cbn [Py.read_loop].
  destruct (take n content) eqn:Htake; [|discriminate].
  now apply take_nil_inv in Htake.
Qed.

(** No chunk is longer than the chunk size. *)
Lemma read_loop_bounded n fuel rest :
  Forall (fun chunk => List.length chunk <= n) (Py.read_loop fuel n rest).
Proof.
  revert rest. induction fuel as [|fuel IH]; intros rest; [constructor|].
  cbn [Py.read_loop]. destruct (take n rest) eqn:Htake; constructor; [|apply IH].
  rewrite <- Htake, length_take. lia.
Qed.

Lemma fold_left_app_concat {A} (chunks : list (list A)) acc :
  fold_left (fun acc chunk => (acc ++ chunk)%list) chunks acc
  = (acc ++ concat chunks)%list.
Proof.
  revert acc. induction chunks as [|c chunks IH]; intros acc; simpl.
  - now rewrite app_nil_r.
  - now rewrite IH, app_assoc.
Qed.

Lemma fold_left_requests (mk : Py.bytes -> communication_pb2.FileUploadRequest)
    chunks acc :
  (forall c, communication_pb2.chunk_data (mk c) = c) ->
  fold_left (fun f request => (f ++ communication_pb2.chunk_data request)%list)
            (map mk chunks) acc
  = (acc ++ concat chunks)%list.
Proof.
  intros Hmk. revert acc. induction chunks as [|c chunks IH]; intros acc; simpl.
  - now rewrite app_nil_r.
  - now rewrite IH, Hmk, app_assoc.
Qed.

(** *** Decoding *)

Lemma utf8_classify_Char l n : Py.utf8_classify l = Py.Char n -> 1 <= n.
Proof.
  unfold Py.utf8_classify.
  repeat match goal with
         | |- context [match ?x with [] => _ | _ :: _ => _ end] => destruct x
         | |- context [if ?b then _ else _] => destruct b
         end;
    intros H; inversion H; lia.
Qed.

Lemma decode_from_ignore_total whole bs :
  forall pos skip, exists s, Py.decode_from Py.ignore whole pos skip bs = inr s.
Proof.
  induction bs as [|b rest IH]; intros pos skip; cbn [Py.decode_from].
  - now eexists.
  - destruct skip as [|k]; [|apply IH].
    destruct (Py.utf8_classify _);
      match goal with
      | |- context [Py.decode_from Py.ignore whole ?p ?k rest] =>
          destruct (IH p k) as (s & ->); now eexists
      end.
Qed.

(** Under [ignore] decoding never raises. *)
Lemma decode_ignore_total bs : exists s, Py.decode Py.ignore bs = inr s.
Proof. apply decode_from_ignore_total. Qed.

Lemma list_byte_of_string_app s1 s2 :
  list_byte_of_string (s1 +:+ s2)
  = (list_byte_of_string s1 ++ list_byte_of_string s2)%list.
Proof.
  induction s1 as [|c s1 IH]; [reflexivity|].
  change (String c s1 +:+ s2) with (String c (s1 +:+ s2)).
  unfold list_byte_of_string in *. cbn [list_ascii_of_string map app].
  f_equal. exact IH.
Qed.

(** What decodes under [strict] decodes to the same text under [ignore],
    and the text encodes back to the bytes. *)
Lemma decode_from_strict whole bs :
  forall pos skip s,
    Py.decode_from Py.strict whole pos skip bs = inr s ->
    Py.decode_from Py.ignore whole pos skip bs = inr s
    /\ Py.encode s = drop skip bs.
Proof.
  induction bs as [|b rest IH]; intros pos skip s; cbn [Py.decode_from].
  - intros [= <-]. split; [reflexivity|]. now rewrite drop_nil.
  - destruct skip as [|k]; [|apply IH].
    destruct (Py.utf8_classify (map Byte.to_N (b :: rest))) as [n| | |n] eqn:Hc;
      try discriminate.
    destruct (Py.decode_from Py.strict whole (S pos) (n - 1) rest) as [e|s'] eqn:Hs;
      [discriminate|].
    intros [= <-]. destruct (IH _ _ _ Hs) as (Hi & He). rewrite Hi.
    split; [reflexivity|].
    unfold Py.encode in *. rewrite list_byte_of_string_app, He.
    rewrite list_byte_of_string_of_list_byte.
    apply utf8_classify_Char in Hc. destruct n as [|n]; [lia|].
    cbn [take drop]. replace (S n - 1) with n by lia.
    cbn. f_equal. apply take_drop.
Qed.

Lemma decode_strict bs s :
  Py.decode Py.strict bs = inr s ->
  Py.decode Py.ignore bs = inr s /\ Py.encode s = bs.
Proof. intros H. apply decode_from_strict in H. exact H. Qed.

(** *** Paths *)

Lemma startswith_empty s : Py.startswith s EmptyString = true.
Proof. now destruct s. Qed.

Lemma contains_char_cons sep c s :
  Py.contains (String sep EmptyString) (String c s)
  = Ascii.eqb sep c || Py.contains (String sep EmptyString) s.
Proof.
  cbn [Py.contains Py.startswith]. now rewrite startswith_empty, andb_true_r.
Qed.

Lemma contains_char_app sep a b :
  Py.contains (String sep EmptyString) (a +:+ b)
  = Py.contains (String sep EmptyString) a
    || Py.contains (String sep EmptyString) b.
Proof.
  induction a as [|c a IH]; [reflexivity|].
  change (String c a +:+ b) with (String c (a +:+ b)).
  now rewrite !contains_char_cons, IH, orb_assoc.
Qed.

Lemma split_without sep s :
  Py.contains (String sep EmptyString) s = false -> Py.split sep s = [s].
Proof.
  induction s as [|c s IH]; [reflexivity|].
  rewrite contains_char_cons. intros H. apply orb_false_iff in H as [Hc Hs].
  cbn [Py.split]. rewrite Ascii.eqb_sym, Hc, (IH Hs). reflexivity.
Qed.

Lemma split_at_first sep a b :
  Py.contains (String sep EmptyString) a = false ->
  Py.split sep (a +:+ String sep b) = a :: Py.split sep b.
Proof.
  induction a as [|c a IH].
  - intros _. change (EmptyString +:+ String sep b) with (String sep b).
    cbn [Py.split]. now rewrite Ascii.eqb_refl.
  - rewrite contains_char_cons. intros H. apply orb_false_iff in H as [Hc Hs].
    change (String c a +:+ String sep b) with (String c (a +:+ String sep b)).
    cbn [Py.split]. rewrite Ascii.eqb_sym, Hc, (IH Hs). reflexivity.
Qed.

(** No part of a split holds the separator. *)
Lemma split_parts_without sep s :
  Forall (fun part => Py.contains (String sep EmptyString) part = false)
         (Py.split sep s).
Proof.
  induction s as [|c s IH]; cbn [Py.split].
  - constructor; [reflexivity|constructor].
  - destruct (Ascii.eqb c sep) eqn:Hc.
    + constructor; [reflexivity|exact IH].
    + destruct (Py.split sep s) as [|h t]; inversion IH; subst.
      * constructor; [|constructor]. rewrite contains_char_cons.
        now rewrite Ascii.eqb_sym, Hc.
      * constructor; [|assumption]. rewrite contains_char_cons.
        now rewrite Ascii.eqb_sym, Hc.
Qed.

Lemma parse_is_parsed s : is_parsed (pathlib.parse s).
Proof.
  unfold pathlib.parse, is_parsed. cbn [fst snd]. split.
  - destruct (_ =? 0)%nat; [now left|].
    destruct (_ =? 2)%nat; [now right; right|now right; left].
  - pose proof (split_parts_without "/" (pathlib.lstrip_sep s)) as H.
    induction H as [|part parts Hpart _ IH]; cbn [List.filter]; [constructor|].
    destruct (String.eqb_spec part EmptyString) as [->|Hne]; [exact IH|].
    destruct (String.eqb_spec part ".") as [->|Hdot]; [exact IH|].
    cbn [orb negb]. constructor; [|exact IH]. now repeat split.
Qed.

Lemma filter_parts parts :
  Forall is_part parts ->
  List.filter (fun part => negb (String.eqb part EmptyString
                                 || String.eqb part ".")) parts
  = parts.
Proof.
  induction 1 as [|part parts (Hne & Hdot & _) _ IH]; [reflexivity|].
  cbn [List.filter].
  destruct (String.eqb_spec part EmptyString); [contradiction|].
  destruct (String.eqb_spec part "."); [contradiction|].
  cbn [orb negb]. now rewrite IH.
Qed.

Lemma split_concat_parts parts :
  Forall is_part parts -> parts <> [] ->
  Py.split "/" (String.concat "/" parts) = parts.
Proof.
  induction 1 as [|part parts (_ & _ & Hsep) Hparts IH]; [congruence|].
  intros _. destruct parts as [|part' parts].
  - cbn [String.concat]. now apply split_without.
  - change (String.concat "/" (part :: part' :: parts))
      with (part +:+ String "/" (String.concat "/" (part' :: parts))).
    rewrite split_at_first by exact Hsep. f_equal. now apply IH.
Qed.

Lemma concat_parts_head parts :
  Forall is_part parts -> parts <> [] ->
  exists c r, String.concat "/" parts = String c r /\ Ascii.eqb c "/" = false.
Proof.
  intros Hall Hne. destruct Hall as [|part parts (Hpart & _ & Hsep) Hparts];
    [congruence|].
  destruct part as [|c r]; [congruence|].
  rewrite contains_char_cons in Hsep. apply orb_false_iff in Hsep as [Hc _].
  exists c. rewrite Ascii.eqb_sym. destruct parts as [|part' parts].
  - now exists r.
  - exists (r +:+ String "/" (String.concat "/" (part' :: parts))).
    now split.
Qed.

Lemma parse_str p : is_parsed p -> pathlib.parse (pathlib.str p) = p.
Proof.
  destruct p as [root parts]. intros [Hroot Hparts]. cbn [fst snd] in *.
  destruct parts as [|part parts].
  - destruct Hroot as [->|[->| ->]]; reflexivity.
  - destruct (concat_parts_head (part :: parts) Hparts ltac:(discriminate))
      as (c & r & Hhead & Hc).
    assert (Hstr : pathlib.str (root, part :: parts)
                   = root +:+ String.concat "/" (part :: parts)).
    { unfold pathlib.str. now destruct root. }
    rewrite Hstr. unfold pathlib.parse.
    assert (Hstrip : pathlib.lstrip_sep (root +:+ String.concat "/" (part :: parts))
                     = String.concat "/" (part :: parts)).
    { rewrite Hhead.
      destruct Hroot as [->|[->| ->]];
        [change (EmptyString +:+ String c r) with (String c r)
        |change ("/" +:+ String c r) with (String "/" (String c r))
        |change ("//" +:+ String c r) with (String "/" (String "/" (String c r)))];
        cbn [pathlib.lstrip_sep Ascii.eqb Bool.eqb]; now rewrite Hc. }
    rewrite Hstrip, split_concat_parts, filter_parts by (auto; discriminate).
    f_equal. rewrite Hhead.
    destruct Hroot as [->|[->| ->]];
      [change (EmptyString +:+ String c r) with (String c r)
      |change ("/" +:+ String c r) with (String "/" (String c r))
      |change ("//" +:+ String c r) with (String "/" (String "/" (String c r)))];
      cbn [String.length];
      [replace (S (String.length r) - S (String.length r)) with 0 by lia
      |replace (S (S (String.length r)) - S (String.length r)) with 1 by lia
      |replace (S (S (S (String.length r))) - S (String.length r)) with 2 by lia];
      reflexivity.
Qed.

(** [Path(str(p))] is [p]: a path read from its own string is the same
    path. *)
Lemma Path_str p : is_parsed p -> pathlib.Path (pathlib.str p) = pathlib.str p.
Proof. intros H. unfold pathlib.Path. now rewrite parse_str. Qed.

Lemma Path_Path s : pathlib.Path (pathlib.Path s) = pathlib.Path s.
Proof. apply Path_str, parse_is_parsed. Qed.

Lemma Path_joinpath a b :
  pathlib.Path (pathlib.joinpath a b) = pathlib.joinpath a b.
Proof.
  unfold pathlib.joinpath.
  pose proof (parse_is_parsed a) as [Hra Hpa].
  pose proof (parse_is_parsed b) as [Hrb Hpb].
  destruct (pathlib.parse a) as [root_a parts_a].
  destruct (pathlib.parse b) as [root_b parts_b]. cbn [fst snd] in *.
  apply Path_str. destruct (root_b =? EmptyString); split; cbn [fst snd]; auto.
  now apply Forall_app.
Qed.

(** *** Files *)

(** Which place a path names depends on the directories only. *)
Lemma walk_files U dirs files files' p p' components :
  forall here there,
    os.walk U dirs files p here components = Returned there ->
    os.walk U dirs files' p' here components = Returned there.
Proof.
  induction components as [|name rest IH]; intros here there; cbn [os.walk].
  - auto.
  - destruct (os.is_dir dirs here).
    + apply IH.
    + destruct (os.is_file files here); discriminate.
Qed.

Lemma lookup_files U cwd dirs files files' p there :
  os.lookup U cwd dirs files p = Returned there ->
  os.lookup U cwd dirs files' p = Returned there.
Proof.
  unfold os.lookup. destruct (p =? EmptyString); [discriminate|].
  destruct (Py.contains _ p); [discriminate|]. apply walk_files.
Qed.

(** What has been written to a path is what is read from it. *)
Lemma write_read U cwd dirs files p content files' :
  os.write U cwd dirs files p content = Returned files' ->
  os.read U cwd dirs files' p = Returned content
  /\ os.path_exists U cwd dirs files' p = true.
Proof.
  unfold os.write, os.read, os.path_exists.
  destruct (Py.endswith p "/").
  { destruct (os.lookup_stem U cwd dirs files p); discriminate. }
  destruct (os.lookup U cwd dirs files p) as [here|e] eqn:Hlook; [|discriminate].
  destruct (os.is_dir dirs here); [discriminate|]. intros [= <-].
  rewrite (lookup_files U cwd dirs files _ p here Hlook).
  unfold os.is_file. rewrite lookup_insert_eq. split; [reflexivity|].
  apply orb_true_r.
Qed.

Lemma pull_file_spec E filename w :
  let file := pathlib.Path filename in
  let w' := set_now (S (now w))
              (set_rpc_log (rpc_log w ++ [(PullFile, file)]) w) in
  match channel E (now w) PullFile with
  | Delivered =>
      if host_exists E w file
      then match host_read E w file with
           | Returned content =>
               exists text,
                 Py.decode Py.ignore content = inr text
                 /\ grpc_client.pull_file E filename w = ((false, text), w')
           | Raised e =>
               grpc_client.pull_file E filename w
               = ((true,
                   "StatusCode.UNKNOWN, Exception iterating responses: "
                   +:+ str_Exn e), w')
           end
      else grpc_client.pull_file E filename w
           = ((true, "StatusCode.NOT_FOUND, File not found"), w')
  | RequestLost | ResponseLost =>
      grpc_client.pull_file E filename w
      = ((true, str_Exn (grpc_client.transport_error E (now w) PullFile)), w')
  end.
Proof.
  cbv zeta.
  unfold grpc_client.pull_file, grpc_client.stub_stream, bind, modify, tick.
  cbn [now set_rpc_log set_now].
  destruct (channel E (now w) PullFile).
  - unfold CommunicationServicer.PullFile, gets, host_exists, host_read.
    cbn [files dirs set_now set_rpc_log].
    destruct (os.path_exists (unicode E) (cwd E) (dirs w) (files w)
                (pathlib.Path filename)); [|reflexivity].
    cbn [negb].
    destruct (os.read (unicode E) (cwd E) (dirs w) (files w)
                (pathlib.Path filename)) as [content|e]; [|reflexivity].
    unfold pure. cbv beta iota. cbn [option_map].
    rewrite fold_left_app_concat, read_chunks_concat by apply CHUNK_SIZE_pos.
    cbn [app]. destruct (decode_ignore_total content) as (text & Htext).
    exists text. split; [exact Htext|]. now rewrite Htext.
  - reflexivity.
  - unfold CommunicationServicer.PullFile, gets, host_exists, host_read.
    cbn [files dirs set_now set_rpc_log].
    destruct (os.path_exists (unicode E) (cwd E) (dirs w) (files w)
                (pathlib.Path filename)); [|reflexivity].
    cbn [negb].
    now destruct (os.read (unicode E) (cwd E) (dirs w) (files w)
                    (pathlib.Path filename)).
Qed.

Lemma upload_file_spec E filename storage_path w (content : Py.bytes)
    dirs' files' :
  local_read E w (pathlib.Path filename) = Returned content ->
  content <> [] ->
  channel E (now w) UploadFile = Delivered ->
  host_mkdir E w (upload_directory E storage_path) = Returned dirs' ->
  host_write E (set_dirs dirs' w) (upload_destination E filename storage_path)
    content = Returned files' ->
  grpc_client.upload_file E filename storage_path w
  = (true,
     set_files files'
       (set_dirs dirs'
          (set_now (S (now w))
             (set_rpc_log (rpc_log w ++ [(UploadFile, pathlib.Path filename)])
                w)))).
Proof.
  intros Hfile Hne Hnet Hmk Hwr.
  unfold grpc_client.upload_file, grpc_client.file_chunk_generator,
    grpc_client.stub, bind, gets, modify, tick.
  cbv beta zeta. rewrite Hfile. cbn [now set_rpc_log set_now]. rewrite Hnet.
  pose proof (read_chunks_nonempty CHUNK_SIZE content CHUNK_SIZE_pos Hne) as Hsome.
  pose proof (read_chunks_concat CHUNK_SIZE content CHUNK_SIZE_pos) as Hcat.
  destruct (Py.read_chunks CHUNK_SIZE content) as [|c cs]; [congruence|].
  cbn [map CommunicationServicer.UploadFile].
  unfold bind, gets, modify, pure.
  cbn [communication_pb2.filename communication_pb2.storage_path
       communication_pb2.chunk_data].
  unfold upload_directory in Hmk. unfold host_mkdir in *.
  cbn [files dirs set_now set_rpc_log]. rewrite Hmk.
  rewrite fold_left_requests by reflexivity.
  cbn [concat] in Hcat. rewrite Hcat.
  unfold upload_destination, upload_directory, host_write in *.
  cbn [files dirs set_files set_dirs set_now set_rpc_log] in *.
  rewrite Hwr. reflexivity.
Qed.

(** What [ignore] drops is missing from the text: the text is as long as
    the bytes only when they decode under [strict]. *)
Lemma decode_from_ignore_length whole bs :
  forall pos skip s,
    Py.decode_from Py.ignore whole pos skip bs = inr s ->
    List.length (Py.encode s) <= List.length bs - skip
    /\ (List.length (Py.encode s) = List.length bs - skip ->
        Py.decode_from Py.strict whole pos skip bs = inr s).
Proof.
  induction bs as [|b rest IH]; intros pos skip s; cbn [Py.decode_from].
  - intros [= <-]. now split.
  - destruct skip as [|k].
    2:{ intros H. apply IH in H. cbn [List.length]. exact H. }
    assert (Herr : forall m s',
              Py.decode_from Py.ignore whole (S pos) m rest = inr s' ->
              List.length (Py.encode s') <= List.length (b :: rest) - 0
              /\ (List.length (Py.encode s') = List.length (b :: rest) - 0 ->
                  False)).
    { intros m s' Hs'. apply IH in Hs'. cbn [List.length]. lia. }
    destruct (Py.utf8_classify (map Byte.to_N (b :: rest))) as [n| | |n] eqn:Hc;
      match goal with
      | |- context [Py.decode_from Py.ignore whole ?p ?k rest] =>
          destruct (Py.decode_from Py.ignore whole p k rest) as [e|s'] eqn:Hs;
          [discriminate|]
      end;
      intros [= <-];
      try (change (EmptyString +:+ s') with s';
           destruct (Herr _ _ Hs) as [Hle Hno];
           split; [exact Hle|intros Heq; destruct (Hno Heq)]).
    destruct (IH _ _ _ Hs) as [Hle Hexact].
    unfold Py.encode in *. rewrite list_byte_of_string_app.
    rewrite list_byte_of_string_of_list_byte, length_app, length_take.
    cbn [List.length] in *. split; [lia|].
    intros Heq. rewrite Hexact by lia. reflexivity.
Qed.

Lemma decode_ignore_exact bs s :
  Py.decode Py.ignore bs = inr s ->
  (Py.encode s = bs <-> exists s', Py.decode Py.strict bs = inr s').
Proof.
  intros Hi. split.
  - intros He. exists s.
    apply (decode_from_ignore_length bs bs 0 0 s Hi).
    rewrite He. lia.
  - intros (s' & Hs). apply decode_strict in Hs. destruct Hs as [Hi' He].
    unfold Py.decode in *. congruence.
Qed.

(** C2, as amended.  For a local file that is not empty, when both RPCs
    get through, the host can make the directory of the upload (it is
    there, or its parent is) and can open the file in it for writing: the
    upload succeeds and the host stores exactly the bytes of the file; the
    chunks that [PullFile] streams back for the stored file are of at most
    [CHUNK_SIZE] bytes each and concatenate to those bytes; and
    [pull_file] succeeds with the bytes decoded as UTF-8, undecodable bytes
    dropped, a text that encodes back to the bytes of the file exactly
    when they are valid UTF-8. *)
Theorem upload_then_pull_nonempty E filename storage_path w
    (content : Py.bytes) dirs' files' :
  local_read E w (pathlib.Path filename) = Returned content ->
  content <> [] ->
  channel E (now w) UploadFile = Delivered ->
  channel E (S (now w)) PullFile = Delivered ->
  host_mkdir E w (upload_directory E storage_path) = Returned dirs' ->
  host_write E (set_dirs dirs' w) (upload_destination E filename storage_path)
    content = Returned files' ->
  exists text w',
    upload_then_pull E filename storage_path w
    = (({| grpc_client.ret := Some true; grpc_client.err := None |},
        {| grpc_client.ret := Some text; grpc_client.err := None |}), w')
    /\ host_read E w' (upload_destination E filename storage_path)
       = Returned content
    /\ concat (fst (fst (CommunicationServicer.PullFile E
                           (upload_destination E filename storage_path) w')))
       = content
    /\ Forall (fun chunk => List.length chunk <= CHUNK_SIZE)
         (fst (fst (CommunicationServicer.PullFile E
                      (upload_destination E filename storage_path) w')))
    /\ Py.decode Py.ignore content = inr text
    /\ (Py.encode text = content
        <-> exists text', Py.decode Py.strict content = inr text').
Proof.
  intros Hfile Hne Hup Hdown Hmk Hwr.
  unfold upload_then_pull, grpc_client.GRPCClient.upload_file,
    grpc_client.GRPCClient.pull_file.
  rewrite bind_eq, bind_eq,
    (upload_file_spec E filename storage_path w content dirs' files')
    by assumption.
  unfold pure at 1. rewrite bind_eq, bind_eq.
  set (dest := upload_destination E filename storage_path) in *.
  set (w1 := set_files _ _).
  assert (Hdest : pathlib.Path dest = dest).
  { unfold dest, upload_destination. apply Path_joinpath. }
  pose proof (pull_file_spec E dest w1) as Hpull. cbv zeta in Hpull.
  rewrite Hdest in Hpull.
  destruct (write_read _ _ _ _ _ _ _ Hwr) as [Hread Hexists].
  assert (Hstored : host_read E w1 dest = Returned content) by exact Hread.
  assert (Hthere : host_exists E w1 dest = true) by exact Hexists.
  change (now w1) with (S (now w)) in Hpull.
  rewrite Hdown, Hthere, Hstored in Hpull.
  destruct Hpull as (text & Htext & Hpull).
  rewrite Hpull. unfold pure.
  eexists text, _. split; [reflexivity|].
  assert (Hpulled : forall w2, files w2 = files w1 -> dirs w2 = dirs w1 ->
            fst (CommunicationServicer.PullFile E dest w2)
            = (Py.read_chunks CHUNK_SIZE content, None)).
  { intros w2 Hf Hd. unfold CommunicationServicer.PullFile, gets.
    unfold host_exists, host_read in *. rewrite Hf, Hd, Hthere, Hstored.
    reflexivity. }
  split; [exact Hstored|]. split; [|split].
  - rewrite Hpulled by reflexivity. apply read_chunks_concat, CHUNK_SIZE_pos.
  - rewrite Hpulled by reflexivity. apply read_loop_bounded.
  - split; [exact Htext|]. now apply decode_ignore_exact.
Qed.

(** A file of the three bytes of the euro sign comes back as the text of
    the euro sign; the host makes the directory [/srv/up] for it. *)
Lemma upload_then_pull_nonempty_witness :
  local_read Ex.working (Ex.holding [xe2; x82; xac]) (pathlib.Path "a.bin")
  = Returned [xe2; x82; xac]
  /\ host_mkdir Ex.working (Ex.holding [xe2; x82; xac])
       (upload_directory Ex.working "up")
     = Returned ["/srv"; "/srv/UploadedFiles"; "/tmp"; "/srv/up"]
  /\ exists text w',
       upload_then_pull Ex.working "a.bin" "up" (Ex.holding [xe2; x82; xac])
       = (({| grpc_client.ret := Some true; grpc_client.err := None |},
           {| grpc_client.ret := Some text; grpc_client.err := None |}), w')
       /\ host_read Ex.working w' (upload_destination Ex.working "a.bin" "up")
          = Returned [xe2; x82; xac]
       /\ Py.encode text = [xe2; x82; xac].
Proof.
  assert (H1 : local_read Ex.working (Ex.holding [xe2; x82; xac])
                 (pathlib.Path "a.bin")
               = Returned [xe2; x82; xac]) by reflexivity.
  assert (H2 : host_mkdir Ex.working (Ex.holding [xe2; x82; xac])
                 (upload_directory Ex.working "up")
               = Returned ["/srv"; "/srv/UploadedFiles"; "/tmp"; "/srv/up"])
    by reflexivity.
  assert (H3 : host_write Ex.working
                 (set_dirs ["/srv"; "/srv/UploadedFiles"; "/tmp"; "/srv/up"]
                    (Ex.holding [xe2; x82; xac]))
                 (upload_destination Ex.working "a.bin" "up")
                 [xe2; x82; xac]
               = Returned (<["/srv/up/a.bin" := [xe2; x82; xac]]> ∅))
    by reflexivity.
  split; [exact H1|]. split; [exact H2|].
  destruct (upload_then_pull_nonempty Ex.working "a.bin" "up"
              (Ex.holding [xe2; x82; xac]) [xe2; x82; xac] _ _ H1
              ltac:(discriminate) eq_refl eq_refl H2 H3)
    as (text & w' & Heq & Hstored & _ & _ & Hdec & Hvalid).
  exists text, w'. split; [exact Heq|]. split; [exact Hstored|].
  apply Hvalid. exists (string_of_list_byte [xe2; x82; xac]). reflexivity.
Defined.

(** C2, counterexample.  A file of the single byte [0xff] is uploaded and
    pulled back as the empty text; an empty file is not uploaded at all
    (the request stream is empty and [UploadFile] fails on its first
    [next]), so the pull finds no file; and a file is not uploaded to a
    directory whose parent is missing on the host. *)
Lemma upload_then_pull_alters_content :
  fst (upload_then_pull Ex.working "a.bin" "up" (Ex.holding [xff]))
  = ({| grpc_client.ret := Some true; grpc_client.err := None |},
     {| grpc_client.ret := Some EmptyString; grpc_client.err := None |})
  /\ fst (upload_then_pull Ex.working "a.bin" "up" (Ex.holding []))
     = ({| grpc_client.ret := None; grpc_client.err := Some "Upload failed" |},
        {| grpc_client.ret := None;
           grpc_client.err := Some "StatusCode.NOT_FOUND, File not found" |})
  /\ fst (upload_then_pull Ex.working "a.bin" "new/up" (Ex.holding [x61]))
     = ({| grpc_client.ret := None; grpc_client.err := Some "Upload failed" |},
        {| grpc_client.ret := None;
           grpc_client.err := Some "StatusCode.NOT_FOUND, File not found" |}).
Proof. repeat split; vm_compute; reflexivity. Qed.

(** The [finally] block, by what stopping the capture and pulling the
    file give: a pull that fails is reported with the error of the stop,
    which is [None] there, and the text of its own error is dropped. *)
Lemma finally_block_spec E exec_result devid w :
  fst (app_executor.finally_block E exec_result devid w)
  = match grpc_client.GRPCClient.stop_logcat_collect E devid w with
    | (Raised e, _) => (exec_result, app_executor.Raise e)
    | (Returned response, w1) =>
        match grpc_client.err response, grpc_client.ret response with
        | None, Some logcat =>
            match grpc_client.pull_file E logcat w1 with
            | ((true, _), _) =>
                (app_executor.set_result "Error pulling logcat: None"
                   (app_executor.set_error true exec_result),
                 app_executor.Return)
            | ((false, _), w2) =>
                (app_executor.set_logcat_file
                   (Some (NamedTemporaryFile E (now w2))) exec_result,
                 app_executor.FallThrough)
            end
        | _, _ =>
            (app_executor.set_result
               ("Error stopping logcat: "
                +:+ str_opt (grpc_client.err response))
               (app_executor.set_error true exec_result),
             app_executor.Return)
        end
    end.
Proof.
  unfold app_executor.finally_block. rewrite bind_eq.
  destruct (grpc_client.GRPCClient.stop_logcat_collect E devid w)
    as [[response|e] w1]; [|reflexivity].
  destruct (grpc_client.err response) as [e|] eqn:Herr; [reflexivity|].
  destruct (grpc_client.ret response) as [logcat|]; [|reflexivity].
  rewrite bind_eq. unfold grpc_client.GRPCClient.pull_file. rewrite bind_eq.
  destruct (grpc_client.pull_file E logcat w1) as [[[|] text] w2];
    reflexivity.
Qed.



(* ===================================================================== *)
(** ** The pipeline and its cleanup                                        *)
(* ===================================================================== *)

Lemma quiet_pure {A} (a : A) : quiet (pure a).
Proof. intros w. now split. Qed.

Lemma quiet_gets {A} (f : World -> A) : quiet (gets f).
Proof. intros w. now split. Qed.

Lemma quiet_tick : quiet tick.
Proof. intros w. now split. Qed.

Lemma quiet_set_files (f : World -> gmap string Py.bytes) :
  quiet (modify (fun w => set_files (f w) w)).
Proof. intros w. now split. Qed.

Lemma quiet_set_local_files (f : World -> gmap string Py.bytes) :
  quiet (modify (fun w => set_local_files (f w) w)).
Proof. intros w. now split. Qed.

Lemma quiet_bind {A B} (m : M A) (k : A -> M B) :
  quiet m -> (forall a, quiet (k a)) -> quiet (bind m k).
Proof.
  intros Hm Hk w. rewrite bind_eq.
  specialize (Hm w). destruct (m w) as [a w1]. cbn [snd] in Hm.
  destruct (Hk a w1) as [H1 H2]. destruct Hm as [H3 H4].
  split; congruence.
Qed.

Lemma quiet_store_files (files' : gmap string Py.bytes) :
  quiet (modify (set_files files')).
Proof. intros w. now split. Qed.

Lemma quiet_store_dirs (dirs' : list string) : quiet (modify (set_dirs dirs')).
Proof. intros w. now split. Qed.

Create HintDb quiet.
#[local] Hint Resolve quiet_pure quiet_gets quiet_tick quiet_set_files
  quiet_set_local_files quiet_store_files quiet_store_dirs : quiet.

(** One step of a proof that a computation is [quiet]: through a bind, or
    by cases on what the code branches on. *)
Ltac quiet_step :=
  match goal with
  | |- quiet (bind _ _) => apply quiet_bind; [|intros ?]
  | |- quiet (match ?x with _ => _ end) => destruct x
  | |- quiet _ => solve [auto with quiet]
  end.

Ltac quiet_auto := repeat quiet_step.

Lemma quiet_exec_adb E self cmd : quiet (device._exec_adb E self cmd).
Proof. unfold device._exec_adb. quiet_auto. Qed.
#[local] Hint Resolve quiet_exec_adb : quiet.

Lemma quiet_logcat E self msg : quiet (device._logcat E self msg).
Proof. unfold device._logcat. quiet_auto. Qed.
#[local] Hint Resolve quiet_logcat : quiet.

Lemma quiet_is_package_installed E self p :
  quiet (device.is_package_installed E self p).
Proof. unfold device.is_package_installed. quiet_auto. Qed.
#[local] Hint Resolve quiet_is_package_installed : quiet.

Lemma quiet_uninstall_apk E self p : quiet (device.uninstall_apk E self p).
Proof. unfold device.uninstall_apk. quiet_auto. Qed.
#[local] Hint Resolve quiet_uninstall_apk : quiet.

Lemma quiet_install_apk E self filename :
  quiet (device.install_apk E self filename).
Proof. unfold device.install_apk, device.path_exists. quiet_auto. Qed.
#[local] Hint Resolve quiet_install_apk : quiet.

Lemma quiet_run_apk E self custom_cmd : quiet (device.run_apk E self custom_cmd).
Proof. unfold device.run_apk. quiet_auto. Qed.
#[local] Hint Resolve quiet_run_apk : quiet.

Lemma quiet_kill_apk E self : quiet (device.kill_apk E self).
Proof. unfold device.kill_apk. quiet_auto. Qed.
#[local] Hint Resolve quiet_kill_apk : quiet.

Lemma quiet_is_running E self pname : quiet (device.is_running E self pname).
Proof. unfold device.is_running. quiet_auto. Qed.
#[local] Hint Resolve quiet_is_running : quiet.

Lemma quiet_clear_logcat E self : quiet (device.clear_logcat E self).
Proof. unfold device.clear_logcat. quiet_auto. Qed.
#[local] Hint Resolve quiet_clear_logcat : quiet.

Lemma quiet_start_collect_logcat E self :
  quiet (device.start_collect_logcat E self).
Proof. unfold device.start_collect_logcat. quiet_auto. Qed.
#[local] Hint Resolve quiet_start_collect_logcat : quiet.

Lemma quiet_stop_collect_logcat E self :
  quiet (device.stop_collect_logcat E self).
Proof. unfold device.stop_collect_logcat. quiet_auto. Qed.
#[local] Hint Resolve quiet_stop_collect_logcat : quiet.

Lemma present_keys {V} k (d d' : list (string * V)) :
  Py.dict_keys d' = Py.dict_keys d ->
  Py.dict_get k d <> None -> Py.dict_get k d' <> None.
Proof.
  intros Hk H H'. apply H. apply dict_get_None_keys.
  rewrite <- Hk. now apply dict_get_None_keys.
Qed.

Lemma calls_quiet {A} did (m : M A) : quiet m -> calls did [] m.
Proof.
  intros Hm w _. destruct (Hm w) as [H1 H2].
  rewrite H1, H2, app_nil_r. now split.
Qed.

Lemma calls_pure {A} did (a : A) : calls did [] (pure a).
Proof. apply calls_quiet, quiet_pure. Qed.

Lemma calls_bind {A B} did l1 l2 (m : M A) (k : A -> M B) :
  calls did l1 m -> (forall a, calls did l2 (k a)) ->
  calls did (l1 ++ l2) (bind m k).
Proof.
  intros Hm Hk w Hw. rewrite bind_eq.
  destruct (Hm w Hw) as [H1 H2]. destruct (m w) as [a w1]. cbn [snd] in *.
  destruct (Hk a w1 (present_keys _ _ _ H1 Hw)) as [H3 H4].
  split; [congruence|]. now rewrite H4, H2, app_assoc.
Qed.

Lemma calls_bind_nil {A B} did l (m : M A) (k : A -> M B) :
  calls did [] m -> (forall a, calls did l (k a)) -> calls did l (bind m k).
Proof. intros Hm Hk. now apply (calls_bind did [] l). Qed.

Lemma calls_store did dev : calls did [] (VTestStation.store did dev).
Proof.
  intros w Hw. unfold VTestStation.store, modify. cbn [snd devices set_devices rpc_log].
  rewrite app_nil_r. split; [|reflexivity].
  destruct (Py.dict_get did (devices w)) as [d0|] eqn:Hd; [|congruence].
  now apply (dict_keys_set_present did dev d0).
Qed.

Create HintDb calls.
#[local] Hint Resolve calls_pure calls_store : calls.
#[local] Hint Extern 2 (calls _ [] _) =>
  (apply calls_quiet; solve [auto with quiet]) : calls.

(** One step of a proof that a function of the host keeps the ids. *)
Ltac calls_step :=
  match goal with
  | |- calls _ [] (bind _ _) => apply calls_bind_nil; [|intros ?]
  | |- calls _ [] (match ?x with _ => _ end) => destruct x
  | |- calls _ [] _ => solve [auto with calls]
  end.

Ltac calls_auto := repeat calls_step.

Lemma quiet_get_device did : quiet (VTestStation.get_device did).
Proof. unfold VTestStation.get_device. auto with quiet. Qed.
#[local] Hint Resolve quiet_get_device : quiet.

Lemma quiet_signed_by_tool E app_file :
  quiet (VTestFunctions.signed_by_tool E app_file).
Proof. unfold VTestFunctions.signed_by_tool. quiet_auto. Qed.
#[local] Hint Resolve quiet_signed_by_tool : quiet.

Lemma calls_installApp E did server_file sign_file :
  calls did [] (VTestFunctions.installApp E did server_file sign_file).
Proof.
  unfold VTestFunctions.installApp, device.path_exists. calls_auto.
Qed.

Lemma calls_uninstallApp E did : calls did [] (VTestFunctions.uninstallApp E did).
Proof. unfold VTestFunctions.uninstallApp. calls_auto. Qed.

Lemma calls_startLogcatCollect E did :
  calls did [] (VTestFunctions.startLogcatCollect E did).
Proof. unfold VTestFunctions.startLogcatCollect. calls_auto. Qed.

Lemma calls_stopLogcatCollect E did :
  calls did [] (VTestFunctions.stopLogcatCollect E did).
Proof. unfold VTestFunctions.stopLogcatCollect. calls_auto. Qed.

Lemma calls_runLastInstalledApk E did execution_time custom_cmd :
  calls did []
    (VTestFunctions.runLastInstalledApk E did execution_time custom_cmd).
Proof. unfold VTestFunctions.runLastInstalledApk. calls_auto. Qed.

Lemma dict_get_map_values {V} (f : V -> V) k (d : list (string * V)) :
  Py.dict_get k (map (fun kv => (fst kv, f (snd kv))) d)
  = option_map f (Py.dict_get k d).
Proof.
  induction d as [|[k0 v0] d IH]; [reflexivity|]. simpl.
  now destruct (String.eqb k0 k).
Qed.

Lemma dict_keys_map_values {V} (f : V -> V) (d : list (string * V)) :
  Py.dict_keys (map (fun kv => (fst kv, f (snd kv))) d) = Py.dict_keys d.
Proof.
  unfold Py.dict_keys. rewrite map_map. reflexivity.
Qed.

(** [unlockDevice] keeps the ids and leaves the device free. *)
Lemma unlockDevice_releases did w :
  Py.dict_get did (devices w) <> None ->
  Py.dict_keys (devices (snd (VTestFunctions.unlockDevice did w)))
  = Py.dict_keys (devices w)
  /\ rpc_log (snd (VTestFunctions.unlockDevice did w)) = rpc_log w
  /\ exists dev',
       Py.dict_get did (devices (snd (VTestFunctions.unlockDevice did w)))
       = Some dev'
       /\ in_use dev' = false.
Proof.
  intros Hw. unfold VTestFunctions.unlockDevice.
  destruct (String.eqb did "__ALL__").
  - rewrite bind_eq. unfold modify, pure. cbn [snd devices set_devices rpc_log].
    rewrite dict_keys_map_values, dict_get_map_values.
    repeat split.
    destruct (Py.dict_get did (devices w)) as [d0|]; [|congruence].
    now exists (set_in_use false d0).
  - rewrite bind_eq. unfold VTestStation.get_device, gets.
    destruct (Py.dict_get did (devices w)) as [d0|] eqn:Hd; [|congruence].
    rewrite bind_eq. unfold VTestStation.store, modify, pure.
    cbn [snd devices set_devices rpc_log].
    rewrite (dict_keys_set_present did _ d0 _ Hd), dict_get_set_eq.
    repeat split. now eexists.
Qed.

(** A call through the stub is one attempt in the log, whatever the
    transport does with it. *)
Lemma calls_stub {A} E did r arg (servicer : M (Raises A)) :
  calls did [] servicer -> calls did [(r, arg)] (grpc_client.stub E r arg servicer).
Proof.
  intros Hs w Hw.
  destruct (grpc_client.stub E r arg servicer w) as [res w'] eqn:Heq.
  cbn [snd]. unfold grpc_client.stub in Heq.
  rewrite bind_eq in Heq. unfold modify at 1 in Heq.
  rewrite bind_eq in Heq. unfold tick at 1 in Heq.
  set (w1 := set_now _ _) in Heq.
  assert (Hw1 : Py.dict_get did (devices w1) <> None) by exact Hw.
  destruct (Hs w1 Hw1) as [H1 H2]. rewrite app_nil_r in H2.
  destruct (channel E _ r).
  - rewrite bind_eq in Heq. destruct (servicer w1) as [a w2].
    unfold pure in Heq. injection Heq as _ <-. cbn [snd] in *.
    rewrite H1, H2. now split.
  - unfold pure in Heq. injection Heq as _ <-. now split.
  - rewrite bind_eq in Heq. destruct (servicer w1) as [a w2].
    unfold pure in Heq. injection Heq as _ <-. cbn [snd] in *.
    rewrite H1, H2. now split.
Qed.

Lemma calls_wrap {A B} did l (call : M (Raises (communication_pb2.Reply A)))
    (value : communication_pb2.Reply A -> option B) :
  calls did l call -> calls did l (grpc_client.GRPCClient.wrap call value).
Proof.
  intros Hc. unfold grpc_client.GRPCClient.wrap.
  rewrite <- (app_nil_r l). apply calls_bind; [exact Hc|].
  intros a. apply calls_pure.
Qed.

Lemma calls_servicer {A B} did (f : M A) (g : A -> B) :
  calls did [] f -> calls did [] (r <- f ;; pure (g r)).
Proof. intros Hf. apply calls_bind_nil; [exact Hf|intros a; apply calls_pure]. Qed.

Lemma calls_start_logcat_collect E did :
  calls did [(StartLogcatCollect, did)]
    (grpc_client.GRPCClient.start_logcat_collect E did).
Proof.
  apply calls_wrap, calls_stub, calls_servicer, calls_startLogcatCollect.
Qed.

Lemma calls_install_app E did server_path sign_app :
  calls did [(InstallApp, did)]
    (grpc_client.GRPCClient.install_app E did server_path sign_app).
Proof. apply calls_wrap, calls_stub, calls_servicer, calls_installApp. Qed.

Lemma calls_run_last_installed_apk E did execution_time custom_cmd :
  calls did [(RunLastInstalledApk, did)]
    (grpc_client.GRPCClient.run_last_installed_apk E did execution_time custom_cmd).
Proof.
  apply calls_wrap, calls_stub, calls_servicer, calls_runLastInstalledApk.
Qed.

Lemma calls_uninstall_app E did :
  calls did [(UninstallApp, did)] (grpc_client.GRPCClient.uninstall_app E did).
Proof. apply calls_wrap, calls_stub, calls_servicer, calls_uninstallApp. Qed.

Lemma calls_stop_logcat_collect E did :
  calls did [(StopLogcatCollect, did)]
    (grpc_client.GRPCClient.stop_logcat_collect E did).
Proof. apply calls_wrap, calls_stub, calls_servicer, calls_stopLogcatCollect. Qed.

Lemma calls_pull_file E did filename :
  calls did [(PullFile, pathlib.Path filename)]
    (grpc_client.GRPCClient.pull_file E filename).
Proof.
  intros w Hw.
  pose proof (pull_file_spec E filename w) as Hs. cbv zeta in Hs.
  assert (Hall : exists r,
            grpc_client.pull_file E filename w
            = (r, set_now (S (now w))
                    (set_rpc_log
                       (rpc_log w ++ [(PullFile, pathlib.Path filename)]) w))).
  { destruct (channel E (now w) PullFile); [|eexists; exact Hs..].
    destruct (host_exists E w _); [|eexists; exact Hs].
    destruct (host_read E w _); [|eexists; exact Hs].
    destruct Hs as (text & _ & Hs). eexists; exact Hs. }
  destruct Hall as ([error result] & Heq).
  unfold grpc_client.GRPCClient.pull_file. rewrite bind_eq, Heq.
  unfold pure. now split.
Qed.

Lemma visits_calls {A} did l (m : M A) : calls did l m -> visits did m.
Proof. intros Hm w Hw. destruct (Hm w Hw) as [H1 H2]. split; [exact H1|]. now exists l. Qed.

Lemma visits_pure {A} did (a : A) : visits did (pure a).
Proof. apply (visits_calls did []), calls_pure. Qed.

Lemma visits_bind {A B} did (m : M A) (k : A -> M B) :
  visits did m -> (forall a, visits did (k a)) -> visits did (bind m k).
Proof.
  intros Hm Hk w Hw. rewrite bind_eq.
  destruct (Hm w Hw) as [H1 (l1 & H2)]. destruct (m w) as [a w1]. cbn [snd] in *.
  destruct (Hk a w1 (present_keys _ _ _ H1 Hw)) as [H3 (l2 & H4)].
  split; [congruence|]. exists (l1 ++ l2)%list. now rewrite H4, H2, app_assoc.
Qed.

Create HintDb visits.
#[local] Hint Resolve visits_pure : visits.
#[local] Hint Extern 1 (visits _ (grpc_client.GRPCClient.start_logcat_collect _ _)) =>
  (eapply visits_calls, calls_start_logcat_collect) : visits.
#[local] Hint Extern 1 (visits _ (grpc_client.GRPCClient.install_app _ _ _ _)) =>
  (eapply visits_calls, calls_install_app) : visits.
#[local] Hint Extern 1 (visits _ (grpc_client.GRPCClient.run_last_installed_apk _ _ _ _)) =>
  (eapply visits_calls, calls_run_last_installed_apk) : visits.
#[local] Hint Extern 1 (visits _ (grpc_client.GRPCClient.uninstall_app _ _)) =>
  (eapply visits_calls, calls_uninstall_app) : visits.
#[local] Hint Extern 1 (visits _ (grpc_client.GRPCClient.stop_logcat_collect _ _)) =>
  (eapply visits_calls, calls_stop_logcat_collect) : visits.
#[local] Hint Extern 1 (visits _ (grpc_client.GRPCClient.pull_file _ _)) =>
  (eapply visits_calls, calls_pull_file) : visits.
#[local] Hint Extern 2 (visits _ _) =>
  (eapply (visits_calls _ []), calls_quiet; solve [auto with quiet]) : visits.

Ltac visits_step :=
  match goal with
  | |- visits _ (bind _ _) => apply visits_bind; [|intros ?]
  | |- visits _ (match ?x with _ => _ end) => destruct x
  | |- visits _ _ => solve [auto with visits]
  end.

Ltac visits_auto := repeat visits_step.

Lemma visits_try_block E exec_result devid stored_file execution_time sign_app
    custom_cmd :
  visits devid
    (app_executor.try_block E exec_result devid stored_file execution_time
       sign_app custom_cmd).
Proof. unfold app_executor.try_block. visits_auto. Qed.

Lemma visits_finally_block E exec_result devid :
  visits devid (app_executor.finally_block E exec_result devid).
Proof. unfold app_executor.finally_block. visits_auto. Qed.

Lemma visits_try_finally E exec_result devid stored_file execution_time
    sign_app custom_cmd :
  visits devid
    (app_executor.try_finally E exec_result devid stored_file execution_time
       sign_app custom_cmd).
Proof.
  unfold app_executor.try_finally.
  apply visits_bind; [apply visits_try_block|]. intros [er tried].
  apply visits_bind; [apply visits_finally_block|]. intros [er' finished].
  apply visits_pure.
Qed.

Lemma calls_operation {A} did l (call : string -> M (Raises A)) :
  calls did l (call did) -> calls did l (DeviceUsage.operation call did).
Proof.
  intros Hc. unfold DeviceUsage.operation.
  rewrite <- (app_nil_r l). apply calls_bind; [exact Hc|].
  intros a. apply calls_pure.
Qed.

(** Runs the binds and the primitives at the head of the computation in
    [H]. *)
Ltac run_in H :=
  repeat first [ rewrite bind_eq in H
               | progress cbv beta iota in H
               | progress unfold modify, tick, pure in H ].

(** The release call leaves the device free when its request reaches the
    host. *)
Lemma unlock_device_releases E did w :
  Py.dict_get did (devices w) <> None ->
  (forall t, channel E t UnlockDevice <> RequestLost) ->
  Py.dict_keys (devices (snd (grpc_client.GRPCClient.unlock_device E did w)))
  = Py.dict_keys (devices w)
  /\ rpc_log (snd (grpc_client.GRPCClient.unlock_device E did w))
     = (rpc_log w ++ [(UnlockDevice, did)])%list
  /\ exists dev',
       Py.dict_get did
         (devices (snd (grpc_client.GRPCClient.unlock_device E did w)))
       = Some dev'
       /\ in_use dev' = false.
Proof.
  intros Hw Hnet.
  destruct (grpc_client.GRPCClient.unlock_device E did w) as [res w'] eqn:Heq.
  cbn [snd].
  unfold grpc_client.GRPCClient.unlock_device, grpc_client.GRPCClient.wrap,
    grpc_client.unlock_device, grpc_client.stub,
    CommunicationServicer.UnlockDevice in Heq.
  run_in Heq.
  set (w1 := set_now _ _) in Heq.
  assert (Hw1 : Py.dict_get did (devices w1) <> None) by exact Hw.
  destruct (unlockDevice_releases did w1 Hw1) as (H1 & H2 & dev' & H3 & H4).
  specialize (Hnet (now (set_rpc_log (rpc_log w ++ [(UnlockDevice, did)]) w))).
  destruct (channel E _ UnlockDevice); [|congruence|].
  - run_in Heq. destruct (VTestFunctions.unlockDevice did w1) as [r w2].
    injection Heq as _ <-. cbn [snd] in *.
    split; [exact H1|]. split; [exact H2|]. now exists dev'.
  - run_in Heq. destruct (VTestFunctions.unlockDevice did w1) as [r w2].
    injection Heq as _ <-. cbn [snd] in *.
    split; [exact H1|]. split; [exact H2|]. now exists dev'.
Qed.

(** The cleanup of [DeviceUsage] attempts its three operations in order,
    whatever becomes of each, and leaves the device free when the last
    one reaches the host. *)
Lemma exit_releases E did w :
  Py.dict_get did (devices w) <> None ->
  (forall t, channel E t UnlockDevice <> RequestLost) ->
  rpc_log (snd (DeviceUsage.__exit__ E did w))
  = (rpc_log w
     ++ [(UninstallApp, did); (StopLogcatCollect, did); (UnlockDevice, did)])%list
  /\ exists dev',
       Py.dict_get did (devices (snd (DeviceUsage.__exit__ E did w))) = Some dev'
       /\ in_use dev' = false.
Proof.
  intros Hw Hnet.
  destruct (DeviceUsage.__exit__ E did w) as [res w'] eqn:Heq. cbn [snd].
  unfold DeviceUsage.__exit__, DeviceUsage.cleanup_operations in Heq.
  cbn [DeviceUsage.run_operations] in Heq.
  rewrite bind_eq in Heq.
  destruct (calls_operation did _ _ (calls_uninstall_app E did) w Hw) as [K1 L1].
  destruct (DeviceUsage.operation (grpc_client.GRPCClient.uninstall_app E) did w)
    as [r1 w1].
  cbn [snd] in K1, L1.
  assert (Hw1 : Py.dict_get did (devices w1) <> None)
    by (eapply present_keys; eassumption).
  assert (Heq1 : (r <- DeviceUsage.operation
                        (grpc_client.GRPCClient.stop_logcat_collect E) did ;;
                  match r with
                  | Returned _ | Raised _ =>
                      r0 <- DeviceUsage.operation
                              (grpc_client.GRPCClient.unlock_device E) did ;;
                      match r0 with
                      | Returned _ | Raised _ => pure tt
                      end
                  end) w1 = (res, w')) by (now destruct r1).
  clear Heq. rewrite bind_eq in Heq1.
  destruct (calls_operation did _ _ (calls_stop_logcat_collect E did) w1 Hw1)
    as [K2 L2].
  destruct (DeviceUsage.operation (grpc_client.GRPCClient.stop_logcat_collect E)
              did w1) as [r2 w2].
  cbn [snd] in K2, L2.
  assert (Hw2 : Py.dict_get did (devices w2) <> None)
    by (eapply present_keys; eassumption).
  assert (Heq2 : (r0 <- DeviceUsage.operation
                         (grpc_client.GRPCClient.unlock_device E) did ;;
                  match r0 with
                  | Returned _ | Raised _ => pure tt
                  end) w2 = (res, w')) by (now destruct r2).
  clear Heq1. unfold DeviceUsage.operation in Heq2. rewrite !bind_eq in Heq2.
  destruct (unlock_device_releases E did w2 Hw2 Hnet) as (K3 & L3 & dev' & G & F).
  destruct (grpc_client.GRPCClient.unlock_device E did w2) as [r3 w3].
  cbn [snd] in K3, L3, G.
  assert (w' = w3) by (destruct r3; unfold pure in Heq2; congruence).
  subst w'. split.
  - rewrite L3, L2, L1, <- !app_assoc. reflexivity.
  - now exists dev'.
Qed.

(** A failure forced at each of the five stages in turn: the capture
    process cannot be started; the package is not in the listing after the
    installation; no process of the app is found; the request to uninstall
    is lost; the capture process cannot be terminated.  Each time the
    device ends free and the last three RPCs attempted are the release
    actions. *)
Example execute_app_failure_at_each_stage :
  let released (E : Env) :=
    (snd (fst (Ex.run E)),
     drop (List.length (snd (Ex.run E)) - 3) (snd (Ex.run E))) in
  let released_as_expected :=
    (Some false,
     [(UninstallApp, "A"); (StopLogcatCollect, "A"); (UnlockDevice, "A")]) in
  released (Ex.pipeline_env Ex.responsive (Raised (Exception "adb not found"))
              Terminated Ex.delivered) = released_as_expected
  /\ released (Ex.pipeline_env Ex.silent (Returned 4711%Z) Terminated
                 Ex.delivered) = released_as_expected
  /\ released (Ex.pipeline_env Ex.not_starting (Returned 4711%Z) Terminated
                 Ex.delivered) = released_as_expected
  /\ released (Ex.pipeline_env Ex.responsive (Returned 4711%Z) Terminated
                 Ex.uninstall_lost_once) = released_as_expected
  /\ released (Ex.pipeline_env Ex.responsive (Returned 4711%Z)
                 (TerminateFailed "process is gone") Ex.delivered)
     = released_as_expected.
Proof. repeat split; vm_compute; reflexivity. Qed.

(** The run that succeeds, and the run whose installation fails: the
    outcome carries the captured log in both. *)
Example execute_app_outcomes :
  fst (fst (Ex.run (Ex.pipeline_env Ex.responsive (Returned 4711%Z) Terminated
                      Ex.delivered)))
  = Returned {| app_executor.error := false; app_executor.devid := "A";
                app_executor.result := EmptyString;
                app_executor.logcat_file := Some "/tmp/tmp25";
                app_executor.server_name := Some "host" |}
  /\ fst (fst (Ex.run (Ex.pipeline_env Ex.silent (Returned 4711%Z) Terminated
                         Ex.delivered)))
     = Returned {| app_executor.error := true; app_executor.devid := "A";
                   app_executor.result :=
                     "Error install_app: Could not install App, stderr: ";
                   app_executor.logcat_file := Some "/tmp/tmp15";
                   app_executor.server_name := Some "host" |}.
Proof. split; vm_compute; reflexivity. Qed.

(* ===================================================================== *)
(** ** The shape of the registry                                           *)
(* ===================================================================== *)

Section RegistryFacts.
Context {V : Type}.
Implicit Types (d : list (string * V)) (k : string) (v : V).

Lemma In_keys_set x k v d :
  In x (Py.dict_keys (Py.dict_set k v d)) -> x = k \/ In x (Py.dict_keys d).
Proof.
  induction d as [|[k' v'] d IH]; cbn.
  - intros [<-|[]]. now left.
  - destruct (String.eqb k' k); cbn; [now right|].
    intros [<-|H]; [right; now left|].
    destruct (IH H) as [->|H']; [now left|right; now right].
Qed.

Lemma NoDup_keys_set k v d :
  NoDup (Py.dict_keys d) -> NoDup (Py.dict_keys (Py.dict_set k v d)).
Proof.
  induction d as [|[k' v'] d IH]; cbn; intros Hnd.
  - constructor; [rewrite list_elem_of_In; intros []|constructor].
  - destruct (String.eqb k' k) eqn:Hk; cbn; [exact Hnd|].
    inversion Hnd as [|? ? Hnotin Hrest]; subst.
    constructor.
    + rewrite list_elem_of_In. intros H. apply In_keys_set in H as [->|H].
      * rewrite String.eqb_refl in Hk. discriminate.
      * apply Hnotin. now rewrite list_elem_of_In.
    + now apply IH.
Qed.

Lemma Forall_dict_set_key (P : string * V -> Prop) k v d :
  P (k, v) -> Forall P d -> Forall P (Py.dict_set k v d).
Proof.
  intros Hk. induction 1 as [|[k' v'] d Hhd Htl IH]; cbn.
  - now constructor.
  - destruct (String.eqb k' k) eqn:Heq.
    + apply String.eqb_eq in Heq as ->. now constructor.
    + now constructor.
Qed.

Lemma In_keys_del x k d :
  In x (Py.dict_keys (Py.dict_del k d)) -> In x (Py.dict_keys d).
Proof.
  unfold Py.dict_keys, Py.dict_del. rewrite !in_map_iff.
  intros [kv [Hx Hin]]. apply filter_In in Hin as [Hin _]. now exists kv.
Qed.

Lemma NoDup_keys_del k d :
  NoDup (Py.dict_keys d) -> NoDup (Py.dict_keys (Py.dict_del k d)).
Proof.
  induction d as [|[k' v'] d IH]; cbn; intros Hnd; [constructor|].
  inversion Hnd as [|? ? Hnotin Hrest]; subst.
  destruct (negb (String.eqb k' k)); cbn; [|now apply IH].
  constructor; [|now apply IH].
  rewrite list_elem_of_In. intros H. apply Hnotin. rewrite list_elem_of_In.
  exact (In_keys_del _ _ _ H).
Qed.

Lemma In_dict_get k v d :
  NoDup (Py.dict_keys d) -> In (k, v) d -> Py.dict_get k d = Some v.
Proof.
  induction d as [|[k' v'] d IH]; cbn; intros Hnd Hin; [easy|].
  inversion Hnd as [|? ? Hnotin Hrest]; subst.
  destruct Hin as [Heq|Hin].
  - inversion Heq; subst. now rewrite String.eqb_refl.
  - destruct (String.eqb k' k) eqn:Hk.
    + apply String.eqb_eq in Hk as ->. exfalso. apply Hnotin.
      rewrite list_elem_of_In. unfold Py.dict_keys.
      apply in_map_iff. now exists (k, v).
    + now apply IH.
Qed.

(** Two dictionaries with the same keys, in the same order, and the same
    values under them are the same. *)
Lemma dict_ext d d' :
  NoDup (Py.dict_keys d) ->
  Py.dict_keys d' = Py.dict_keys d ->
  (forall k, Py.dict_get k d' = Py.dict_get k d) ->
  d' = d.
Proof.
  revert d'. induction d as [|[k v] d IH]; intros [|[k' v'] d'] Hnd Hkeys Hget;
    try discriminate; [reflexivity|].
  cbn in Hkeys. inversion Hkeys; subst k'.
  inversion Hnd as [|? ? Hnotin Hrest]; subst.
  pose proof (Hget k) as Hk. cbn in Hk. rewrite String.eqb_refl in Hk.
  inversion Hk; subst v'. f_equal.
  apply IH; [assumption..|].
  intros x. specialize (Hget x). cbn in Hget.
  destruct (String.eqb k x) eqn:Hx; [|exact Hget].
  apply String.eqb_eq in Hx as <-.
  assert (Hnone : forall e : list (string * V), Py.dict_keys e = Py.dict_keys d -> Py.dict_get k e = None).
  { intros e He. apply dict_get_None_keys. rewrite He.
    intros H. apply Hnotin. now rewrite list_elem_of_In. }
  now rewrite !Hnone.
Qed.

Lemma dict_all_None d : (forall k, Py.dict_get k d = None) -> d = [].
Proof.
  destruct d as [|[k v] d]; [reflexivity|].
  intros H. specialize (H k). cbn in H. rewrite String.eqb_refl in H.
  discriminate.
Qed.

End RegistryFacts.

Lemma registry_ok_nil : registry_ok [].
Proof. split; constructor. Qed.

Lemma registry_ok_set k dev reg :
  registry_ok reg -> id dev = k -> registry_ok (Py.dict_set k dev reg).
Proof.
  intros [Hnd Hid] Hk. split.
  - now apply NoDup_keys_set.
  - now apply Forall_dict_set_key.
Qed.

Lemma registry_ok_del k reg :
  registry_ok reg -> registry_ok (Py.dict_del k reg).
Proof.
  intros [Hnd Hid]. split.
  - now apply NoDup_keys_del.
  - unfold Py.dict_del. rewrite List.Forall_forall in *.
    intros kv Hin. apply filter_In in Hin as [Hin _]. now apply Hid.
Qed.

Lemma registry_ok_get k d reg :
  registry_ok reg -> Py.dict_get k reg = Some d -> id d = k.
Proof.
  intros [_ Hid] Hget. apply dict_get_Some_In in Hget.
  rewrite List.Forall_forall in Hid. exact (Hid _ Hget).
Qed.

Lemma registry_ok_In d reg :
  registry_ok reg -> In d (Py.dict_values reg) ->
  Py.dict_get (id d) reg = Some d.
Proof.
  intros [Hnd Hid] Hin. unfold Py.dict_values in Hin.
  apply in_map_iff in Hin as [[k d'] [Heq Hin]]. cbn in Heq. subst d'.
  rewrite List.Forall_forall in Hid. pose proof (Hid _ Hin) as Hk. cbn in Hk.
  rewrite Hk. now apply In_dict_get.
Qed.

Lemma registry_ok_map (f : Device -> Device) reg :
  (forall d, id (f d) = id d) ->
  registry_ok reg ->
  registry_ok (map (fun kv => (fst kv, f (snd kv))) reg).
Proof.
  intros Hf [Hnd Hid]. split.
  - now rewrite dict_keys_map_values.
  - rewrite List.Forall_forall in *. intros kv Hin.
    apply in_map_iff in Hin as [kv' [<- Hin]]. cbn. rewrite Hf. now apply Hid.
Qed.

Lemma add_device_ok dev w :
  registry_ok (devices w) ->
  registry_ok (devices (snd (VTestStation.add_device dev w))).
Proof.
  intros Hok. unfold VTestStation.add_device, modify. cbn [snd].
  destruct (Py.dict_mem (id dev) (devices w)); [exact Hok|].
  cbn. now apply registry_ok_set.
Qed.

Lemma add_online_ok enum :
  forall w, registry_ok (devices w) ->
    registry_ok (devices (snd (VTestFunctions.add_online enum w))).
Proof.
  induction enum as [|[i props] enum IH]; intros w Hok; cbn; [exact Hok|].
  destruct (Py.dict_get "state" props) as [state|]; [|exact Hok].
  rewrite bind_eq.
  destruct (negb (String.eqb state "device")); cbn.
  - now apply IH.
  - apply IH. exact (add_device_ok (device.new_Device i props) w Hok).
Qed.

Lemma remove_absent_ok known present :
  forall w, registry_ok (devices w) ->
    registry_ok (devices (snd (VTestFunctions.remove_absent known present w))).
Proof.
  induction known as [|devid known IH]; intros w Hok; cbn; [exact Hok|].
  rewrite bind_eq.
  destruct (negb (Py.list_mem devid present)); cbn; [|now apply IH].
  unfold VTestStation.del_device, modify.
  apply IH. destruct (Py.dict_mem devid (devices w)); [|exact Hok].
  cbn. now apply registry_ok_del.
Qed.

Lemma getAdbDevices_ok E w :
  registry_ok (devices w) ->
  registry_ok (devices (snd (VTestFunctions.getAdbDevices E w))).
Proof.
  intros Hok. unfold VTestFunctions.getAdbDevices. rewrite bind_eq.
  destruct (get_all_devices_spec E w) as (r & n & Heq & _). rewrite Heq.
  destruct r as [enum|e]; [|exact Hok].
  rewrite bind_eq.
  pose proof (add_online_ok enum (set_now n w) Hok) as Hok1.
  destruct (VTestFunctions.add_online enum (set_now n w)) as [[[]|e] w1];
    [|exact Hok1].
  rewrite bind_eq. unfold gets at 1. rewrite bind_eq.
  pose proof (remove_absent_ok (Py.dict_keys (devices w1)) (Py.dict_keys enum)
                w1 Hok1) as Hok2.
  destruct (VTestFunctions.remove_absent _ _ w1) as [[] w2].
  exact Hok2.
Qed.

Lemma lazy_discovery_ok E w :
  registry_ok (devices w) -> registry_ok (registry_at_scan E w).
Proof.
  intros Hok. unfold registry_at_scan, VTestFunctions.lazy_discovery.
  rewrite bind_eq. unfold gets.
  destruct (List.length (devices w) =? 0)%nat; [|exact Hok].
  now apply getAdbDevices_ok.
Qed.

(** *** The scan of [getFreeDevices] *)

(** A step of the scan leases the device, stops, or passes it. *)
Lemma scan_cases num wish k dev rest ret :
  (in_use dev = false
   /\ VTestFunctions.scan num wish ((k, dev) :: rest) ret
      = (let '(rest', r) :=
           VTestFunctions.scan num wish rest (ret ++ [id dev])%list in
         ((k, set_in_use true dev) :: rest', r)))
  \/ VTestFunctions.scan num wish ((k, dev) :: rest) ret
     = ((k, dev) :: rest, ret)
  \/ VTestFunctions.scan num wish ((k, dev) :: rest) ret
     = (let '(rest', r) := VTestFunctions.scan num wish rest ret in
        ((k, dev) :: rest', r)).
Proof.
  cbn [VTestFunctions.scan].
  destruct (in_use dev); [now right; right|].
  destruct (List.length wish =? 0)%nat.
  - destruct (Z.of_nat (List.length ret) =? num)%Z; [now right; left|now left].
  - destruct (Py.list_mem (id dev) wish); [now left|now right; right].
Qed.

Lemma scan_extends num wish ds :
  forall ret, exists new,
    snd (VTestFunctions.scan num wish ds ret) = (ret ++ new)%list
    /\ forall x, In x new -> In x (map id (Py.dict_values ds)).
Proof.
  induction ds as [|[k dev] ds IH]; intros ret.
  - exists []. cbn. now rewrite app_nil_r.
  - destruct (scan_cases num wish k dev ds ret) as [[_ ->]|[->| ->]].
    + destruct (IH (ret ++ [id dev])%list) as (new & Hnew & Hin).
      rewrite snd_let_pair, Hnew. exists (id dev :: new).
      split; [now rewrite <- app_assoc|].
      cbn. intros x [<-|Hx]; [now left|right; now apply Hin].
    + exists []. cbn. now rewrite app_nil_r.
    + destruct (IH ret) as (new & Hnew & Hin).
      rewrite snd_let_pair, Hnew. exists new. split; [reflexivity|].
      cbn. intros x Hx. right. now apply Hin.
Qed.

Lemma registry_ok_ids reg :
  registry_ok reg -> map id (Py.dict_values reg) = Py.dict_keys reg.
Proof.
  intros [_ Hid]. unfold Py.dict_values, Py.dict_keys.
  induction Hid as [|kv reg Hhd Htl IH]; cbn; [reflexivity|].
  now rewrite Hhd, IH.
Qed.

Lemma registry_ok_tail kv reg :
  registry_ok (kv :: reg) ->
  registry_ok reg /\ ~ In (fst kv) (Py.dict_keys reg) /\ id (snd kv) = fst kv.
Proof.
  intros [Hnd Hid]. cbn in Hnd. inversion Hnd as [|? ? Hnotin Hrest]; subst.
  inversion Hid; subst. rewrite list_elem_of_In in Hnotin.
  repeat split; assumption.
Qed.

(** What the scan leaves under each key: the record is marked exactly
    when its id is returned. *)
Lemma scan_marks num wish ds :
  forall ret,
    registry_ok ds ->
    (forall x, In x ret -> ~ In x (Py.dict_keys ds)) ->
    Py.dict_keys (fst (VTestFunctions.scan num wish ds ret)) = Py.dict_keys ds
    /\ forall k d, Py.dict_get k ds = Some d ->
         Py.dict_get k (fst (VTestFunctions.scan num wish ds ret))
         = Some (if Py.list_mem k (snd (VTestFunctions.scan num wish ds ret))
                 then set_in_use true d else d).
Proof.
  induction ds as [|[k0 dev] ds IH]; intros ret Hok Hret.
  - cbn. split; [reflexivity|discriminate].
  - apply registry_ok_tail in Hok as Htail.
    destruct Htail as (Hok' & Hnotin & Hid). cbn [fst snd] in Hnotin, Hid.
    assert (Hmem : forall l new,
              l = (ret ++ new)%list ->
              (forall x, In x new -> In x (map id (Py.dict_values ds))) ->
              Py.list_mem k0 l = false).
    { intros l new -> Hnew.
      destruct (Py.list_mem k0 (ret ++ new)) eqn:Hm; [|reflexivity].
      apply list_mem_In, in_app_or in Hm as [Hm|Hm].
      - exfalso. apply (Hret _ Hm). now left.
      - apply Hnew in Hm. rewrite registry_ok_ids in Hm by assumption.
        now exfalso. }
    destruct (scan_cases num wish k0 dev ds ret) as [[Hfree ->]|[->| ->]].
    + destruct (scan_extends num wish ds (ret ++ [id dev])%list)
        as (new & Hnew & Hin).
      destruct (IH (ret ++ [id dev])%list Hok') as [Hkeys Hget].
      { intros x Hx. apply in_app_or in Hx as [Hx|[<-|[]]].
        - intros H. apply (Hret _ Hx). now right.
        - now rewrite Hid. }
      destruct (VTestFunctions.scan num wish ds (ret ++ [id dev])%list)
        as [rest' r] eqn:Hs.
      cbn [fst snd] in *. split; [cbn; f_equal; exact Hkeys|].
      intros k d. cbn [Py.dict_get].
      destruct (String.eqb k0 k) eqn:Hk.
      * apply String.eqb_eq in Hk as <-. intros [= <-].
        assert (Hin0 : In k0 r).
        { rewrite Hnew, <- Hid. apply in_or_app. left. apply in_or_app.
          right. now left. }
        apply list_mem_In in Hin0. now rewrite Hin0.
      * apply Hget.
    + cbn [fst snd]. split; [reflexivity|]. intros k d Hget.
      rewrite Hget. f_equal.
      destruct (Py.list_mem k ret) eqn:Hm; [|reflexivity].
      exfalso. apply list_mem_In in Hm. apply (Hret _ Hm).
      apply dict_get_Some_In in Hget. unfold Py.dict_keys.
      apply in_map_iff. now exists (k, d).
    + destruct (scan_extends num wish ds ret) as (new & Hnew & Hin).
      destruct (IH ret Hok') as [Hkeys Hget].
      { intros x Hx H. apply (Hret _ Hx). now right. }
      destruct (VTestFunctions.scan num wish ds ret) as [rest' r] eqn:Hs.
      cbn [fst snd] in *. split; [cbn; f_equal; exact Hkeys|].
      intros k d. cbn [Py.dict_get].
      destruct (String.eqb k0 k) eqn:Hk.
      * apply String.eqb_eq in Hk as <-. intros [= <-].
        now rewrite (Hmem r new Hnew Hin).
      * apply Hget.
Qed.

(** The scan marks one record for each id it adds. *)
Lemma scan_leases num wish ds :
  forall ret,
    leases (fst (VTestFunctions.scan num wish ds ret)) + List.length ret
    = leases ds + List.length (snd (VTestFunctions.scan num wish ds ret)).
Proof.
  unfold leases, Py.dict_values.
  induction ds as [|[k dev] ds IH]; intros ret; [reflexivity|].
  destruct (scan_cases num wish k dev ds ret) as [[Hfree ->]|[->| ->]].
  - specialize (IH (ret ++ [id dev])%list).
    destruct (VTestFunctions.scan num wish ds (ret ++ [id dev])%list)
      as [rest' r].
    cbn [fst snd] in *. cbn. rewrite Hfree.
    rewrite length_app in IH. cbn in IH |- *. lia.
  - reflexivity.
  - specialize (IH ret).
    destruct (VTestFunctions.scan num wish ds ret) as [rest' r].
    cbn [fst snd] in *. cbn. destruct (in_use dev); cbn; lia.
Qed.

Lemma scan_ok num wish ds ret :
  registry_ok ds -> registry_ok (fst (VTestFunctions.scan num wish ds ret)).
Proof.
  revert ret. induction ds as [|[k dev] ds IH]; intros ret Hok; [exact Hok|].
  apply registry_ok_tail in Hok as Htail.
  destruct Htail as (Hok' & Hnotin & Hid). cbn [fst snd] in Hnotin, Hid.
  assert (Hcons : forall dev' rest',
            id dev' = k -> registry_ok rest' ->
            Py.dict_keys rest' = Py.dict_keys ds ->
            registry_ok ((k, dev') :: rest')).
  { intros dev' rest' Hid' [Hnd' Hids'] Hkeys. split.
    - cbn. constructor; [|exact Hnd'].
      rewrite list_elem_of_In. fold (Py.dict_keys rest'). now rewrite Hkeys.
    - now constructor. }
  assert (Hkeys : forall ret', Py.dict_keys (fst (VTestFunctions.scan num wish ds ret'))
                               = Py.dict_keys ds).
  { clear - Hok'. induction ds as [|[k dev] ds IH]; intros ret; [reflexivity|].
    apply registry_ok_tail in Hok' as (Hok & _ & _).
    destruct (scan_cases num wish k dev ds ret) as [[Hfree ->]|[->| ->]].
    - specialize (IH Hok (ret ++ [id dev])%list).
      destruct (VTestFunctions.scan num wish ds _). cbn in *. now rewrite IH.
    - reflexivity.
    - specialize (IH Hok ret).
      destruct (VTestFunctions.scan num wish ds _). cbn in *. now rewrite IH. }
  destruct (scan_cases num wish k dev ds ret) as [[Hfree ->]|[->| ->]].
  - specialize (IH (ret ++ [id dev])%list Hok').
    specialize (Hkeys (ret ++ [id dev])%list).
    destruct (VTestFunctions.scan num wish ds _). cbn [fst] in *.
    now apply Hcons.
  - now apply Hcons.
  - specialize (IH ret Hok'). specialize (Hkeys ret).
    destruct (VTestFunctions.scan num wish ds _). cbn [fst] in *.
    now apply Hcons.
Qed.

Lemma getFreeDevices_effect E num wish w :
  exists r w',
    VTestFunctions.getFreeDevices E num wish w = (Returned r, w')
    /\ result r = snd (VTestFunctions.scan num wish (registry_at_scan E w) [])
    /\ devices w' = fst (VTestFunctions.scan num wish (registry_at_scan E w) []).
Proof.
  destruct (getFreeDevices_spec E num wish w) as (reg & n & Hlazy & Heq).
  unfold registry_at_scan. rewrite Hlazy, Heq. cbn [devices set_devices].
  eexists _, _. split; [reflexivity|]. split; [|reflexivity].
  rewrite scan_leasable.
  destruct (Spec.leasable num wish reg); reflexivity.
Qed.

Lemma set_in_use_undo d :
  in_use d = false -> set_in_use false (set_in_use true d) = d.
Proof. destruct d. cbn. now intros ->. Qed.

(** *** Releasing *)

Lemma unlockDevice_one did w :
  did <> "__ALL__" ->
  VTestFunctions.unlockDevice did w
  = match Py.dict_get did (devices w) with
    | Some d =>
        (VTestFunctions.ok true,
         set_devices (Py.dict_set did (set_in_use false d) (devices w)) w)
    | None => (VTestFunctions.failed false ("Device not found: " +:+ did), w)
    end.
Proof.
  intros Hne. unfold VTestFunctions.unlockDevice.
  apply String.eqb_neq in Hne. rewrite Hne.
  unfold VTestStation.get_device, gets. rewrite bind_eq.
  now destruct (Py.dict_get did (devices w)).
Qed.

Lemma unlockDevice_all w :
  VTestFunctions.unlockDevice "__ALL__" w
  = (VTestFunctions.ok true,
     set_devices
       (map (fun kv => (fst kv, set_in_use false (snd kv))) (devices w)) w).
Proof. reflexivity. Qed.

Lemma unlockDevice_ok did w :
  registry_ok (devices w) ->
  registry_ok (devices (snd (VTestFunctions.unlockDevice did w))).
Proof.
  intros Hok. destruct (String.eqb_spec did "__ALL__") as [->|Hne].
  - rewrite unlockDevice_all. cbn. now apply registry_ok_map.
  - rewrite unlockDevice_one by exact Hne.
    destruct (Py.dict_get did (devices w)) as [d|] eqn:Hget; [|exact Hok].
    cbn. apply registry_ok_set; [exact Hok|].
    exact (registry_ok_get _ _ _ Hok Hget).
Qed.

Lemma unlock_each_spec ids :
  forall w,
    ~ In "__ALL__" ids ->
    Py.dict_keys (devices (snd (unlock_each ids w))) = Py.dict_keys (devices w)
    /\ forall k,
         Py.dict_get k (devices (snd (unlock_each ids w)))
         = option_map (fun d => if Py.list_mem k ids
                                then set_in_use false d else d)
             (Py.dict_get k (devices w)).
Proof.
  induction ids as [|did ids IH]; intros w Hall.
  - cbn. split; [reflexivity|]. intros k. now destruct (Py.dict_get k (devices w)).
  - cbn [unlock_each]. rewrite bind_eq.
    assert (Hne : did <> "__ALL__") by (intros ->; apply Hall; now left).
    assert (Hrest : ~ In "__ALL__" ids) by (intros H; apply Hall; now right).
    rewrite unlockDevice_one by exact Hne.
    destruct (Py.dict_get did (devices w)) as [d|] eqn:Hget.
    + destruct (IH (set_devices (Py.dict_set did (set_in_use false d) (devices w)) w)
                  Hrest) as [Hkeys Hlook].
      split.
      * rewrite Hkeys. cbn [devices set_devices].
        now apply dict_keys_set_present with d.
      * intros k. rewrite Hlook. cbn [devices set_devices Py.list_mem existsb].
        destruct (String.eqb_spec k did) as [->|Hk].
        -- rewrite dict_get_set_eq, Hget.
           cbn [option_map orb].
           now destruct (Py.list_mem did ids).
        -- rewrite dict_get_set_ne by exact Hk. reflexivity.
    + destruct (IH w Hrest) as [Hkeys Hlook]. split; [exact Hkeys|].
      intros k. rewrite Hlook. cbn [Py.list_mem existsb].
      destruct (String.eqb_spec k did) as [->|Hk]; [|reflexivity].
      now rewrite Hget.
Qed.

(** *** Enumeration *)

Lemma dict_get_update_other {V} k (d d2 : list (string * V)) :
  ~ In k (Py.dict_keys d2) ->
  Py.dict_get k (Py.dict_update d d2) = Py.dict_get k d.
Proof.
  unfold Py.dict_update. revert d.
  induction d2 as [|[k2 v2] d2 IH]; intros d Hnotin; [reflexivity|].
  cbn [fold_left fst snd]. rewrite IH.
  - apply dict_get_set_ne. intros ->. apply Hnotin. now left.
  - intros H. apply Hnotin. now right.
Qed.

Lemma read_prop_keys E properties prop properties' :
  device.read_prop E properties prop = Returned properties' ->
  Py.dict_keys properties' = Py.dict_keys properties.
Proof.
  unfold device.read_prop.
  destruct (Py.decode Py.replace prop) as [e|s]; [discriminate|].
  destruct (List.find _ (Py.dict_keys properties)) as [key|] eqn:Hfind.
  - apply find_some in Hfind as [Hin _].
    destruct (Py.split ":" (Py.strip _ s)) as [|? [|v ?]]; try discriminate.
    intros [= <-].
    destruct (Py.dict_get key properties) as [v0|] eqn:Hget.
    + now apply dict_keys_set_present with v0.
    + apply dict_get_None_keys in Hget. contradiction.
  - now intros [= <-].
Qed.

Lemma read_props_keys E props :
  forall properties properties',
    device.read_props E properties props = Returned properties' ->
    Py.dict_keys properties' = Py.dict_keys properties.
Proof.
  induction props as [|prop props IH]; intros properties properties'; cbn.
  - now intros [= <-].
  - destruct (device.read_prop E properties prop) as [p1|e] eqn:H1; [|discriminate].
    intros H. rewrite (IH _ _ H). exact (read_prop_keys _ _ _ _ H1).
Qed.

(** Reading the properties of the devices changes neither their ids nor
    their states. *)
Lemma fetch_properties_states E devs :
  forall w,
    Forall2 (fun kv kv' =>
               fst kv' = fst kv
               /\ Py.dict_get "state" (snd kv') = Py.dict_get "state" (snd kv))
            devs (fst (device.fetch_properties E devs w)).
Proof.
  induction devs as [|[devid vals] devs IH]; intros w; cbn [device.fetch_properties].
  - constructor.
  - rewrite bind_eq. unfold tick at 1. cbv beta iota. rewrite bind_eq.
    specialize (IH (set_now (S (now w)) w)).
    destruct (device.fetch_properties E devs (set_now (S (now w)) w)) as [r w1].
    cbn [fst pure]. constructor; [|exact IH].
    cbn [fst snd]. split; [reflexivity|].
    destruct (popen_getprop E (now w) devid); [|reflexivity].
    destruct (device.read_props _ _ _) as [properties|] eqn:Hread; [|reflexivity].
    apply dict_get_update_other.
    rewrite (read_props_keys _ _ _ _ Hread). cbn.
    intros H. repeat (destruct H as [H|H]; [discriminate H|]). exact H.
Qed.

Lemma parse_devices_valid E lines :
  NoDup (Py.dict_keys (device.parse_devices E lines))
  /\ Forall (fun kv => exists state,
                 Py.dict_get "state" (snd kv) = Some state
                 /\ Py.list_mem state device.VALID_DEVICE_STATES = true)
       (device.parse_devices E lines).
Proof.
  unfold device.parse_devices.
  set (P := fun devices : list (string * list (string * string)) =>
              NoDup (Py.dict_keys devices)
              /\ Forall (fun kv => exists state,
                             Py.dict_get "state" (snd kv) = Some state
                             /\ Py.list_mem state device.VALID_DEVICE_STATES = true)
                   devices).
  assert (H : forall acc, P acc ->
            P (fold_left
                 (fun devices line =>
                    match Py.split "009" (Py.strip (unicode E) line) with
                    | [dev; state] =>
                        if Py.list_mem state device.VALID_DEVICE_STATES
                        then Py.dict_set dev [("state", state)] devices
                        else devices
                    | _ => devices
                    end) lines acc)).
  { induction lines as [|line lines IH]; intros acc Hacc; [exact Hacc|].
    cbn [fold_left]. apply IH.
    destruct (Py.split "009" (Py.strip (unicode E) line)) as [|dev [|state [|? ?]]];
      try exact Hacc.
    destruct (Py.list_mem state device.VALID_DEVICE_STATES) eqn:Hvalid;
      [|exact Hacc].
    destruct Hacc as [Hnd Hall]. split.
    - now apply NoDup_keys_set.
    - apply Forall_dict_set; [|exact Hall].
      intros k'. exists state. cbn. now split. }
  apply H. split; constructor.
Qed.

Lemma get_all_devices_valid E w enum :
  fst (device.get_all_devices E w) = Returned enum ->
  NoDup (Py.dict_keys enum)
  /\ forall k props, In (k, props) enum ->
       exists state,
         Py.dict_get "state" props = Some state
         /\ Py.list_mem state device.VALID_DEVICE_STATES = true.
Proof.
  unfold device.get_all_devices. rewrite bind_eq. unfold tick at 1.
  cbv beta iota.
  destruct (check_output_devices E (now w)) as [out| |msg].
  - destruct (Py.decode Py.ignore out) as [e|text]; [discriminate|].
    rewrite bind_eq.
    pose proof (fetch_properties_states E
                  (device.parse_devices E (Py.split "010" text))
                  (set_now (S (now w)) w)) as Hfetch.
    destruct (parse_devices_valid E (Py.split "010" text)) as [Hnd Hall].
    destruct (device.fetch_properties E _ _) as [r w1].
    cbn [fst pure] in *. intros [= <-].
    revert Hfetch Hnd Hall.
    generalize (device.parse_devices E (Py.split "010" text)).
    intros devs Hfetch Hnd Hall. split.
    + assert (Hkeys : Py.dict_keys r = Py.dict_keys devs).
      { clear - Hfetch. unfold Py.dict_keys.
        induction Hfetch as [|? ? ? ? [Hk _] _ IH]; cbn; [reflexivity|].
        now rewrite Hk, IH. }
      now rewrite Hkeys.
    + clear Hnd. induction Hfetch as [|kv kv' devs r [Hk Hst] Hrest IH];
        intros k props Hin; [destruct Hin|].
      inversion Hall as [|? ? Hhd Htl]; subst.
      destruct Hin as [->|Hin]; [|now apply (IH Htl k props)].
      cbn in Hst. now rewrite Hst.
  - intros [= <-]. split; [constructor|]. intros k props [].
  - discriminate.
Qed.

(** *** A refresh that finds nothing new *)

Lemma add_online_noop enum :
  forall w,
    Forall has_state enum ->
    (forall k props, In (k, props) enum -> is_online props = true ->
       Py.dict_mem k (devices w) = true) ->
    VTestFunctions.add_online enum w = (Returned tt, w).
Proof.
  induction enum as [|[i props] enum IH]; intros w Hstate Hknown; [reflexivity|].
  inversion Hstate as [|? ? Hhd Htl]; subst.
  cbn [VTestFunctions.add_online]. unfold has_state in Hhd. cbn in Hhd.
  pose proof (Hknown i props (or_introl eq_refl)) as Hi.
  unfold is_online in Hi.
  destruct (Py.dict_get "state" props) as [state|]; [|congruence].
  rewrite bind_eq.
  assert (Hstep : (if negb (String.eqb state "device") then pure tt
                   else VTestStation.add_device (device.new_Device i props)) w
                  = (tt, w)).
  { destruct (String.eqb state "device"); cbn [negb]; [|reflexivity].
    unfold VTestStation.add_device, modify. cbn [id device.new_Device].
    now rewrite Hi. }
  rewrite Hstep. apply IH; [exact Htl|].
  intros k p Hin. apply Hknown. now right.
Qed.

Lemma remove_absent_noop known present :
  forall w,
    (forall k, In k known -> Py.dict_mem k (devices w) = true ->
       Py.list_mem k present = true) ->
    VTestFunctions.remove_absent known present w = (tt, w).
Proof.
  induction known as [|devid known IH]; intros w Hpresent; [reflexivity|].
  cbn [VTestFunctions.remove_absent]. rewrite bind_eq.
  assert (Hstep : (if negb (Py.list_mem devid present)
                   then VTestStation.del_device devid else pure tt) w
                  = (tt, w)).
  { destruct (Py.list_mem devid present) eqn:Hmem; cbn [negb]; [reflexivity|].
    unfold VTestStation.del_device, modify.
    destruct (Py.dict_mem devid (devices w)) eqn:Hd; [|reflexivity].
    rewrite (Hpresent devid (or_introl eq_refl) Hd) in Hmem. discriminate. }
  rewrite Hstep. apply IH. intros k Hin. apply Hpresent. now right.
Qed.

Lemma online_props_found k props enum :
  In (k, props) enum -> is_online props = true -> online_props k enum <> None.
Proof.
  intros Hin Hon. unfold online_props.
  destruct (List.find _ enum) eqn:Hfind; [discriminate|].
  exfalso. apply (find_none _ _ Hfind) in Hin. cbn in Hin.
  now rewrite String.eqb_refl, Hon in Hin.
Qed.

(* ===================================================================== *)
(** ** What an operation on a device may change                            *)
(* ===================================================================== *)

Lemma dict_set_set {V} k (v1 v2 : V) d :
  Py.dict_set k v2 (Py.dict_set k v1 d) = Py.dict_set k v2 d.
Proof.
  induction d as [|[k' v'] d IH]; cbn.
  - now rewrite String.eqb_refl.
  - destruct (String.eqb k' k) eqn:Hk; cbn; rewrite Hk; [reflexivity|].
    now rewrite IH.
Qed.

Lemma same_lease_refl d : same_lease d d.
Proof. now split. Qed.

Lemma updates_pure {A} did d (Q : A -> Prop) a : Q a -> updates did d Q (pure a).
Proof. intros Hq w. split; [exact Hq|now left]. Qed.

Lemma updates_quiet {A} did d (Q : A -> Prop) (m : M A) :
  quiet m -> (forall w, Q (fst (m w))) -> updates did d Q m.
Proof. intros Hquiet Hq w. split; [apply Hq|left; apply Hquiet]. Qed.

Lemma updates_store did d d' :
  same_lease d d' -> updates did d (fun _ => True) (VTestStation.store did d').
Proof. intros Hsame w. split; [exact I|]. right. now exists d'. Qed.

Lemma updates_bind {A B} did d (Q : A -> Prop) (R : B -> Prop) (m : M A)
    (k : A -> M B) :
  updates did d Q m -> (forall a, Q a -> updates did d R (k a)) ->
  updates did d R (bind m k).
Proof.
  intros Hm Hk w. rewrite bind_eq. specialize (Hm w).
  destruct (m w) as [a w1]. cbn [fst snd] in Hm. destruct Hm as [Hq Hm].
  destruct (Hk a Hq w1) as [Hr Hk']. split; [exact Hr|].
  destruct Hm as [Hm|(d1 & Hm & H1)], Hk' as [Hk'|(d2 & Hk' & H2)].
  - left. congruence.
  - right. exists d2. split; [congruence|exact H2].
  - right. exists d1. split; [congruence|exact H1].
  - right. exists d2. split; [|exact H2].
    now rewrite Hk', Hm, dict_set_set.
Qed.

Lemma confined_quiet {A} did (m : M A) : quiet m -> confined did m.
Proof.
  intros Hquiet w. destruct (Hquiet w) as [Hdev _].
  destruct (Py.dict_get did (devices w)) as [d|] eqn:Hget; [|exact Hdev].
  exists d. split; [|apply same_lease_refl].
  now rewrite Hdev, (dict_set_same _ _ _ Hget).
Qed.

Lemma confined_bind_quiet {A B} did (m : M A) (k : A -> M B) :
  quiet m -> (forall a, confined did (k a)) -> confined did (bind m k).
Proof.
  intros Hquiet Hk w. rewrite bind_eq. destruct (Hquiet w) as [Hdev _].
  destruct (m w) as [a w1]. cbn [snd] in Hdev.
  specialize (Hk a w1). now rewrite Hdev in Hk.
Qed.

Lemma confined_get_device {B} did (k : option Device -> M B) :
  (forall w, devices (snd (k None w)) = devices w) ->
  (forall d, updates did d (fun _ => True) (k (Some d))) ->
  confined did (bind (VTestStation.get_device did) k).
Proof.
  intros Hnone Hsome w. rewrite bind_eq.
  unfold VTestStation.get_device, gets.
  destruct (Py.dict_get did (devices w)) as [d|] eqn:Hget; [|apply Hnone].
  destruct (Hsome d w) as [_ [Hdev|(d' & Hdev & Hsame)]].
  - exists d. split; [|apply same_lease_refl].
    now rewrite Hdev, (dict_set_same _ _ _ Hget).
  - now exists d'.
Qed.

Lemma confined_ok {A} did (m : M A) w :
  confined did m -> registry_ok (devices w) ->
  registry_ok (devices (snd (m w))).
Proof.
  intros Hm Hok. specialize (Hm w).
  destruct (Py.dict_get did (devices w)) as [d|] eqn:Hget.
  - destruct Hm as (d' & -> & Hid & _). apply registry_ok_set; [exact Hok|].
    rewrite Hid. exact (registry_ok_get _ _ _ Hok Hget).
  - now rewrite Hm.
Qed.

(** The methods of [Device] keep its id and its lease flag. *)

Lemma updates_uninstall_apk E did self p :
  updates did self (fun a => same_lease self (snd a))
    (device.uninstall_apk E self p).
Proof.
  apply updates_quiet; [auto with quiet|]. intros w.
  destruct p as [p|].
  - rewrite uninstall_apk_named. apply same_lease_refl.
  - destruct (last_installed_app self) as [app|] eqn:Happ.
    + rewrite (uninstall_apk_tracked _ _ app) by exact Happ. now split.
    + unfold device.uninstall_apk. rewrite Happ. apply same_lease_refl.
Qed.

Lemma updates_install_apk E did self filename :
  updates did self (fun a => same_lease self (snd a))
    (device.install_apk E self filename).
Proof.
  apply updates_quiet; [auto with quiet|]. intros w.
  rewrite install_apk_spec. cbv zeta.
  destruct (host_exists E w _); [|apply same_lease_refl].
  destruct (get_package_name E (now w) _); [|apply same_lease_refl].
  destruct (device.any_line_contains _ _ _); [now split|apply same_lease_refl].
Qed.

Lemma updates_start_collect_logcat E did self :
  updates did self (fun a => same_lease self (snd a))
    (device.start_collect_logcat E self).
Proof.
  apply updates_quiet; [auto with quiet|]. intros w.
  unfold device.start_collect_logcat.
  repeat first [rewrite bind_eq | progress cbv beta iota
               | progress unfold modify, tick, pure].
  cbn [id set_logcat].
  destruct (popen_logcat E _ _); now split.
Qed.

Lemma updates_stop_collect_logcat E did self :
  updates did self (fun a => same_lease self (snd a))
    (device.stop_collect_logcat E self).
Proof.
  apply updates_quiet; [auto with quiet|]. intros w.
  unfold device.stop_collect_logcat. rewrite bind_eq, logcat_spec.
  destruct (logcat_collect_process self); [|apply same_lease_refl].
  destruct (logout_tempfile self); [|apply same_lease_refl].
  repeat first [rewrite bind_eq | progress cbv beta iota
               | progress unfold modify, tick, pure].
  destruct (terminate_wait E _); now split.
Qed.

(** One step of a proof that what is run on the object of a device keeps
    its id and its lease flag. *)
Ltac updates_step :=
  match goal with
  | |- updates _ _ _ (bind (device.uninstall_apk _ _ _) _) =>
      eapply updates_bind; [apply updates_uninstall_apk|intros [? ?] ?]
  | |- updates _ _ _ (bind (device.install_apk _ _ _) _) =>
      eapply updates_bind; [apply updates_install_apk|intros [[? ?] ?] ?]
  | |- updates _ _ _ (bind (device.start_collect_logcat _ _) _) =>
      eapply updates_bind; [apply updates_start_collect_logcat|intros [? ?] ?]
  | |- updates _ _ _ (bind (device.stop_collect_logcat _ _) _) =>
      eapply updates_bind; [apply updates_stop_collect_logcat|intros [? ?] ?]
  | |- updates _ _ _ (bind (VTestStation.store _ _) _) =>
      eapply updates_bind;
      [apply updates_store; first [assumption | now split]|intros ? _]
  | |- updates _ _ _ (bind _ _) =>
      eapply (updates_bind _ _ (fun _ => True));
      [apply updates_quiet; [solve [auto with quiet]|intros; exact I]
      |intros ? _]
  | |- updates _ _ _ (match ?x with _ => _ end) => destruct x
  | |- updates _ _ _ (pure _) => apply updates_pure; exact I
  | |- updates _ _ _ _ => progress cbv beta iota
  end.

(** One step of a proof that an operation of the host is confined to the
    record of its device. *)
Ltac confined_step :=
  match goal with
  | |- confined _ (bind (VTestStation.get_device _) _) =>
      apply confined_get_device; [intros; reflexivity|intros ?]
  | |- confined _ (bind _ _) =>
      apply confined_bind_quiet; [solve [quiet_auto]|intros ?]
  | |- confined _ (match ?x with _ => _ end) => destruct x
  | |- confined _ (pure _) => apply confined_quiet; solve [auto with quiet]
  | |- updates _ _ _ _ => updates_step; cbn [snd] in *
  end.

Lemma confined_installApp E did server_file sign_file :
  confined did (VTestFunctions.installApp E did server_file sign_file).
Proof. unfold VTestFunctions.installApp. repeat confined_step. Qed.

Lemma confined_uninstallApp E did :
  confined did (VTestFunctions.uninstallApp E did).
Proof. unfold VTestFunctions.uninstallApp. repeat confined_step. Qed.

Lemma confined_isPackageNameInstalled E did package_name :
  confined did (VTestFunctions.isPackageNameInstalled E did package_name).
Proof. unfold VTestFunctions.isPackageNameInstalled. repeat confined_step. Qed.

Lemma confined_startLogcatCollect E did :
  confined did (VTestFunctions.startLogcatCollect E did).
Proof. unfold VTestFunctions.startLogcatCollect. repeat confined_step. Qed.

Lemma confined_stopLogcatCollect E did :
  confined did (VTestFunctions.stopLogcatCollect E did).
Proof. unfold VTestFunctions.stopLogcatCollect. repeat confined_step. Qed.

Lemma confined_runLastInstalledApk E did execution_time custom_cmd :
  confined did
    (VTestFunctions.runLastInstalledApk E did execution_time custom_cmd).
Proof. unfold VTestFunctions.runLastInstalledApk. repeat confined_step. Qed.

Lemma confined_killApp E did : confined did (VTestFunctions.killApp E did).
Proof. unfold VTestFunctions.killApp. repeat confined_step. Qed.

Lemma getAdbDevices_lists_registry E w enum :
  fst (device.get_all_devices E w) = Returned enum ->
  fst (VTestFunctions.getAdbDevices E w)
  = Returned (VTestFunctions.ok
                (fst (VTestStation.devices_as_dict
                        (snd (VTestFunctions.getAdbDevices E w))))).
Proof.
  intros Henum.
  destruct (VTestFunctions.getAdbDevices E w) as [r0 w0] eqn:Hrun.
  cbn [fst snd]. unfold VTestFunctions.getAdbDevices in Hrun.
  rewrite bind_eq in Hrun.
  destruct (get_all_devices_spec E w) as (r & n & Heq & Hstate).
  rewrite Heq in Henum, Hrun. cbn in Henum. subst r. rewrite bind_eq in Hrun.
  destruct (add_online_spec enum (Hstate _ eq_refl) (set_now n w))
    as (reg1 & Heq1 & _).
  rewrite Heq1, bind_eq in Hrun. unfold gets at 1 in Hrun.
  rewrite bind_eq in Hrun.
  destruct (VTestFunctions.remove_absent _ _ _) as [[] w2].
  rewrite bind_eq in Hrun. unfold VTestStation.devices_as_dict, gets, pure in Hrun.
  injection Hrun as <- <-. reflexivity.
Qed.

Lemma Ex_three_ok : registry_ok (devices Ex.three).
Proof.
  split; cbn.
  - repeat (constructor; [rewrite list_elem_of_In; cbn; intuition discriminate|]).
    constructor.
  - repeat constructor.
Qed.

(* ===================================================================== *)
(** ** Further properties of the registry and of leasing                  *)
(* ===================================================================== *)

(** X1.  Invariant of the registry.  From a registry that holds one
    record for each id, each stored under the id it carries, every
    operation of [VTestFunctions] leads to such a registry: the refresh,
    leasing, releasing and the operations of the pipeline. *)
Theorem registry_stays_well_formed E w :
  registry_ok (devices w) ->
  registry_ok (devices (snd (VTestFunctions.getAdbDevices E w)))
  /\ (forall num_devices wish_devices,
        registry_ok
          (devices (snd (VTestFunctions.getFreeDevices E num_devices
                           wish_devices w))))
  /\ (forall did,
        registry_ok (devices (snd (VTestFunctions.unlockDevice did w))))
  /\ (forall did server_file sign_file,
        registry_ok
          (devices (snd (VTestFunctions.installApp E did server_file
                           sign_file w))))
  /\ (forall did,
        registry_ok (devices (snd (VTestFunctions.uninstallApp E did w))))
  /\ (forall did package_name,
        registry_ok
          (devices (snd (VTestFunctions.isPackageNameInstalled E did
                           package_name w))))
  /\ (forall did,
        registry_ok (devices (snd (VTestFunctions.startLogcatCollect E did w))))
  /\ (forall did,
        registry_ok (devices (snd (VTestFunctions.stopLogcatCollect E did w))))
  /\ (forall did execution_time custom_cmd,
        registry_ok
          (devices (snd (VTestFunctions.runLastInstalledApk E did
                           execution_time custom_cmd w))))
  /\ (forall did,
        registry_ok (devices (snd (VTestFunctions.killApp E did w)))).
Proof.
  intros Hok. split; [now apply getAdbDevices_ok|].
  split.
  { intros num wish.
    destruct (getFreeDevices_effect E num wish w) as (r & w' & Heq & _ & Hdev).
    rewrite Heq. cbn [snd]. rewrite Hdev. apply scan_ok. now apply lazy_discovery_ok. }
  split; [intros did; now apply unlockDevice_ok|].
  split; [intros did ? ?; apply (confined_ok did);
          [apply confined_installApp|exact Hok]|].
  split; [intros did; apply (confined_ok did);
          [apply confined_uninstallApp|exact Hok]|].
  split; [intros did ?; apply (confined_ok did);
          [apply confined_isPackageNameInstalled|exact Hok]|].
  split; [intros did; apply (confined_ok did);
          [apply confined_startLogcatCollect|exact Hok]|].
  split; [intros did; apply (confined_ok did);
          [apply confined_stopLogcatCollect|exact Hok]|].
  split; [intros did ? ?; apply (confined_ok did);
          [apply confined_runLastInstalledApk|exact Hok]|].
  intros did; apply (confined_ok did); [apply confined_killApp|exact Hok].
Qed.

Lemma registry_stays_well_formed_witness :
  registry_ok (devices Ex.three)
  /\ registry_ok
       (devices (snd (VTestFunctions.getAdbDevices Ex.one_online Ex.three)))
  /\ registry_ok
       (devices (snd (VTestFunctions.getFreeDevices Ex.one_online 2 [] Ex.three))).
Proof.
  split; [exact Ex_three_ok|].
  destruct (registry_stays_well_formed Ex.one_online Ex.three Ex_three_ok)
    as (Hrefresh & Hlease & _).
  split; [exact Hrefresh|exact (Hlease 2%Z [])].
Defined.

(** X2.  Effect of a lease on the registry.  On a well-formed registry
    [getFreeDevices] marks exactly the records whose ids it returns: the
    ids and their order stay, the record of a returned id becomes the
    same record with [in_use] set, every other record is unchanged, and
    the number of leased records grows by the number of ids returned. *)
Theorem getFreeDevices_marks_what_it_returns E num_devices wish_devices w :
  registry_ok (devices w) ->
  exists r w',
    VTestFunctions.getFreeDevices E num_devices wish_devices w = (Returned r, w')
    /\ Py.dict_keys (devices w') = Py.dict_keys (registry_at_scan E w)
    /\ (forall k d, Py.dict_get k (registry_at_scan E w) = Some d ->
          Py.dict_get k (devices w')
          = Some (if Py.list_mem k (result r) then set_in_use true d else d))
    /\ leases (devices w')
       = leases (registry_at_scan E w) + List.length (result r).
Proof.
  intros Hok. apply (lazy_discovery_ok E) in Hok.
  destruct (getFreeDevices_effect E num_devices wish_devices w)
    as (r & w' & Heq & Hres & Hdev).
  exists r, w'. split; [exact Heq|]. rewrite Hres, Hdev.
  destruct (scan_marks num_devices wish_devices (registry_at_scan E w) [] Hok)
    as [Hkeys Hmarks]; [intros x []|].
  split; [exact Hkeys|]. split; [exact Hmarks|].
  pose proof (scan_leases num_devices wish_devices (registry_at_scan E w) [])
    as Hcount.
  cbn [List.length] in Hcount. lia.
Qed.

Lemma getFreeDevices_marks_what_it_returns_witness :
  registry_ok (devices Ex.three)
  /\ exists r w',
       VTestFunctions.getFreeDevices Ex.none_attached 5 ["C"; "B"] Ex.three
       = (Returned r, w')
       /\ leases (devices w')
          = leases (registry_at_scan Ex.none_attached Ex.three)
            + List.length (result r).
Proof.
  split; [exact Ex_three_ok|].
  destruct (getFreeDevices_marks_what_it_returns Ex.none_attached 5 ["C"; "B"]
              Ex.three Ex_three_ok) as (r & w' & Heq & _ & _ & Hcount).
  now exists r, w'.
Defined.

(** X3.  No double lease.  Two consecutive calls of [getFreeDevices] on
    a well-formed registry, whatever they ask for, return no device in
    common: what the first call returns is marked and the second call
    passes it. *)
Theorem consecutive_leases_are_disjoint E n1 wish1 n2 wish2 w :
  registry_ok (devices w) ->
  exists r1 r2,
    fst (VTestFunctions.getFreeDevices E n1 wish1 w) = Returned r1
    /\ fst (VTestFunctions.getFreeDevices E n2 wish2
              (snd (VTestFunctions.getFreeDevices E n1 wish1 w)))
       = Returned r2
    /\ forall x, In x (result r1) -> ~ In x (result r2).
Proof.
  intros Hok. apply (lazy_discovery_ok E) in Hok.
  destruct (getFreeDevices_effect E n1 wish1 w) as (r1 & w1 & Heq1 & Hres1 & Hdev1).
  destruct (getFreeDevices_effect E n2 wish2 w1) as (r2 & w2 & Heq2 & Hres2 & _).
  exists r1, r2. rewrite Heq1. cbn [fst snd]. rewrite Heq2.
  split; [reflexivity|]. split; [reflexivity|].
  intros x Hx1 Hx2.
  destruct (scan_marks n1 wish1 (registry_at_scan E w) [] Hok) as [_ Hmarks];
    [intros ? []|].
  pose proof (scan_ok n1 wish1 _ [] Hok) as Hok1. rewrite <- Hdev1 in Hok1.
  rewrite Hres1 in Hx1. pose proof Hx1 as Hmem. apply list_mem_In in Hmem.
  rewrite scan_leasable in Hx1.
  apply leasable_free in Hx1 as (d & Hd & Hid & _ & _).
  apply (registry_ok_In _ _ Hok) in Hd. rewrite Hid in Hd.
  apply Hmarks in Hd. rewrite Hmem, <- Hdev1 in Hd.
  assert (Hne : devices w1 <> []).
  { intros Hnil. rewrite Hnil in Hd. discriminate. }
  rewrite Hres2, scan_leasable, (registry_at_scan_nonempty E w1 Hne) in Hx2.
  apply leasable_free in Hx2 as (d2 & Hd2 & Hid2 & Hfree2 & _).
  apply (registry_ok_In _ _ Hok1) in Hd2. rewrite Hid2, Hd in Hd2.
  injection Hd2 as <-. discriminate Hfree2.
Qed.

Lemma consecutive_leases_are_disjoint_witness :
  registry_ok (devices Ex.three)
  /\ exists r1 r2,
       fst (VTestFunctions.getFreeDevices Ex.none_attached 1 [] Ex.three)
       = Returned r1
       /\ fst (VTestFunctions.getFreeDevices Ex.none_attached 1 []
                 (snd (VTestFunctions.getFreeDevices Ex.none_attached 1 []
                         Ex.three)))
          = Returned r2
       /\ forall x, In x (result r1) -> ~ In x (result r2).
Proof.
  split; [exact Ex_three_ok|].
  exact (consecutive_leases_are_disjoint Ex.none_attached 1 [] 1 [] Ex.three
           Ex_three_ok).
Defined.

(** X4.  Lease and release.  When no device is named [__ALL__], leasing
    devices from a well-formed registry and then calling [unlockDevice]
    for each id returned leaves the registry exactly as the scan found
    it. *)
Theorem lease_then_unlock_restores_registry E num_devices wish_devices w :
  registry_ok (devices w) ->
  Py.dict_get "__ALL__" (registry_at_scan E w) = None ->
  exists r w',
    VTestFunctions.getFreeDevices E num_devices wish_devices w = (Returned r, w')
    /\ devices (snd (unlock_each (result r) w')) = registry_at_scan E w.
Proof.
  intros Hok Hall. apply (lazy_discovery_ok E) in Hok.
  destruct (getFreeDevices_effect E num_devices wish_devices w)
    as (r & w' & Heq & Hres & Hdev).
  exists r, w'. split; [exact Heq|].
  destruct (scan_marks num_devices wish_devices (registry_at_scan E w) [] Hok)
    as [Hkeys Hmarks]; [intros ? []|].
  rewrite <- Hdev in Hkeys, Hmarks. rewrite <- Hres in Hmarks.
  assert (Hfree : forall k d, Py.list_mem k (result r) = true ->
            Py.dict_get k (registry_at_scan E w) = Some d -> in_use d = false).
  { intros k d Hmem Hget. apply list_mem_In in Hmem.
    rewrite Hres, scan_leasable in Hmem.
    apply leasable_free in Hmem as (d0 & Hd0 & Hid & Hfree & _).
    apply (registry_ok_In _ _ Hok) in Hd0. rewrite Hid, Hget in Hd0.
    now injection Hd0 as ->. }
  assert (Hnot : ~ In "__ALL__" (result r)).
  { intros Hin. rewrite Hres, scan_leasable in Hin.
    apply leasable_free in Hin as (d0 & Hd0 & Hid & _ & _).
    apply (registry_ok_In _ _ Hok) in Hd0. rewrite Hid, Hall in Hd0.
    discriminate. }
  destruct (unlock_each_spec (result r) w' Hnot) as [Hkeys' Hlook].
  apply dict_ext; [apply Hok|congruence|].
  intros k. rewrite Hlook.
  destruct (Py.dict_get k (registry_at_scan E w)) as [d|] eqn:Hget.
  - rewrite (Hmarks _ _ Hget). cbn [option_map].
    destruct (Py.list_mem k (result r)) eqn:Hmem; [|reflexivity].
    now rewrite (set_in_use_undo d (Hfree _ _ Hmem Hget)).
  - assert (Hnone : Py.dict_get k (devices w') = None).
    { apply dict_get_None_keys. rewrite Hkeys.
      now apply dict_get_None_keys. }
    now rewrite Hnone.
Qed.

Lemma lease_then_unlock_restores_registry_witness :
  registry_ok (devices Ex.three)
  /\ Py.dict_get "__ALL__" (registry_at_scan Ex.none_attached Ex.three) = None
  /\ exists r w',
       VTestFunctions.getFreeDevices Ex.none_attached 2 [] Ex.three
       = (Returned r, w')
       /\ devices (snd (unlock_each (result r) w'))
          = registry_at_scan Ex.none_attached Ex.three.
Proof.
  split; [exact Ex_three_ok|]. split; [reflexivity|].
  exact (lease_then_unlock_restores_registry Ex.none_attached 2 [] Ex.three
           Ex_three_ok eq_refl).
Defined.

(** X5.  A refresh is idempotent on a static device population.  When
    [adb devices] answers a second refresh as it answered the first, the
    second refresh leaves the registry exactly as the first left it, and
    returns the same list. *)
Theorem getAdbDevices_idempotent E w enum :
  fst (device.get_all_devices E w) = Returned enum ->
  fst (device.get_all_devices E (snd (VTestFunctions.getAdbDevices E w)))
  = Returned enum ->
  devices (snd (VTestFunctions.getAdbDevices E
                  (snd (VTestFunctions.getAdbDevices E w))))
  = devices (snd (VTestFunctions.getAdbDevices E w))
  /\ fst (VTestFunctions.getAdbDevices E (snd (VTestFunctions.getAdbDevices E w)))
     = fst (VTestFunctions.getAdbDevices E w).
Proof.
  intros Henum Hagain.
  rewrite (getAdbDevices_lists_registry E w enum Henum).
  rewrite (getAdbDevices_lists_registry E _ enum Hagain).
  destruct (getAdbDevices_spec E w enum Henum) as (reg1 & res & n & Heq & Hlook).
  rewrite Heq in Hagain |- *. cbn [snd] in Hagain |- *.
  set (w1 := set_devices reg1 (set_now n w)) in *.
  assert (Hsame : devices (snd (VTestFunctions.getAdbDevices E w1)) = devices w1).
  { unfold VTestFunctions.getAdbDevices. rewrite bind_eq.
    destruct (get_all_devices_spec E w1) as (r & n' & Heq' & Hstate).
    rewrite Heq' in Hagain |- *. cbn in Hagain. subst r. rewrite bind_eq.
    rewrite add_online_noop; [|exact (Hstate _ eq_refl)|].
    - rewrite bind_eq. unfold gets at 1. rewrite bind_eq.
      rewrite remove_absent_noop; [reflexivity|].
      intros k _. cbn [devices set_now set_devices]. unfold Py.dict_mem.
      rewrite Hlook. now destruct (Py.list_mem k (Py.dict_keys enum)).
    - intros k props Hin Hon. cbn [devices set_now set_devices].
      unfold Py.dict_mem. rewrite Hlook.
      assert (Hk : Py.list_mem k (Py.dict_keys enum) = true).
      { apply list_mem_In. unfold Py.dict_keys. apply in_map_iff.
        now exists (k, props). }
      rewrite Hk. destruct (Py.dict_get k (devices w)); [reflexivity|].
      pose proof (online_props_found k props enum Hin Hon).
      now destruct (online_props k enum). }
  split; [exact Hsame|].
  unfold VTestStation.devices_as_dict, gets. cbn [fst]. now rewrite Hsame.
Qed.

Lemma getAdbDevices_idempotent_witness :
  fst (device.get_all_devices Ex.one_online Ex.three)
  = Returned [("N", [("state", "device")])]
  /\ devices (snd (VTestFunctions.getAdbDevices Ex.one_online
                     (snd (VTestFunctions.getAdbDevices Ex.one_online Ex.three))))
     = devices (snd (VTestFunctions.getAdbDevices Ex.one_online Ex.three)).
Proof.
  split; [reflexivity|].
  exact (proj1 (getAdbDevices_idempotent Ex.one_online Ex.three
                  [("N", [("state", "device")])] eq_refl eq_refl)).
Defined.

(** X6.  A refresh when the enumeration fails.  When [adb devices] does
    not answer within its timeout, the enumeration counts as empty and
    the refresh removes every record, leased or not, and reports
    success with an empty list; when it fails otherwise, the refresh
    reports the error and leaves the registry as it is. *)
Theorem getAdbDevices_when_enumeration_fails E w :
  (check_output_devices E (now w) = CheckTimeoutExpired ->
   VTestFunctions.getAdbDevices E w
   = (Returned (VTestFunctions.ok []),
      set_devices [] (set_now (S (now w)) w)))
  /\ (forall msg,
        check_output_devices E (now w) = CheckFailed msg ->
        VTestFunctions.getAdbDevices E w
        = (Returned (VTestFunctions.failed []
                       ("Get all devices failed: " +:+ msg)),
           set_now (S (now w)) w)).
Proof.
  split.
  - intros Hout. unfold VTestFunctions.getAdbDevices, device.get_all_devices.
    rewrite !bind_eq. unfold tick at 1. cbv beta iota. rewrite Hout.
    unfold pure at 1. cbv beta iota. rewrite bind_eq.
    cbn [VTestFunctions.add_online]. unfold pure at 1. cbv beta iota.
    rewrite bind_eq. unfold gets at 1. rewrite bind_eq.
    destruct (remove_absent_spec
                (Py.dict_keys (devices (set_now (S (now w)) w))) []
                (set_now (S (now w)) w)) as (reg' & Heq & Hlook).
    cbn [Py.dict_keys map] in Heq |- *. rewrite Heq, bind_eq.
    assert (Hnil : reg' = []).
    { apply dict_all_None. intros k. rewrite Hlook.
      cbn [Py.list_mem existsb negb devices set_now]. rewrite andb_true_r.
      rewrite list_mem_dict_keys. unfold Py.dict_mem.
      now destruct (Py.dict_get k (devices w)). }
    subst reg'. reflexivity.
  - intros msg Hout.
    unfold VTestFunctions.getAdbDevices, device.get_all_devices.
    rewrite !bind_eq. unfold tick at 1. cbv beta iota. now rewrite Hout.
Qed.

Lemma getAdbDevices_when_enumeration_fails_witness :
  check_output_devices Ex.working (now Ex.three) = CheckTimeoutExpired
  /\ VTestFunctions.getAdbDevices Ex.working Ex.three
     = (Returned (VTestFunctions.ok []),
        set_devices [] (set_now (S (now Ex.three)) Ex.three)).
Proof.
  split; [reflexivity|].
  exact (proj1 (getAdbDevices_when_enumeration_fails Ex.working Ex.three)
           eq_refl).
Defined.

(** X7.  What an enumeration lists.  [get_all_devices] lists each id
    once, and only with the state [device] or [unauthorized]: a line of
    [adb devices] with another state, such as [offline], lists nothing,
    and reading the properties of a device does not change its state. *)
Theorem get_all_devices_lists_valid_states E w enum :
  fst (device.get_all_devices E w) = Returned enum ->
  NoDup (Py.dict_keys enum)
  /\ forall k props, In (k, props) enum ->
       Py.dict_get "state" props = Some "device"
       \/ Py.dict_get "state" props = Some "unauthorized".
Proof.
  intros Henum. destruct (get_all_devices_valid E w enum Henum) as [Hnd Hall].
  split; [exact Hnd|]. intros k props Hin.
  destruct (Hall k props Hin) as (state & -> & Hvalid).
  apply list_mem_In in Hvalid. cbn in Hvalid.
  destruct Hvalid as [<-|[<-|[]]]; [now left|now right].
Qed.

Lemma get_all_devices_lists_valid_states_witness :
  fst (device.get_all_devices Ex.unauthorized_only (Ex.world []))
  = Returned [("X", [("state", "unauthorized")])]
  /\ (Py.dict_get "state" [("state", "unauthorized")] = Some "device"
      \/ Py.dict_get "state" [("state", "unauthorized")] = Some "unauthorized").
Proof.
  split; [reflexivity|].
  exact (proj2 (get_all_devices_lists_valid_states Ex.unauthorized_only
                  (Ex.world []) [("X", [("state", "unauthorized")])] eq_refl)
           "X" [("state", "unauthorized")] (or_introl eq_refl)).
Defined.

(** X8.  Isolation of the devices.  An operation of the pipeline on the
    device [did] changes at most the record stored under [did], and
    neither the id nor the lease flag of that record: the records of the
    other devices, the ids registered and their order stay; on an id
    that is not registered it leaves the registry as it is. *)
Theorem host_operations_are_confined E did :
  (forall server_file sign_file,
     confined did (VTestFunctions.installApp E did server_file sign_file))
  /\ confined did (VTestFunctions.uninstallApp E did)
  /\ (forall package_name,
        confined did (VTestFunctions.isPackageNameInstalled E did package_name))
  /\ confined did (VTestFunctions.startLogcatCollect E did)
  /\ confined did (VTestFunctions.stopLogcatCollect E did)
  /\ (forall execution_time custom_cmd,
        confined did
          (VTestFunctions.runLastInstalledApk E did execution_time custom_cmd))
  /\ confined did (VTestFunctions.killApp E did).
Proof.
  split; [intros; apply confined_installApp|].
  split; [apply confined_uninstallApp|].
  split; [intros; apply confined_isPackageNameInstalled|].
  split; [apply confined_startLogcatCollect|].
  split; [apply confined_stopLogcatCollect|].
  split; [intros; apply confined_runLastInstalledApk|].
  apply confined_killApp.
Qed.

(** X9.  Operations on a device that is not registered.  Each operation
    of the pipeline answers an id without a record with its own error
    message, and runs nothing on the host: the registry, the files and
    the count of the processes started are as before.  [installApp]
    checks the file before the device and names [None], not the id, in
    its message. *)
Theorem operations_on_unregistered_device E did w :
  Py.dict_get did (devices w) = None ->
  VTestFunctions.uninstallApp E did w
  = (VTestFunctions.failed false
       ("Uninstall app failed, device not available: " +:+ did), w)
  /\ (forall package_name,
        VTestFunctions.isPackageNameInstalled E did package_name w
        = (VTestFunctions.failed false
             ("isPackageNameInstalled failed, device not available: " +:+ did),
           w))
  /\ VTestFunctions.startLogcatCollect E did w
     = (VTestFunctions.failed None
          ("Logcat start failed, device not available: " +:+ did), w)
  /\ VTestFunctions.stopLogcatCollect E did w
     = (VTestFunctions.failed None
          ("Logcat stop failed, device not available: " +:+ did), w)
  /\ (forall execution_time custom_cmd,
        VTestFunctions.runLastInstalledApk E did execution_time custom_cmd w
        = (Returned
             (VTestFunctions.failed false
                ("runLastInstalledApk failed, device not available: " +:+ did)),
           w))
  /\ VTestFunctions.killApp E did w
     = (VTestFunctions.failed false
          ("killApp failed, device not available: " +:+ did), w)
  /\ (did <> "__ALL__" ->
      VTestFunctions.unlockDevice did w
      = (VTestFunctions.failed false ("Device not found: " +:+ did), w))
  /\ (forall server_file sign_file,
        In (error (fst (VTestFunctions.installApp E did server_file sign_file w)))
           ["Appfile not found!"; "only .apk files can be installed!";
            "Could not sign apk"; "Device not found: None"]
        /\ devices (snd (VTestFunctions.installApp E did server_file sign_file w))
           = devices w).
Proof.
  intros Hget.
  unfold VTestFunctions.uninstallApp, VTestFunctions.isPackageNameInstalled,
    VTestFunctions.startLogcatCollect, VTestFunctions.stopLogcatCollect,
    VTestFunctions.runLastInstalledApk, VTestFunctions.killApp.
  unfold VTestStation.get_device, gets.
  repeat (split; [intros; rewrite bind_eq, Hget; reflexivity|]).
  split.
  { intros Hne. rewrite unlockDevice_one by exact Hne. now rewrite Hget. }
  intros server_file sign_file. split.
  - rewrite installApp_spec. cbv zeta.
    destruct (negb (host_exists E w _)); [now left|].
    destruct (negb (_ =? ".apk")); [right; now left|].
    pose proof (file_to_install_keeps E
                  (pathlib.joinpath (REL_DIR E) server_file) sign_file w)
      as [Hw1 _].
    destruct (file_to_install E _ sign_file w) as [[file|] w1];
      cbn [snd] in Hw1; [|right; right; now left].
    rewrite Hw1, Hget. right; right; right; now left.
  - pose proof (confined_installApp E did server_file sign_file w) as Hc.
    now rewrite Hget in Hc.
Qed.

Lemma operations_on_unregistered_device_witness :
  Py.dict_get "Z" (devices Ex.three) = None
  /\ VTestFunctions.uninstallApp Ex.working "Z" Ex.three
     = (VTestFunctions.failed false
          "Uninstall app failed, device not available: Z", Ex.three).
Proof.
  split; [reflexivity|].
  exact (proj1 (operations_on_unregistered_device Ex.working "Z" Ex.three
                  eq_refl)).
Defined.

(* ===================================================================== *)
(** ** The capture of the device log                                       *)
(* ===================================================================== *)

(** Running a computation of the host symbolically. *)
Ltac run :=
  repeat first [ rewrite bind_eq
               | progress cbv beta iota
               | progress unfold modify, tick, pure, gets ].

Lemma startLogcatCollect_spec E did dev w :
  Py.dict_get did (devices w) = Some dev ->
  VTestFunctions.startLogcatCollect E did w
  = let tmp := NamedTemporaryFile E (S (now w)) in
    let started :=
      set_now (S (S (S (now w)))) (set_files (<[tmp := []]> (files w)) w) in
    match popen_logcat E (S (S (now w))) (id dev) with
    | Returned pid =>
        (VTestFunctions.ok (Some (inr pid)),
         set_devices
           (Py.dict_set did (set_logcat (Some pid) (Some tmp) dev) (devices w))
           started)
    | Raised e =>
        (VTestFunctions.failed None ("Logcat start failed: " +:+ str_Exn e),
         set_devices
           (Py.dict_set did (set_logcat (logcat_collect_process dev) None dev)
              (devices w))
           started)
    end.
Proof.
  intros Hget.
  unfold VTestFunctions.startLogcatCollect, VTestStation.get_device,
    VTestStation.store, device.clear_logcat, device.start_collect_logcat,
    device._exec_adb.
  run. rewrite Hget. run. cbn [now set_now set_files id set_logcat].
  destruct (popen_logcat E (S (S (now w))) (id dev)); reflexivity.
Qed.

Lemma stopLogcatCollect_spec E did dev w :
  Py.dict_get did (devices w) = Some dev ->
  VTestFunctions.stopLogcatCollect E did w
  = let no_file := VTestFunctions.failed None "Logcat stop failed, no output file!" in
    let unchanged n :=
      set_devices (Py.dict_set did dev (devices w)) (set_now n w) in
    match logcat_collect_process dev, logout_tempfile dev with
    | Some _, Some tmp =>
        match terminate_wait E (S (now w)) with
        | TerminateFailed _ => (no_file, unchanged (S (S (now w))))
        | Terminated | WaitTimeoutExpired =>
            (VTestFunctions.ok (Some (inl tmp)),
             set_devices
               (Py.dict_set did (set_logcat None None dev) (devices w))
               (set_now (S (S (now w)))
                  (set_files (<[tmp := logcat_captured E (S (now w))]> (files w))
                     w)))
        end
    | _, _ => (no_file, unchanged (S (now w)))
    end.
Proof.
  intros Hget.
  unfold VTestFunctions.stopLogcatCollect, VTestStation.get_device,
    VTestStation.store, device.stop_collect_logcat, device._logcat,
    device._exec_adb.
  run. rewrite Hget. run.
  destruct (logcat_collect_process dev); [|reflexivity].
  destruct (logout_tempfile dev); [|reflexivity].
  run. cbn [now set_now].
  destruct (terminate_wait E (S (now w))); reflexivity.
Qed.

(** X10.  A capture session from start to stop.  On a registered device
    whose capture process starts, [startLogcatCollect] answers with the
    pid of the process; the [stopLogcatCollect] that follows answers
    with the temporary file the start created, which then holds what
    was captured; a second stop finds no session and answers with the
    error [Logcat stop failed, no output file!]. *)
Theorem logcat_session_start_stop_stop E did dev pid w :
  Py.dict_get did (devices w) = Some dev ->
  popen_logcat E (now w + 2) (id dev) = Returned pid ->
  (forall msg, terminate_wait E (now w + 4) <> TerminateFailed msg) ->
  exists w1 w2 w3,
    VTestFunctions.startLogcatCollect E did w
    = (VTestFunctions.ok (Some (inr pid)), w1)
    /\ VTestFunctions.stopLogcatCollect E did w1
       = (VTestFunctions.ok (Some (inl (NamedTemporaryFile E (now w + 1)))), w2)
    /\ files w2 !! NamedTemporaryFile E (now w + 1)
       = Some (logcat_captured E (now w + 4))
    /\ VTestFunctions.stopLogcatCollect E did w2
       = (VTestFunctions.failed None "Logcat stop failed, no output file!", w3).
Proof.
  replace (now w + 2) with (S (S (now w))) by lia.
  replace (now w + 1) with (S (now w)) by lia.
  replace (now w + 4) with (S (S (S (S (now w))))) by lia.
  intros Hget Hstart Hstop.
  rewrite (startLogcatCollect_spec E did dev w Hget). cbv zeta. rewrite Hstart.
  eexists. eexists. eexists. split; [reflexivity|].
  erewrite stopLogcatCollect_spec
    by (cbn [devices set_devices]; apply dict_get_set_eq).
  cbv zeta. cbn [logcat_collect_process logout_tempfile set_logcat now
                 set_devices set_now set_files].
  destruct (terminate_wait E (S (S (S (S (now w)))))) as [| |msg] eqn:Hterm;
    [| |now destruct (Hstop msg)].
  all: split; [reflexivity|].
  all: split; [cbn [files set_devices set_now set_files]; apply lookup_insert_eq|].
  all: erewrite stopLogcatCollect_spec
         by (cbn [devices set_devices]; apply dict_get_set_eq).
  all: reflexivity.
Qed.

Lemma logcat_session_start_stop_stop_witness :
  Py.dict_get "A" (devices Ex.ready) = Some (Ex.dev "A" true)
  /\ exists w1 w2 w3,
       VTestFunctions.startLogcatCollect Ex.working "A" Ex.ready
       = (VTestFunctions.ok (Some (inr 4711%Z)), w1)
       /\ VTestFunctions.stopLogcatCollect Ex.working "A" w1
          = (VTestFunctions.ok (Some (inl "/tmp/tmp1")), w2)
       /\ files w2 !! "/tmp/tmp1" = Some (Py.encode "--------- beginning of main")
       /\ VTestFunctions.stopLogcatCollect Ex.working "A" w2
          = (VTestFunctions.failed None "Logcat stop failed, no output file!",
             w3).
Proof.
  split; [reflexivity|].
  exact (logcat_session_start_stop_stop Ex.working "A" (Ex.dev "A" true)
           4711%Z Ex.ready eq_refl eq_refl
           (fun msg H => eq_ind Terminated
                           (fun t => match t with
                                     | TerminateFailed _ => False
                                     | _ => True
                                     end) I _ H)).
Defined.

(** X11.  A capture that does not start.  When the capture process
    cannot be started, [startLogcatCollect] answers with the error and
    the device keeps no temporary file, so the [stopLogcatCollect] that
    follows answers [Logcat stop failed, no output file!], also when a
    capture started earlier is still running. *)
Theorem logcat_start_failure_leaves_no_session E did dev e w :
  Py.dict_get did (devices w) = Some dev ->
  popen_logcat E (now w + 2) (id dev) = Raised e ->
  error (fst (VTestFunctions.startLogcatCollect E did w))
  = "Logcat start failed: " +:+ str_Exn e
  /\ option_map logout_tempfile
       (Py.dict_get did
          (devices (snd (VTestFunctions.startLogcatCollect E did w))))
     = Some None
  /\ error (fst (VTestFunctions.stopLogcatCollect E did
                   (snd (VTestFunctions.startLogcatCollect E did w))))
     = "Logcat stop failed, no output file!".
Proof.
  replace (now w + 2) with (S (S (now w))) by lia.
  intros Hget Hstart.
  rewrite (startLogcatCollect_spec E did dev w Hget). cbv zeta. rewrite Hstart.
  cbn [fst snd error VTestFunctions.failed devices set_devices].
  split; [reflexivity|]. rewrite dict_get_set_eq. split; [reflexivity|].
  erewrite stopLogcatCollect_spec
    by (cbn [devices set_devices]; apply dict_get_set_eq).
  cbv zeta. cbn [logcat_collect_process logout_tempfile set_logcat].
  now destruct (logcat_collect_process dev).
Qed.

Lemma logcat_start_failure_leaves_no_session_witness :
  Py.dict_get "A" (devices Ex.ready) = Some (Ex.dev "A" true)
  /\ error (fst (VTestFunctions.stopLogcatCollect
                   (Ex.pipeline_env Ex.silent (Raised (Exception "adb not found"))
                      Terminated Ex.delivered) "A"
                   (snd (VTestFunctions.startLogcatCollect
                           (Ex.pipeline_env Ex.silent
                              (Raised (Exception "adb not found"))
                              Terminated Ex.delivered) "A" Ex.ready))))
     = "Logcat stop failed, no output file!".
Proof.
  split; [reflexivity|].
  exact (proj2 (proj2 (logcat_start_failure_leaves_no_session
                         (Ex.pipeline_env Ex.silent
                            (Raised (Exception "adb not found"))
                            Terminated Ex.delivered)
                         "A" (Ex.dev "A" true) (Exception "adb not found")
                         Ex.ready eq_refl eq_refl))).
Defined.

(* ===================================================================== *)
(** ** The package a device tracks                                         *)
(* ===================================================================== *)

Lemma world_same_devices did dev w :
  Py.dict_get did (devices w) = Some dev ->
  set_devices (Py.dict_set did dev (devices w)) w = w.
Proof. intros Hget. now rewrite (dict_set_same _ _ _ Hget), set_devices_same. Qed.

Lemma uninstallApp_spec E did dev w :
  Py.dict_get did (devices w) = Some dev ->
  VTestFunctions.uninstallApp E did w
  = match last_installed_app dev with
    | Some _ =>
        (VTestFunctions.ok true,
         set_devices
           (Py.dict_set did (set_last_installed_app None dev) (devices w))
           (set_now (S (S (now w))) w))
    | None => (VTestFunctions.failed false "Uninstall Failed!", w)
    end.
Proof.
  intros Hget.
  unfold VTestFunctions.uninstallApp, VTestStation.get_device,
    VTestStation.store.
  run. rewrite Hget. run.
  destruct (last_installed_app dev) as [app|] eqn:Happ.
  - rewrite (uninstall_apk_tracked E dev app w Happ). reflexivity.
  - unfold device.uninstall_apk. rewrite Happ. run.
    now rewrite (world_same_devices did dev w Hget).
Qed.

Lemma runLastInstalledApk_nothing_tracked E did dev execution_time custom_cmd w :
  Py.dict_get did (devices w) = Some dev ->
  last_installed_app dev = None ->
  VTestFunctions.runLastInstalledApk E did execution_time custom_cmd w
  = (Returned (VTestFunctions.failed false "No App specified"), w).
Proof.
  intros Hget Happ.
  unfold VTestFunctions.runLastInstalledApk, VTestStation.get_device,
    device.run_apk.
  run. rewrite Hget, Happ. reflexivity.
Qed.

Lemma killApp_nothing_tracked E did dev w :
  Py.dict_get did (devices w) = Some dev ->
  last_installed_app dev = None ->
  VTestFunctions.killApp E did w
  = (VTestFunctions.failed false "Killing app failed", w).
Proof.
  intros Hget Happ.
  unfold VTestFunctions.killApp, VTestStation.get_device, device.kill_apk.
  run. rewrite Hget, Happ. reflexivity.
Qed.

(** X12.  Uninstalling forgets the package.  [uninstallApp] on a device
    that tracks a package answers success, whatever the device tool
    does, and the device tracks no package afterwards; on a device that
    tracks none it answers [Uninstall Failed!] and runs nothing.  So a
    second [uninstallApp] fails, and so do [runLastInstalledApk] and
    [killApp], until a package is installed again. *)
Theorem uninstallApp_forgets_the_package E did dev w :
  Py.dict_get did (devices w) = Some dev ->
  match last_installed_app dev with
  | None =>
      VTestFunctions.uninstallApp E did w
      = (VTestFunctions.failed false "Uninstall Failed!", w)
  | Some _ =>
      exists w1,
        VTestFunctions.uninstallApp E did w = (VTestFunctions.ok true, w1)
        /\ Py.dict_get did (devices w1)
           = Some (set_last_installed_app None dev)
        /\ VTestFunctions.uninstallApp E did w1
           = (VTestFunctions.failed false "Uninstall Failed!", w1)
        /\ (forall execution_time custom_cmd,
              VTestFunctions.runLastInstalledApk E did execution_time
                custom_cmd w1
              = (Returned (VTestFunctions.failed false "No App specified"),
                 w1))
        /\ VTestFunctions.killApp E did w1
           = (VTestFunctions.failed false "Killing app failed", w1)
  end.
Proof.
  intros Hget. rewrite (uninstallApp_spec E did dev w Hget).
  destruct (last_installed_app dev) as [app|]; [|reflexivity].
  eexists. split; [reflexivity|].
  assert (Hget1 : Py.dict_get did
            (devices
               (set_devices
                  (Py.dict_set did (set_last_installed_app None dev) (devices w))
                  (set_now (S (S (now w))) w)))
          = Some (set_last_installed_app None dev)).
  { cbn [devices set_devices]. apply dict_get_set_eq. }
  split; [exact Hget1|].
  split; [now rewrite (uninstallApp_spec E did _ _ Hget1)|].
  split.
  - intros. now apply runLastInstalledApk_nothing_tracked
              with (set_last_installed_app None dev).
  - now apply killApp_nothing_tracked with (set_last_installed_app None dev).
Qed.

Lemma uninstallApp_forgets_the_package_witness :
  Py.dict_get "A" (devices Ex.leased) = Some (Ex.with_app (Ex.dev "A" true))
  /\ exists w1,
       VTestFunctions.uninstallApp
         (Ex.env Ex.hanging CheckTimeoutExpired Ex.delivered) "A" Ex.leased
       = (VTestFunctions.ok true, w1)
       /\ VTestFunctions.uninstallApp
            (Ex.env Ex.hanging CheckTimeoutExpired Ex.delivered) "A" w1
          = (VTestFunctions.failed false "Uninstall Failed!", w1).
Proof.
  split; [reflexivity|].
  destruct (uninstallApp_forgets_the_package
              (Ex.env Ex.hanging CheckTimeoutExpired Ex.delivered) "A"
              (Ex.with_app (Ex.dev "A" true)) Ex.leased eq_refl)
    as (w1 & Hfirst & _ & Hsecond & _).
  now exists w1.
Defined.

Lemma split_nonempty sep s : Py.split sep s <> [].
Proof.
  destruct s as [|c s]; cbn; [discriminate|].
  destruct (Ascii.eqb c sep); [discriminate|].
  now destruct (Py.split sep s).
Qed.

Lemma contains_empty hay : Py.contains EmptyString hay = true.
Proof. destruct hay; cbn; now rewrite ?startswith_empty. Qed.

Lemma any_line_contains_empty_name E stdout :
  device.any_line_contains E EmptyString stdout = true.
Proof.
  unfold device.any_line_contains.
  pose proof (split_nonempty "010" stdout) as Hne.
  destruct (Py.split "010" stdout) as [|line lines]; [contradiction|].
  cbn [existsb].
  replace (Py.lower (unicode E) EmptyString) with EmptyString by reflexivity.
  now rewrite contains_empty.
Qed.

(** X13.  A package without a name.  When [get_package_name] returns
    the empty name for the file (see X24 for when it does),
    [install_apk] reports success whatever the device tool answers:
    every line of every listing contains the empty name.  The device
    then tracks the empty name, for which [kill_apk] reports failure. *)
Theorem install_apk_with_empty_package_name E self filename w :
  host_exists E w (pathlib.Path filename) = true ->
  get_package_name E (now w) (pathlib.Path filename) = Some EmptyString ->
  device.install_apk E self filename w
  = ((false, EmptyString), set_last_installed_app (Some EmptyString) self,
     set_now (now w + 6) w)
  /\ forall w',
       device.kill_apk E (set_last_installed_app (Some EmptyString) self) w'
       = (false, w').
Proof.
  intros Hfile Hname. split; [|reflexivity].
  rewrite install_apk_spec. cbv zeta. rewrite Hfile, Hname.
  now rewrite any_line_contains_empty_name.
Qed.

Lemma install_apk_with_empty_package_name_witness :
  host_exists Ex.nameless Ex.ready (pathlib.Path "/srv/UploadedFiles/a.apk")
  = true
  /\ get_package_name Ex.nameless (now Ex.ready)
       (pathlib.Path "/srv/UploadedFiles/a.apk")
     = Some EmptyString
  /\ fst (fst (device.install_apk Ex.nameless (Ex.dev "A" true)
                 "/srv/UploadedFiles/a.apk" Ex.ready))
     = (false, EmptyString).
Proof.
  assert (H1 : host_exists Ex.nameless Ex.ready
                 (pathlib.Path "/srv/UploadedFiles/a.apk") = true)
    by reflexivity.
  split; [exact H1|]. split; [reflexivity|].
  now rewrite (proj1 (install_apk_with_empty_package_name Ex.nameless
                        (Ex.dev "A" true) "/srv/UploadedFiles/a.apk"
                        Ex.ready H1 eq_refl)).
Defined.

(* ===================================================================== *)
(** ** What the device tool answers                                        *)
(* ===================================================================== *)

Lemma decode_from_replace_total whole bs :
  forall pos skip, exists s, Py.decode_from Py.replace whole pos skip bs = inr s.
Proof.
  induction bs as [|b rest IH]; intros pos skip; cbn [Py.decode_from].
  - now eexists.
  - destruct skip as [|k]; [|apply IH].
    destruct (Py.utf8_classify _);
      match goal with
      | |- context [Py.decode_from Py.replace whole ?p ?k rest] =>
          destruct (IH p k) as (s & ->); now eexists
      end.
Qed.

(** Under [replace] decoding never raises. *)
Lemma decode_replace_total bs : exists s, Py.decode Py.replace bs = inr s.
Proof. apply decode_from_replace_total. Qed.

(** X14.  The two results of [_exec_adb].  The second result is [None]
    exactly when the process ended within its timeout and wrote nothing
    to its error stream; and whenever the process ended within its
    timeout the first result is its output decoded with replacement,
    which never fails. *)
Theorem exec_adb_reports_no_error_iff E self cmd w :
  (snd (fst (device._exec_adb E self cmd w)) = None
   <-> exists stdout,
         popen_communicate E (now w) (adb_command self cmd)
         = Completed stdout [])
  /\ forall stdout stderr,
       popen_communicate E (now w) (adb_command self cmd)
       = Completed stdout stderr ->
       Py.decode Py.replace stdout
       = inr (fst (fst (device._exec_adb E self cmd w))).
Proof.
  rewrite exec_adb_spec. cbn [fst].
  destruct (popen_communicate E (now w) (adb_command self cmd))
    as [out err|msg|msg]; cbn [device.communicate].
  - destruct (decode_replace_total out) as (s & Hs). rewrite Hs. split.
    + destruct err as [|b err].
      * split; [intros _; now exists out|reflexivity].
      * destruct (decode_replace_total (b :: err)) as (s' & ->). cbn [snd].
        split; [discriminate|]. intros (stdout & Heq). discriminate Heq.
    + intros stdout stderr [= <- <-]. rewrite Hs.
      destruct err as [|b err]; [reflexivity|].
      now destruct (decode_replace_total (b :: err)) as (s' & ->).
  - split; [|discriminate]. cbn. split; [discriminate|].
    intros (stdout & Heq). discriminate Heq.
  - split; [|discriminate]. cbn. split; [discriminate|].
    intros (stdout & Heq). discriminate Heq.
Qed.

Lemma startswith_app h a b :
  Py.startswith h (a +:+ b) = true -> Py.startswith h a = true.
Proof.
  revert h. induction a as [|c a IH]; intros h; [now destruct h|].
  change (String c a +:+ b) with (String c (a +:+ b)).
  destruct h as [|c' h]; [discriminate|]. cbn [Py.startswith].
  intros H. apply andb_true_iff in H as [Hc H]. rewrite Hc. now apply IH.
Qed.

Lemma contains_cons needle c hay :
  Py.contains needle hay = true -> Py.contains needle (String c hay) = true.
Proof. intros H. cbn [Py.contains]. rewrite H. apply orb_true_r. Qed.

Lemma startswith_contains_suffix h a b :
  Py.startswith h (a +:+ b) = true -> Py.contains b h = true.
Proof.
  revert h. induction a as [|c a IH]; intros h.
  - change (EmptyString +:+ b) with b.
    intros H. destruct h; cbn [Py.contains]; now rewrite H.
  - change (String c a +:+ b) with (String c (a +:+ b)).
    destruct h as [|c' h]; [discriminate|]. cbn [Py.startswith].
    intros H. apply andb_true_iff in H as [_ H].
    apply contains_cons. now apply IH.
Qed.

(** A text that contains a string contains its parts. *)
Lemma contains_part a p b hay :
  Py.contains (a +:+ p +:+ b) hay = true -> Py.contains p hay = true.
Proof.
  induction hay as [|c hay IH]; cbn [Py.contains].
  - rewrite orb_false_r. intros H. apply startswith_contains_suffix in H.
    destruct p as [|c p]; [reflexivity|].
    change (String c p +:+ b) with (String c (p +:+ b)) in H.
    cbn in H. discriminate.
  - intros H. apply orb_true_iff in H as [H|H].
    + apply startswith_contains_suffix in H.
      change (Py.startswith (String c hay) p
              || Py.contains p hay = true).
      cbn [Py.contains] in H. apply orb_true_iff in H as [H|H].
      * apply startswith_app in H. now rewrite H.
      * assert (Hp : Py.contains p hay = true).
        { clear - H. revert H. generalize hay as h.
          induction h as [|c h IH]; cbn [Py.contains].
          - rewrite !orb_false_r. apply startswith_app.
          - intros H. apply orb_true_iff in H as [H|H].
            + apply startswith_app in H. now rewrite H.
            + rewrite (IH H). apply orb_true_r. }
        rewrite Hp. apply orb_true_r.
    + rewrite (IH H). apply orb_true_r.
Qed.

Lemma lower_app a b :
  Py.ascii_lower (a +:+ b) = Py.ascii_lower a +:+ Py.ascii_lower b.
Proof.
  induction a as [|c a IH]; [reflexivity|].
  change (String c a +:+ b) with (String c (a +:+ b)).
  cbn [Py.ascii_lower]. rewrite IH. reflexivity.
Qed.

Lemma lower_char_idem c : Py.lower_char (Py.lower_char c) = Py.lower_char c.
Proof.
  unfold Py.lower_char. destruct (Py.isupper c) eqn:Hup; [|now rewrite Hup].
  unfold Py.isupper in *. apply andb_true_iff in Hup as [Hlo Hhi].
  apply Nat.leb_le in Hlo, Hhi.
  rewrite nat_ascii_embedding by lia.
  replace (nat_of_ascii c + 32 <=? 90)%nat with false
    by (symmetry; apply Nat.leb_gt; lia).
  now rewrite andb_false_r.
Qed.

Lemma lower_idem s : Py.ascii_lower (Py.ascii_lower s) = Py.ascii_lower s.
Proof.
  induction s as [|c s IH]; cbn; [reflexivity|].
  now rewrite lower_char_idem, IH.
Qed.

Lemma isascii_app a b :
  Py.isascii (a +:+ b) = Py.isascii a && Py.isascii b.
Proof.
  unfold Py.isascii. induction a as [|c a IH]; [reflexivity|].
  change (String c a +:+ b) with (String c (a +:+ b)).
  cbn [Py.all_chars]. now rewrite IH, andb_assoc.
Qed.

Lemma isascii_lower s : Py.isascii s = true -> Py.isascii (Py.ascii_lower s) = true.
Proof.
  unfold Py.isascii. induction s as [|c s IH]; [reflexivity|].
  cbn [Py.all_chars Py.ascii_lower]. intros H.
  apply andb_true_iff in H as [Hc Hs]. rewrite (IH Hs), andb_true_r.
  unfold Py.lower_char. destruct (Py.isupper c) eqn:Hup; [|exact Hc].
  unfold Py.isupper in Hup. apply andb_true_iff in Hup as [Hlo Hhi].
  apply Nat.leb_le in Hlo, Hhi. rewrite nat_ascii_embedding by lia.
  apply Nat.ltb_lt. lia.
Qed.

Lemma lower_isascii U s : Py.isascii s = true -> Py.lower U s = Py.ascii_lower s.
Proof. intros H. unfold Py.lower. now rewrite H. Qed.

Lemma any_line_contains_part E a p b stdout :
  Py.isascii (a +:+ p +:+ b) = true ->
  device.any_line_contains E (a +:+ p +:+ b) stdout = true ->
  device.any_line_contains E p stdout = true.
Proof.
  intros Hascii. pose proof Hascii as Hparts.
  rewrite !isascii_app in Hparts.
  apply andb_true_iff in Hparts as [_ Hparts].
  apply andb_true_iff in Hparts as [Hp _].
  unfold device.any_line_contains. rewrite !existsb_exists.
  intros (line & Hin & Hc). exists line. split; [exact Hin|].
  rewrite lower_isascii in Hc by exact Hascii.
  rewrite lower_isascii by exact Hp.
  rewrite !lower_app in Hc. exact (contains_part _ _ _ _ Hc).
Qed.

(** X15.  How [is_package_installed] matches a name of characters below
    U+0080.  A package counts as installed when a line of the listing
    contains its name, in any case: whenever such a name is reported as
    installed, so is every part of that name, and the answer for a name
    is the answer for its lower case. *)
Theorem is_package_installed_matches_parts E self a p b w :
  Py.isascii (a +:+ p +:+ b) = true ->
  (fst (device.is_package_installed E self (a +:+ p +:+ b) w) = true ->
   fst (device.is_package_installed E self p w) = true)
  /\ fst (device.is_package_installed E self (Py.lower (unicode E) p) w)
     = fst (device.is_package_installed E self p w).
Proof.
  intros Hascii. rewrite !is_package_installed_spec. cbn [fst]. split.
  - now apply any_line_contains_part.
  - rewrite !isascii_app in Hascii.
    apply andb_true_iff in Hascii as [_ Hascii].
    apply andb_true_iff in Hascii as [Hp _].
    unfold device.any_line_contains.
    rewrite (lower_isascii _ p Hp).
    rewrite (lower_isascii _ _ (isascii_lower p Hp)).
    now rewrite lower_idem.
Qed.

(** The listing that shows [com.Example.App] answers for the part
    [example] of the name [com.example.app], and for [EXAMPLE]. *)
Lemma is_package_installed_matches_parts_witness :
  Py.isascii ("com." +:+ "EXAMPLE" +:+ ".app") = true
  /\ fst (device.is_package_installed
            (Ex.env Ex.noisy_install CheckTimeoutExpired Ex.delivered)
            (Ex.dev "A" true) "example" (Ex.world []))
     = true
  /\ fst (device.is_package_installed
            (Ex.env Ex.noisy_install CheckTimeoutExpired Ex.delivered)
            (Ex.dev "A" true) "EXAMPLE" (Ex.world []))
     = true.
Proof.
  assert (H : Py.isascii ("com." +:+ "EXAMPLE" +:+ ".app") = true)
    by reflexivity.
  split; [exact H|].
  destruct (is_package_installed_matches_parts
              (Ex.env Ex.noisy_install CheckTimeoutExpired Ex.delivered)
              (Ex.dev "A" true) "com." "EXAMPLE" ".app" (Ex.world []) H)
    as [Hpart Hlower].
  split; [exact Hlower|]. apply Hpart. reflexivity.
Defined.

(* ===================================================================== *)
(** ** Further properties of the transfer of files                        *)
(* ===================================================================== *)

(** The chunks of the reading loop: none is empty, and one that is
    followed by another is full. *)
Lemma read_loop_shape n fuel :
  forall rest,
    Forall (fun chunk => chunk <> []) (Py.read_loop fuel n rest)
    /\ forall i chunk,
         Py.read_loop fuel n rest !! i = Some chunk ->
         S i < List.length (Py.read_loop fuel n rest) ->
         List.length chunk = n.
Proof.
  induction fuel as [|fuel IH]; intros rest; cbn [Py.read_loop].
  - split; [constructor|]. intros i chunk H. discriminate H.
  - destruct (take n rest) as [|b chunk0] eqn:Htake.
    + split; [constructor|]. intros i chunk H. discriminate H.
    + destruct (IH (drop n rest)) as [Hne Hfull]. split.
      * constructor; [discriminate|exact Hne].
      * intros [|i] chunk Hi Hlen.
        -- cbn in Hi. injection Hi as <-. rewrite <- Htake.
           cbn [List.length] in Hlen.
           destruct fuel as [|fuel']; [cbn in Hlen; lia|].
           cbn [Py.read_loop] in Hlen.
           destruct (take n (drop n rest)) as [|b' c'] eqn:Hnext;
             [cbn in Hlen; lia|].
           rewrite length_take.
           assert (List.length (drop n rest) <> 0).
           { destruct (drop n rest); [rewrite take_nil in Hnext; discriminate|].
             discriminate. }
           rewrite length_drop in H. lia.
        -- cbn in Hi. cbn [List.length] in Hlen.
           apply (Hfull i chunk Hi). lia.
Qed.

(** The number of chunks. *)
Lemma read_loop_count n fuel :
  0 < n ->
  forall rest, List.length rest < fuel ->
    List.length (Py.read_loop fuel n rest) = (List.length rest + n - 1) / n.
Proof.
  intros Hn. induction fuel as [|fuel IH]; intros rest Hfuel; [lia|].
  cbn [Py.read_loop]. destruct (take n rest) as [|b chunk0] eqn:Htake.
  - apply (take_nil_inv n) in Htake; [|exact Hn]. subst rest. cbn.
    symmetry. apply Nat.div_small. lia.
  - assert (Hpos : 0 < List.length rest).
    { destruct rest; [rewrite take_nil in Htake; discriminate|cbn; lia]. }
    cbn [List.length]. rewrite IH by (rewrite length_drop; lia).
    rewrite length_drop.
    destruct (Nat.le_gt_cases n (List.length rest)) as [Hge|Hlt].
    + replace (List.length rest + n - 1)
        with (List.length rest - n + n - 1 + 1 * n) by lia.
      rewrite Nat.div_add by lia. lia.
    + replace (List.length rest - n + n - 1) with (n - 1) by lia.
      rewrite (Nat.div_small (n - 1)) by lia.
      apply (Nat.div_unique _ _ 1 (List.length rest - 1)); lia.
Qed.

(** What can be read is there. *)
Lemma read_exists U cwd dirs files p content :
  os.read U cwd dirs files p = Returned content ->
  os.path_exists U cwd dirs files p = true.
Proof.
  unfold os.read, os.path_exists.
  destruct (os.lookup U cwd dirs files p) as [here|e]; [|discriminate].
  unfold os.is_file.
  destruct (files !! os.located here); [|now destruct (os.is_dir dirs here)].
  intros _. apply orb_true_r.
Qed.

(** X16.  The chunks of a pulled file.  For a file of the host,
    [PullFile] streams as many chunks as the size of the file needs at
    [CHUNK_SIZE] bytes each; no chunk is empty, and every chunk but the
    last holds exactly [CHUNK_SIZE] bytes.  An empty file streams no
    chunk. *)
Theorem PullFile_chunks E filename (content : Py.bytes) w :
  host_read E w filename = Returned content ->
  Forall (fun chunk => chunk <> [])
    (fst (fst (CommunicationServicer.PullFile E filename w)))
  /\ (forall i chunk,
        fst (fst (CommunicationServicer.PullFile E filename w)) !! i
        = Some chunk ->
        S i < List.length
                (fst (fst (CommunicationServicer.PullFile E filename w))) ->
        List.length chunk = CHUNK_SIZE)
  /\ List.length (fst (fst (CommunicationServicer.PullFile E filename w)))
     = (List.length content + CHUNK_SIZE - 1) / CHUNK_SIZE
  /\ (content = [] ->
      fst (fst (CommunicationServicer.PullFile E filename w)) = []).
Proof.
  intros Hfile. unfold CommunicationServicer.PullFile, gets.
  unfold host_exists. rewrite (read_exists _ _ _ _ _ _ Hfile), Hfile.
  cbn [negb fst]. unfold Py.read_chunks.
  destruct (read_loop_shape CHUNK_SIZE (S (List.length content)) content)
    as [Hne Hfull].
  split; [exact Hne|]. split; [exact Hfull|]. split.
  - apply read_loop_count; [apply CHUNK_SIZE_pos|lia].
  - intros ->. reflexivity.
Qed.

Lemma PullFile_chunks_witness :
  host_read Ex.working (Ex.storing [x41; x42]) "/tmp/log"
  = Returned [x41; x42]
  /\ Forall (fun chunk => chunk <> [])
       (fst (fst (CommunicationServicer.PullFile Ex.working "/tmp/log"
                    (Ex.storing [x41; x42])))).
Proof.
  assert (H : host_read Ex.working (Ex.storing [x41; x42]) "/tmp/log"
              = Returned [x41; x42]) by reflexivity.
  split; [exact H|].
  exact (proj1 (PullFile_chunks Ex.working "/tmp/log" [x41; x42]
                  (Ex.storing [x41; x42]) H)).
Defined.

(** X17.  When an upload reports failure.  [upload_file] answers [False]
    when the local file cannot be opened, when it is empty, when the
    request or the response is lost, and when the host cannot make the
    directory of the upload or cannot open the file in it.  In each of
    these cases but one the files of the host are as before; when only
    the response is lost and the host could make the directory and open
    the file, it has stored the whole file although the client reports
    a failure. *)
Theorem upload_file_failures E filename storage_path w :
  (forall e, local_read E w (pathlib.Path filename) = Raised e ->
   fst (grpc_client.upload_file E filename storage_path w) = false
   /\ files (snd (grpc_client.upload_file E filename storage_path w)) = files w)
  /\ (local_read E w (pathlib.Path filename) = Returned [] ->
      fst (grpc_client.upload_file E filename storage_path w) = false
      /\ files (snd (grpc_client.upload_file E filename storage_path w))
         = files w)
  /\ (channel E (now w) UploadFile = RequestLost ->
      fst (grpc_client.upload_file E filename storage_path w) = false
      /\ files (snd (grpc_client.upload_file E filename storage_path w))
         = files w)
  /\ (forall e, host_mkdir E w (upload_directory E storage_path) = Raised e ->
      fst (grpc_client.upload_file E filename storage_path w) = false
      /\ files (snd (grpc_client.upload_file E filename storage_path w))
         = files w
      /\ dirs (snd (grpc_client.upload_file E filename storage_path w))
         = dirs w)
  /\ (forall (content : Py.bytes) dirs' e,
        local_read E w (pathlib.Path filename) = Returned content ->
        host_mkdir E w (upload_directory E storage_path) = Returned dirs' ->
        host_write E (set_dirs dirs' w)
          (upload_destination E filename storage_path) content
        = Raised e ->
        fst (grpc_client.upload_file E filename storage_path w) = false
        /\ files (snd (grpc_client.upload_file E filename storage_path w))
           = files w)
  /\ (forall (content : Py.bytes) dirs' files',
        local_read E w (pathlib.Path filename) = Returned content ->
        content <> [] ->
        channel E (now w) UploadFile = ResponseLost ->
        host_mkdir E w (upload_directory E storage_path) = Returned dirs' ->
        host_write E (set_dirs dirs' w)
          (upload_destination E filename storage_path) content
        = Returned files' ->
        fst (grpc_client.upload_file E filename storage_path w) = false
        /\ files (snd (grpc_client.upload_file E filename storage_path w))
           = files'
        /\ host_read E (snd (grpc_client.upload_file E filename storage_path w))
             (upload_destination E filename storage_path)
           = Returned content).
Proof.
  assert (Hrun : forall content : Py.bytes,
    local_read E w (pathlib.Path filename) = Returned content ->
    content <> [] ->
    channel E (now w) UploadFile <> RequestLost ->
    let w0 := set_now (S (now w))
                (set_rpc_log
                   (rpc_log w ++ [(UploadFile, pathlib.Path filename)]) w) in
    match host_mkdir E w (upload_directory E storage_path) with
    | Raised _ =>
        grpc_client.upload_file E filename storage_path w = (false, w0)
    | Returned dirs' =>
        match host_write E (set_dirs dirs' w)
                (upload_destination E filename storage_path) content with
        | Raised _ =>
            grpc_client.upload_file E filename storage_path w
            = (false, set_dirs dirs' w0)
        | Returned files' =>
            grpc_client.upload_file E filename storage_path w
            = (match channel E (now w) UploadFile with
               | Delivered => true
               | _ => false
               end, set_files files' (set_dirs dirs' w0))
        end
    end).
  { intros content Hfile Hne Hnet. cbv zeta.
    unfold grpc_client.upload_file, grpc_client.file_chunk_generator,
      grpc_client.stub, bind, gets, modify, tick.
    cbv beta zeta. rewrite Hfile. cbn [now set_rpc_log set_now].
    pose proof (read_chunks_nonempty CHUNK_SIZE content CHUNK_SIZE_pos Hne)
      as Hsome.
    pose proof (read_chunks_concat CHUNK_SIZE content CHUNK_SIZE_pos) as Hcat.
    destruct (Py.read_chunks CHUNK_SIZE content) as [|c cs]; [congruence|].
    cbn [map CommunicationServicer.UploadFile].
    unfold bind, gets, modify, pure.
    cbn [communication_pb2.filename communication_pb2.storage_path
         communication_pb2.chunk_data].
    rewrite fold_left_requests by reflexivity.
    cbn [concat] in Hcat. rewrite Hcat.
    unfold upload_destination, upload_directory, host_mkdir, host_write.
    destruct (channel E (now w) UploadFile); [|now contradiction Hnet|];
      cbv beta; cbn [files dirs set_files set_dirs set_now set_rpc_log];
      (destruct (os.mkdir (unicode E) (cwd E) (dirs w) (files w)
                   (pathlib.joinpath (REL_DIR E) (pathlib.Path storage_path)))
         as [dirs'|e]; [|reflexivity]);
      cbn [files dirs set_files set_dirs set_now set_rpc_log];
      now destruct (os.write (unicode E) (cwd E) dirs' (files w) _ content). }
  assert (Hquiet : forall e,
    local_read E w (pathlib.Path filename) = Raised e
    \/ local_read E w (pathlib.Path filename) = Returned []
    \/ channel E (now w) UploadFile = RequestLost ->
    fst (grpc_client.upload_file E filename storage_path w) = false
    /\ files (snd (grpc_client.upload_file E filename storage_path w)) = files w
    /\ dirs (snd (grpc_client.upload_file E filename storage_path w)) = dirs w).
  { intros e Hcase.
    unfold grpc_client.upload_file, grpc_client.file_chunk_generator,
      grpc_client.stub, bind, gets, modify, tick.
    cbv beta zeta. cbn [now set_rpc_log set_now].
    destruct Hcase as [-> |[-> | ->]].
    - now destruct (channel E (now w) UploadFile).
    - now destruct (channel E (now w) UploadFile).
    - now destruct (local_read E w (pathlib.Path filename)). }
  split; [intros e H; destruct (Hquiet e (or_introl H)) as (? & ? & _);
          now split|].
  split; [intros H;
          destruct (Hquiet StopIteration (or_intror (or_introl H)))
            as (? & ? & _); now split|].
  split; [intros H;
          destruct (Hquiet StopIteration (or_intror (or_intror H)))
            as (? & ? & _); now split|].
  split; [|split].
  - intros e Hmk.
    destruct (local_read E w (pathlib.Path filename)) as [content|e0] eqn:Hfile;
      [|exact (Hquiet e0 (or_introl eq_refl))].
    destruct content as [|b content];
      [exact (Hquiet e (or_intror (or_introl eq_refl)))|].
    destruct (channel E (now w) UploadFile) eqn:Hnet;
      try exact (Hquiet e (or_intror (or_intror eq_refl)));
      pose proof (Hrun (b :: content) eq_refl ltac:(discriminate)
                    ltac:(discriminate)) as H;
      cbv zeta in H; rewrite Hmk in H; rewrite H; now repeat split.
  - intros content dirs' e Hfile Hmk Hwr.
    destruct content as [|b content];
      [destruct (Hquiet e (or_intror (or_introl Hfile))) as (? & ? & _);
       now split|].
    destruct (channel E (now w) UploadFile) eqn:Hnet;
      try (destruct (Hquiet e (or_intror (or_intror eq_refl))) as (? & ? & _);
           now split);
      pose proof (Hrun (b :: content) Hfile ltac:(discriminate)
                    ltac:(discriminate)) as H;
      cbv zeta in H; rewrite Hmk, Hwr in H; rewrite H; now split.
  - intros content dirs' files' Hfile Hne Hnet Hmk Hwr.
    pose proof (Hrun content Hfile Hne ltac:(rewrite Hnet; discriminate)) as H.
    cbv zeta in H. rewrite Hmk, Hwr, Hnet in H. rewrite H.
    cbn [fst snd files set_files]. split; [reflexivity|].
    split; [reflexivity|].
    exact (proj1 (write_read _ _ _ _ _ _ _ Hwr)).
Qed.

(** The local file [b.bin] is missing; and the directory [new/up] cannot
    be made on the host, where [new] is missing. *)
Lemma upload_file_failures_witness :
  local_read Ex.working (Ex.holding [x41]) (pathlib.Path "b.bin")
  = Raised (FileNotFoundError "'b.bin'")
  /\ fst (grpc_client.upload_file Ex.working "b.bin" "up" (Ex.holding [x41]))
     = false
  /\ host_mkdir Ex.working (Ex.holding [x41])
       (upload_directory Ex.working "new/up")
     = Raised (FileNotFoundError "'/srv/new/up'")
  /\ fst (grpc_client.upload_file Ex.working "a.bin" "new/up"
            (Ex.holding [x41]))
     = false.
Proof.
  assert (H1 : local_read Ex.working (Ex.holding [x41]) (pathlib.Path "b.bin")
               = Raised (FileNotFoundError "'b.bin'")) by reflexivity.
  assert (H2 : host_mkdir Ex.working (Ex.holding [x41])
                 (upload_directory Ex.working "new/up")
               = Raised (FileNotFoundError "'/srv/new/up'")) by reflexivity.
  split; [exact H1|].
  split; [exact (proj1 (proj1 (upload_file_failures Ex.working "b.bin" "up"
                                 (Ex.holding [x41])) _ H1))|].
  split; [exact H2|].
  exact (proj1 (proj1 (proj2 (proj2 (proj2
           (upload_file_failures Ex.working "a.bin" "new/up"
              (Ex.holding [x41]))))) _ H2)).
Defined.

(** Decoding with [ignore] keeps bytes of the input, in their order. *)
Lemma decode_from_ignore_sublist whole bs :
  forall pos skip s,
    Py.decode_from Py.ignore whole pos skip bs = inr s ->
    sublist (Py.encode s) (drop skip bs).
Proof.
  induction bs as [|b rest IH]; intros pos skip s; cbn [Py.decode_from].
  - intros [= <-]. rewrite drop_nil. constructor.
  - destruct skip as [|k]; [|apply IH].
    assert (Herr : forall m s',
              Py.decode_from Py.ignore whole (S pos) m rest = inr s' ->
              sublist (Py.encode s') (b :: rest)).
    { intros m s' Hs'. apply IH in Hs'. apply sublist_cons.
      etransitivity; [exact Hs'|apply sublist_drop]. }
    destruct (Py.utf8_classify (map Byte.to_N (b :: rest))) as [n| | |n] eqn:Hc;
      match goal with
      | |- context [Py.decode_from Py.ignore whole ?p ?k rest] =>
          destruct (Py.decode_from Py.ignore whole p k rest) as [e|s'] eqn:Hs;
          [discriminate|]
      end;
      intros [= <-]; cbn [drop]; try exact (Herr _ _ Hs).
    unfold Py.encode in *. rewrite list_byte_of_string_app.
    rewrite list_byte_of_string_of_list_byte.
    apply IH in Hs.
    apply utf8_classify_Char in Hc. destruct n as [|n]; [lia|].
    replace (S n - 1) with n in Hs by lia.
    rewrite <- (take_drop (S n) (b :: rest)) at 2.
    apply sublist_app; [reflexivity|exact Hs].
Qed.

(** X18.  What a pull may lose.  The text [pull_file] returns for a file
    of the host is made of bytes of the file, in the order of the file:
    bytes that do not decode are left out, and no byte is added or
    changed. *)
Theorem pull_file_keeps_bytes_in_order E filename (content : Py.bytes) w :
  channel E (now w) PullFile = Delivered ->
  host_read E w (pathlib.Path filename) = Returned content ->
  exists text,
    fst (grpc_client.pull_file E filename w) = (false, text)
    /\ sublist (Py.encode text) content.
Proof.
  intros Hnet Hfile. pose proof (pull_file_spec E filename w) as Hspec.
  cbv zeta in Hspec. unfold host_exists in Hspec.
  rewrite Hnet, (read_exists _ _ _ _ _ _ Hfile), Hfile in Hspec.
  destruct Hspec as (text & Hdec & ->).
  exists text. split; [reflexivity|].
  exact (decode_from_ignore_sublist _ _ _ _ _ Hdec).
Qed.

Lemma pull_file_keeps_bytes_in_order_witness :
  channel Ex.working (now (Ex.storing [x41; xff; x42])) PullFile = Delivered
  /\ host_read Ex.working (Ex.storing [x41; xff; x42])
       (pathlib.Path "/tmp/log")
     = Returned [x41; xff; x42]
  /\ exists text,
       fst (grpc_client.pull_file Ex.working "/tmp/log"
              (Ex.storing [x41; xff; x42]))
       = (false, text)
       /\ sublist (Py.encode text) [x41; xff; x42].
Proof.
  assert (H : host_read Ex.working (Ex.storing [x41; xff; x42])
                (pathlib.Path "/tmp/log")
              = Returned [x41; xff; x42]) by reflexivity.
  split; [reflexivity|]. split; [exact H|].
  exact (pull_file_keeps_bytes_in_order Ex.working "/tmp/log" [x41; xff; x42]
           (Ex.storing [x41; xff; x42]) eq_refl H).
Defined.

(* ===================================================================== *)
(** ** Further properties of the execution pipeline                       *)
(* ===================================================================== *)

Lemma calls_unlockDevice did : calls did [] (VTestFunctions.unlockDevice did).
Proof.
  intros w Hw. destruct (unlockDevice_releases did w Hw) as (K & L & _).
  split; [exact K|]. now rewrite app_nil_r.
Qed.

Lemma calls_unlock_device E did :
  calls did [(UnlockDevice, did)] (grpc_client.GRPCClient.unlock_device E did).
Proof.
  apply calls_wrap, calls_stub.
  unfold CommunicationServicer.UnlockDevice.
  apply calls_servicer, calls_unlockDevice.
Qed.

Lemma calls_exit E did :
  calls did (release_actions did) (DeviceUsage.__exit__ E did).
Proof.
  unfold DeviceUsage.__exit__, DeviceUsage.cleanup_operations, release_actions.
  cbn [DeviceUsage.run_operations].
  apply (calls_bind did [(UninstallApp, did)]
           [(StopLogcatCollect, did); (UnlockDevice, did)]);
    [apply calls_operation, calls_uninstall_app|intros r1].
  assert (Hrest : calls did [(StopLogcatCollect, did); (UnlockDevice, did)]
            (r <- DeviceUsage.operation
                    (grpc_client.GRPCClient.stop_logcat_collect E) did ;;
             match r with
             | Returned _ | Raised _ =>
                 r0 <- DeviceUsage.operation
                         (grpc_client.GRPCClient.unlock_device E) did ;;
                 match r0 with
                 | Returned _ | Raised _ => pure tt
                 end
             end)).
  { apply (calls_bind did [(StopLogcatCollect, did)] [(UnlockDevice, did)]);
      [apply calls_operation, calls_stop_logcat_collect|intros r2].
    assert (Hlast : calls did [(UnlockDevice, did)]
              (r0 <- DeviceUsage.operation
                       (grpc_client.GRPCClient.unlock_device E) did ;;
               match r0 with
               | Returned _ | Raised _ => pure tt
               end)).
    { rewrite <- (app_nil_r [(UnlockDevice, did)]).
      apply calls_bind; [apply calls_operation, calls_unlock_device|].
      intros r3. destruct r3; apply calls_pure. }
    now destruct r2. }
  now destruct r1.
Qed.

(* ===================================================================== *)
(** ** The lease of a device through a run                                 *)
(* ===================================================================== *)

Lemma keeps_lease_confined {A} did (m : M A) :
  confined did m -> keeps_lease did m.
Proof.
  intros Hm w d Hget. specialize (Hm w). rewrite Hget in Hm.
  destruct Hm as (d' & Hdev & _ & Hlease). exists d'.
  rewrite Hdev. split; [apply dict_get_set_eq|exact Hlease].
Qed.

Lemma keeps_lease_same {A} did (m : M A) :
  (forall w, devices (snd (m w)) = devices w) -> keeps_lease did m.
Proof. intros Hm w d Hget. exists d. now rewrite Hm. Qed.

Lemma keeps_lease_pure {A} did (a : A) : keeps_lease did (pure a).
Proof. now apply keeps_lease_same. Qed.

Lemma keeps_lease_quiet {A} did (m : M A) : quiet m -> keeps_lease did m.
Proof. intros Hm. apply keeps_lease_same. intros w. apply (Hm w). Qed.

Lemma keeps_lease_bind {A B} did (m : M A) (k : A -> M B) :
  keeps_lease did m -> (forall a, keeps_lease did (k a)) ->
  keeps_lease did (bind m k).
Proof.
  intros Hm Hk w d Hget. rewrite bind_eq.
  destruct (Hm w d Hget) as (d1 & Hget1 & Hlease1).
  destruct (m w) as [a w1]. cbn [snd] in *.
  destruct (Hk a w1 d1 Hget1) as (d2 & Hget2 & Hlease2).
  exists d2. split; [exact Hget2|congruence].
Qed.

(** A call through the stub does to the registry what the servicer does,
    or nothing. *)
Lemma keeps_lease_stub {A} E did r arg (servicer : M (Raises A)) :
  keeps_lease did servicer -> keeps_lease did (grpc_client.stub E r arg servicer).
Proof.
  intros Hs. unfold grpc_client.stub.
  apply keeps_lease_bind; [now apply keeps_lease_same|]. intros _.
  apply keeps_lease_bind; [now apply keeps_lease_same|]. intros t.
  destruct (channel E t r).
  - apply keeps_lease_bind; [exact Hs|]. intros a. apply keeps_lease_pure.
  - apply keeps_lease_pure.
  - apply keeps_lease_bind; [exact Hs|]. intros a. apply keeps_lease_pure.
Qed.

(** A call whose request is lost does nothing to the registry. *)
Lemma keeps_lease_lost {A} E did r arg (servicer : M (Raises A)) :
  (forall t, channel E t r = RequestLost) ->
  keeps_lease did (grpc_client.stub E r arg servicer).
Proof.
  intros Hnet. unfold grpc_client.stub.
  apply keeps_lease_bind; [now apply keeps_lease_same|]. intros _.
  apply keeps_lease_bind; [now apply keeps_lease_same|]. intros t.
  rewrite Hnet. apply keeps_lease_pure.
Qed.

Lemma keeps_lease_wrap {A B} did (call : M (Raises (communication_pb2.Reply A)))
    (value : communication_pb2.Reply A -> option B) :
  keeps_lease did call -> keeps_lease did (grpc_client.GRPCClient.wrap call value).
Proof.
  intros Hc. unfold grpc_client.GRPCClient.wrap.
  apply keeps_lease_bind; [exact Hc|]. intros a. apply keeps_lease_pure.
Qed.

Lemma keeps_lease_servicer {A B} did (f : M A) (g : A -> B) :
  confined did f -> keeps_lease did (r <- f ;; pure (g r)).
Proof.
  intros Hf. apply keeps_lease_bind; [now apply keeps_lease_confined|].
  intros a. apply keeps_lease_pure.
Qed.

Lemma keeps_lease_start_logcat_collect E did :
  keeps_lease did (grpc_client.GRPCClient.start_logcat_collect E did).
Proof.
  apply keeps_lease_wrap, keeps_lease_stub, keeps_lease_servicer,
    confined_startLogcatCollect.
Qed.

Lemma keeps_lease_install_app E did server_path sign_app :
  keeps_lease did (grpc_client.GRPCClient.install_app E did server_path sign_app).
Proof.
  apply keeps_lease_wrap, keeps_lease_stub, keeps_lease_servicer,
    confined_installApp.
Qed.

Lemma keeps_lease_run_last_installed_apk E did execution_time custom_cmd :
  keeps_lease did
    (grpc_client.GRPCClient.run_last_installed_apk E did execution_time
       custom_cmd).
Proof.
  apply keeps_lease_wrap, keeps_lease_stub, keeps_lease_servicer,
    confined_runLastInstalledApk.
Qed.

Lemma keeps_lease_uninstall_app E did :
  keeps_lease did (grpc_client.GRPCClient.uninstall_app E did).
Proof.
  apply keeps_lease_wrap, keeps_lease_stub, keeps_lease_servicer,
    confined_uninstallApp.
Qed.

Lemma keeps_lease_stop_logcat_collect E did :
  keeps_lease did (grpc_client.GRPCClient.stop_logcat_collect E did).
Proof.
  apply keeps_lease_wrap, keeps_lease_stub, keeps_lease_servicer,
    confined_stopLogcatCollect.
Qed.

Lemma keeps_lease_pull_file E did filename :
  keeps_lease did (grpc_client.GRPCClient.pull_file E filename).
Proof.
  apply keeps_lease_same. intros w.
  pose proof (pull_file_spec E filename w) as Hs. cbv zeta in Hs.
  assert (Hall : exists r,
            grpc_client.pull_file E filename w
            = (r, set_now (S (now w))
                    (set_rpc_log
                       (rpc_log w ++ [(PullFile, pathlib.Path filename)]) w))).
  { destruct (channel E (now w) PullFile); [|eexists; exact Hs..].
    destruct (host_exists E w _); [|eexists; exact Hs].
    destruct (host_read E w _); [|eexists; exact Hs].
    destruct Hs as (text & _ & Hs). eexists; exact Hs. }
  destruct Hall as ([error result] & Heq).
  unfold grpc_client.GRPCClient.pull_file. rewrite bind_eq, Heq.
  reflexivity.
Qed.

Lemma keeps_lease_unlock_lost E did :
  (forall t, channel E t UnlockDevice = RequestLost) ->
  keeps_lease did (grpc_client.GRPCClient.unlock_device E did).
Proof. intros Hnet. now apply keeps_lease_wrap, keeps_lease_lost. Qed.

Create HintDb lease.
#[local] Hint Resolve keeps_lease_pure keeps_lease_start_logcat_collect
  keeps_lease_install_app keeps_lease_run_last_installed_apk
  keeps_lease_uninstall_app keeps_lease_stop_logcat_collect
  keeps_lease_pull_file : lease.
#[local] Hint Extern 2 (keeps_lease _ _) =>
  (apply keeps_lease_quiet; solve [auto with quiet]) : lease.

Ltac lease_step :=
  match goal with
  | |- keeps_lease _ (bind _ _) => apply keeps_lease_bind; [|intros ?]
  | |- keeps_lease _ (match ?x with _ => _ end) => destruct x
  | |- keeps_lease _ _ => solve [auto with lease]
  end.

Lemma keeps_lease_try_finally E exec_result devid stored_file execution_time
    sign_app custom_cmd :
  keeps_lease devid
    (app_executor.try_finally E exec_result devid stored_file execution_time
       sign_app custom_cmd).
Proof.
  unfold app_executor.try_finally.
  apply keeps_lease_bind;
    [unfold app_executor.try_block; repeat lease_step|].
  intros [er tried].
  apply keeps_lease_bind;
    [unfold app_executor.finally_block; repeat lease_step|].
  intros [er' finished]. apply keeps_lease_pure.
Qed.

Lemma keeps_lease_operation {A} did (call : string -> M (Raises A)) :
  keeps_lease did (call did) -> keeps_lease did (DeviceUsage.operation call did).
Proof.
  intros Hc. unfold DeviceUsage.operation.
  apply keeps_lease_bind; [exact Hc|]. intros a. apply keeps_lease_pure.
Qed.

(** The cleanup keeps the lease when the request of its release call is
    lost. *)
Lemma keeps_lease_exit E did :
  (forall t, channel E t UnlockDevice = RequestLost) ->
  keeps_lease did (DeviceUsage.__exit__ E did).
Proof.
  intros Hnet.
  unfold DeviceUsage.__exit__, DeviceUsage.cleanup_operations.
  cbn [DeviceUsage.run_operations].
  apply keeps_lease_bind;
    [apply keeps_lease_operation, keeps_lease_uninstall_app|].
  intros r1.
  assert (Hrest : keeps_lease did
            (r <- DeviceUsage.operation
                    (grpc_client.GRPCClient.stop_logcat_collect E) did ;;
             match r with
             | Returned _ | Raised _ =>
                 r0 <- DeviceUsage.operation
                         (grpc_client.GRPCClient.unlock_device E) did ;;
                 match r0 with
                 | Returned _ | Raised _ => pure tt
                 end
             end)).
  { apply keeps_lease_bind;
      [apply keeps_lease_operation, keeps_lease_stop_logcat_collect|].
    intros r2.
    assert (Hlast : keeps_lease did
              (r0 <- DeviceUsage.operation
                       (grpc_client.GRPCClient.unlock_device E) did ;;
               match r0 with
               | Returned _ | Raised _ => pure tt
               end)).
    { apply keeps_lease_bind;
        [now apply keeps_lease_operation, keeps_lease_unlock_lost|].
      intros r3. destruct r3; apply keeps_lease_pure. }
    now destruct r2. }
  now destruct r1.
Qed.

(** C1, as amended.  However a run of [execute_app] on a registered
    device goes, whatever the stages of the pipeline and the finalization
    do, the cleanup attempts its three release actions last and in order:
    uninstall the app, stop the capture, unlock the device, each whatever
    became of the one before.  When the request of the unlock reaches the
    host, the device ends up free.  When that request is lost, as it is
    while the host cannot be reached, the device keeps the lease flag it
    had: a leased device stays leased. *)
Theorem execute_app_releases_device E devid stored_file server_name
    execution_time sign_app custom_cmd w dev :
  Py.dict_get devid (devices w) = Some dev ->
  (exists pipeline,
     rpc_log (snd (app_executor.execute_app E devid stored_file server_name
                     execution_time sign_app custom_cmd w))
     = (rpc_log w ++ pipeline
        ++ [(UninstallApp, devid); (StopLogcatCollect, devid);
            (UnlockDevice, devid)])%list)
  /\ ((forall t, channel E t UnlockDevice <> RequestLost) ->
      exists dev',
        Py.dict_get devid
          (devices (snd (app_executor.execute_app E devid stored_file
                           server_name execution_time sign_app custom_cmd w)))
        = Some dev'
        /\ in_use dev' = false)
  /\ ((forall t, channel E t UnlockDevice = RequestLost) ->
      exists dev',
        Py.dict_get devid
          (devices (snd (app_executor.execute_app E devid stored_file
                           server_name execution_time sign_app custom_cmd w)))
        = Some dev'
        /\ in_use dev' = in_use dev).
Proof.
  intros Hdev.
  assert (Hw : Py.dict_get devid (devices w) <> None) by congruence.
  split; [|split].
  - destruct (app_executor.execute_app E devid stored_file server_name
                execution_time sign_app custom_cmd w) as [out w'] eqn:Heq.
    cbn [snd].
    unfold app_executor.execute_app, DeviceUsage.__enter__ in Heq. run_in Heq.
    match type of Heq with
    | context [app_executor.try_finally E ?er devid stored_file execution_time
                 sign_app custom_cmd w] =>
        destruct (visits_try_finally E er devid stored_file execution_time
                    sign_app custom_cmd w Hw) as [K (pipeline & L)];
        destruct (app_executor.try_finally E er devid stored_file execution_time
                    sign_app custom_cmd w) as [outcome w1]
    end.
    cbn [snd] in K, L.
    assert (Hw1 : Py.dict_get devid (devices w1) <> None)
      by (eapply present_keys; eassumption).
    destruct (calls_exit E devid w1 Hw1) as [_ L'].
    run_in Heq.
    destruct (DeviceUsage.__exit__ E devid w1) as [u w2].
    injection Heq as _ <-. cbn [snd] in *.
    exists pipeline. now rewrite L', L, <- app_assoc.
  - intros Hnet.
    destruct (app_executor.execute_app E devid stored_file server_name
                execution_time sign_app custom_cmd w) as [out w'] eqn:Heq.
    cbn [snd].
    unfold app_executor.execute_app, DeviceUsage.__enter__ in Heq. run_in Heq.
    match type of Heq with
    | context [app_executor.try_finally E ?er devid stored_file execution_time
                 sign_app custom_cmd w] =>
        destruct (visits_try_finally E er devid stored_file execution_time
                    sign_app custom_cmd w Hw) as [K _];
        destruct (app_executor.try_finally E er devid stored_file execution_time
                    sign_app custom_cmd w) as [outcome w1]
    end.
    cbn [snd] in K.
    assert (Hw1 : Py.dict_get devid (devices w1) <> None)
      by (eapply present_keys; eassumption).
    destruct (exit_releases E devid w1 Hw1 Hnet) as (_ & dev' & G & F).
    run_in Heq.
    destruct (DeviceUsage.__exit__ E devid w1) as [u w2].
    injection Heq as _ <-. cbn [snd] in *. now exists dev'.
  - intros Hnet.
    assert (Hkeeps : keeps_lease devid
              (app_executor.execute_app E devid stored_file server_name
                 execution_time sign_app custom_cmd)).
    { unfold app_executor.execute_app, DeviceUsage.__enter__.
      apply keeps_lease_bind; [apply keeps_lease_pure|]. intros _.
      apply keeps_lease_bind; [apply keeps_lease_try_finally|]. intros outcome.
      apply keeps_lease_bind; [now apply keeps_lease_exit|]. intros _.
      apply keeps_lease_pure. }
    exact (Hkeeps w dev Hdev).
Qed.

(** The pipeline fails at the installation (the package is not in the
    listing): the three release actions come last, and the device is
    released. *)
Lemma execute_app_releases_device_witness :
  Py.dict_get "A" (devices Ex.ready) = Some (Ex.dev "A" true)
  /\ (exists pipeline,
        rpc_log
          (snd (app_executor.execute_app
                  (Ex.pipeline_env Ex.silent (Returned 4711%Z) Terminated
                     Ex.delivered)
                  "A" "UploadedFiles/a.apk" "host" 5 false EmptyString
                  Ex.ready))
        = (rpc_log Ex.ready ++ pipeline
           ++ [(UninstallApp, "A"); (StopLogcatCollect, "A");
               (UnlockDevice, "A")])%list)
  /\ exists dev',
       Py.dict_get "A"
         (devices
            (snd (app_executor.execute_app
                    (Ex.pipeline_env Ex.silent (Returned 4711%Z) Terminated
                       Ex.delivered)
                    "A" "UploadedFiles/a.apk" "host" 5 false EmptyString
                    Ex.ready)))
       = Some dev'
       /\ in_use dev' = false.
Proof.
  assert (H1 : Py.dict_get "A" (devices Ex.ready) = Some (Ex.dev "A" true))
    by reflexivity.
  assert (H2 : forall t,
            channel (Ex.pipeline_env Ex.silent (Returned 4711%Z) Terminated
                       Ex.delivered) t UnlockDevice
            <> RequestLost) by (intros t; discriminate).
  split; [exact H1|].
  destruct (execute_app_releases_device
              (Ex.pipeline_env Ex.silent (Returned 4711%Z) Terminated
                 Ex.delivered)
              "A" "UploadedFiles/a.apk" "host" 5 false EmptyString Ex.ready _ H1)
    as (Hlog & Hfree & _).
  split; [exact Hlog|exact (Hfree H2)].
Defined.

(** C1, counterexample.  The host cannot be reached: the first stage
    fails, the finalization and the three release actions are attempted,
    and the device is still leased afterwards. *)
Lemma execute_app_leaves_device_leased :
  Ex.run (Ex.pipeline_env Ex.silent (Returned 4711%Z) Terminated
            (fun _ _ => RequestLost))
  = (Raised (RpcError "StatusCode.UNAVAILABLE"
               "failed to connect to all addresses"),
     Some true,
     [(StartLogcatCollect, "A"); (StopLogcatCollect, "A");
      (UninstallApp, "A"); (StopLogcatCollect, "A"); (UnlockDevice, "A")]).
Proof. vm_compute. reflexivity. Qed.

(** The [try] block attempts the stages in order and stops at the first
    that fails. *)
Lemma try_block_stages E exec_result devid stored_file execution_time sign_app
    custom_cmd w :
  Py.dict_get devid (devices w) <> None ->
  app_executor.error exec_result = true ->
  let tried := app_executor.try_block E exec_result devid stored_file
                 execution_time sign_app custom_cmd w in
  let made := until_failure
                (stage_calls E devid stored_file execution_time sign_app
                   custom_cmd) w in
  snd tried = snd made
  /\ Py.dict_keys (devices (snd tried)) = Py.dict_keys (devices w)
  /\ 1 <= fst (fst made) <= 4
  /\ (fst (fst made) < 4 -> snd (fst made) = false)
  /\ (snd (fst made) = true
      <-> fst tried
          = (app_executor.set_error false exec_result, app_executor.Return))
  /\ rpc_log (snd tried)
     = (rpc_log w ++ take (fst (fst made)) (pipeline_stages devid))%list.
Proof.
  intros Hw Herr. cbv zeta.
  assert (Hmsg : forall msg,
            (app_executor.set_result msg exec_result, app_executor.Return)
            <> (app_executor.set_error false exec_result, app_executor.Return)).
  { intros msg H.
    apply (f_equal (fun p => app_executor.error (fst p))) in H.
    cbn in H. congruence. }
  unfold app_executor.try_block, stage_calls. cbn [until_failure]. run.
  destruct (calls_start_logcat_collect E devid w Hw) as [K1 L1].
  destruct (grpc_client.GRPCClient.start_logcat_collect E devid w) as [r1 w1].
  cbn [snd] in K1, L1.
  assert (Hw1 : Py.dict_get devid (devices w1) <> None)
    by (eapply present_keys; eassumption).
  destruct r1 as [resp1|e]; cbn [succeeded]; run;
    [|cbn [fst snd]; repeat split; auto; try lia; discriminate].
  destruct (grpc_client.err resp1); run;
    [cbn [fst snd]; repeat split; auto; try lia; try discriminate;
     intros H; now apply Hmsg in H|].
  destruct (calls_install_app E devid stored_file sign_app w1 Hw1) as [K2 L2].
  destruct (grpc_client.GRPCClient.install_app E devid stored_file sign_app w1)
    as [r2 w2].
  cbn [snd] in K2, L2.
  assert (Hw2 : Py.dict_get devid (devices w2) <> None)
    by (eapply present_keys; eassumption).
  assert (Hlog2 : rpc_log w2 = (rpc_log w ++ take 2 (pipeline_stages devid))%list).
  { rewrite L2, L1, <- app_assoc. reflexivity. }
  assert (Hkeys2 : Py.dict_keys (devices w2) = Py.dict_keys (devices w))
    by congruence.
  destruct r2 as [resp2|e]; cbn [succeeded]; run;
    [|cbn [fst snd]; repeat split; auto; try lia; discriminate].
  destruct (grpc_client.err resp2); run;
    [cbn [fst snd]; repeat split; auto; try lia; try discriminate;
     intros H; now apply Hmsg in H|].
  destruct (calls_run_last_installed_apk E devid execution_time custom_cmd w2 Hw2)
    as [K3 L3].
  destruct (grpc_client.GRPCClient.run_last_installed_apk E devid execution_time
              custom_cmd w2) as [r3 w3].
  cbn [snd] in K3, L3.
  assert (Hw3 : Py.dict_get devid (devices w3) <> None)
    by (eapply present_keys; eassumption).
  assert (Hlog3 : rpc_log w3 = (rpc_log w ++ take 3 (pipeline_stages devid))%list).
  { rewrite L3, Hlog2, <- app_assoc. reflexivity. }
  assert (Hkeys3 : Py.dict_keys (devices w3) = Py.dict_keys (devices w))
    by congruence.
  destruct r3 as [resp3|e]; cbn [succeeded]; run;
    [|cbn [fst snd]; repeat split; auto; try lia; discriminate].
  destruct (grpc_client.err resp3); run;
    [cbn [fst snd]; repeat split; auto; try lia; try discriminate;
     intros H; now apply Hmsg in H|].
  destruct (calls_uninstall_app E devid w3 Hw3) as [K4 L4].
  destruct (grpc_client.GRPCClient.uninstall_app E devid w3) as [r4 w4].
  cbn [snd] in K4, L4.
  assert (Hlog4 : rpc_log w4 = (rpc_log w ++ take 4 (pipeline_stages devid))%list).
  { rewrite L4, Hlog3, <- app_assoc. reflexivity. }
  assert (Hkeys4 : Py.dict_keys (devices w4) = Py.dict_keys (devices w))
    by congruence.
  destruct r4 as [resp4|e]; cbn [succeeded]; run;
    [|cbn [fst snd]; repeat split; auto; try lia; discriminate].
  destruct (grpc_client.err resp4); run; cbn [fst snd];
    repeat split; auto; try lia; try discriminate.
  intros H. now apply Hmsg in H.
Qed.

(** The [finally] block stops the capture and, when that gave a file,
    pulls it. *)
Lemma finally_block_calls E exec_result devid w :
  Py.dict_get devid (devices w) <> None ->
  Py.dict_keys (devices (snd (app_executor.finally_block E exec_result devid w)))
  = Py.dict_keys (devices w)
  /\ exists pulls,
       (pulls = [] \/ exists f, pulls = [(PullFile, f)])
       /\ rpc_log (snd (app_executor.finally_block E exec_result devid w))
          = (rpc_log w ++ (StopLogcatCollect, devid) :: pulls)%list.
Proof.
  intros Hw. unfold app_executor.finally_block. rewrite bind_eq.
  destruct (calls_stop_logcat_collect E devid w Hw) as [K1 L1].
  destruct (grpc_client.GRPCClient.stop_logcat_collect E devid w) as [r1 w1].
  cbn [snd] in K1, L1.
  assert (Hw1 : Py.dict_get devid (devices w1) <> None)
    by (eapply present_keys; eassumption).
  assert (Hstop : forall (x : app_executor.ExecutionResult * app_executor.Completion),
            Py.dict_keys (devices (snd (pure x w1))) = Py.dict_keys (devices w)
            /\ exists pulls,
                 (pulls = [] \/ exists f, pulls = [(PullFile, f)])
                 /\ rpc_log (snd (pure x w1))
                    = (rpc_log w ++ (StopLogcatCollect, devid) :: pulls)%list).
  { intros x. split; [exact K1|]. exists []. split; [now left|exact L1]. }
  destruct r1 as [resp|e]; [|apply Hstop].
  destruct (grpc_client.err resp); [apply Hstop|].
  destruct (grpc_client.ret resp) as [logcat|]; [|apply Hstop]. clear Hstop.
  rewrite bind_eq.
  destruct (calls_pull_file E devid logcat w1 Hw1) as [K2 L2].
  destruct (grpc_client.GRPCClient.pull_file E logcat w1) as [r2 w2].
  cbn [snd] in K2, L2.
  assert (Hend : forall (m : M (app_executor.ExecutionResult * app_executor.Completion)),
            quiet m ->
            Py.dict_keys (devices (snd (m w2))) = Py.dict_keys (devices w)
            /\ exists pulls,
                 (pulls = [] \/ exists f, pulls = [(PullFile, f)])
                 /\ rpc_log (snd (m w2))
                    = (rpc_log w ++ (StopLogcatCollect, devid) :: pulls)%list).
  { intros m Hm. destruct (Hm w2) as [Hd Hl]. split; [congruence|].
    exists [(PullFile, pathlib.Path logcat)]. split; [right; now eexists|].
    rewrite Hl, L2, L1, <- app_assoc. reflexivity. }
  destruct (grpc_client.err r2); [apply Hend; auto with quiet|].
  destruct (grpc_client.ret r2); apply Hend; quiet_auto.
Qed.



Lemma try_block_result E exec_result devid stored_file execution_time sign_app
    custom_cmd w :
  app_executor.devid
    (fst (fst (app_executor.try_block E exec_result devid stored_file
                 execution_time sign_app custom_cmd w)))
  = app_executor.devid exec_result
  /\ app_executor.server_name
       (fst (fst (app_executor.try_block E exec_result devid stored_file
                    execution_time sign_app custom_cmd w)))
     = app_executor.server_name exec_result
  /\ (fst (fst (app_executor.try_block E exec_result devid stored_file
                  execution_time sign_app custom_cmd w))
      = app_executor.set_error false exec_result
      \/ app_executor.error
           (fst (fst (app_executor.try_block E exec_result devid stored_file
                        execution_time sign_app custom_cmd w)))
         = app_executor.error exec_result).
Proof.
  unfold app_executor.try_block.
  repeat first
    [ rewrite bind_eq
    | match goal with
      | |- context [let (_, _) := ?m in _] => destruct m as [[?|?] ?]
      | |- context [match grpc_client.err ?r with _ => _ end] =>
          destruct (grpc_client.err r)
      end ];
    unfold pure; cbn [fst]; (split; [reflexivity|split; [reflexivity|]]);
    first [now left|now right].
Qed.

Lemma finally_block_result E exec_result devid w :
  app_executor.devid (fst (fst (app_executor.finally_block E exec_result devid w)))
  = app_executor.devid exec_result
  /\ app_executor.server_name
       (fst (fst (app_executor.finally_block E exec_result devid w)))
     = app_executor.server_name exec_result
  /\ match snd (fst (app_executor.finally_block E exec_result devid w)) with
     | app_executor.Return =>
         app_executor.error
           (fst (fst (app_executor.finally_block E exec_result devid w)))
         = true
     | app_executor.Raise _ => True
     | app_executor.FallThrough =>
         exists f,
           fst (fst (app_executor.finally_block E exec_result devid w))
           = app_executor.set_logcat_file (Some f) exec_result
     end.
Proof.
  unfold app_executor.finally_block. rewrite bind_eq.
  destruct (grpc_client.GRPCClient.stop_logcat_collect E devid w) as [[resp|e] w1];
    [|now cbn].
  destruct (grpc_client.err resp); [now cbn|].
  destruct (grpc_client.ret resp) as [logcat|]; [|now cbn].
  rewrite bind_eq.
  destruct (grpc_client.GRPCClient.pull_file E logcat w1) as [r2 w2].
  destruct (grpc_client.err r2); [now cbn|].
  destruct (grpc_client.ret r2); [|now cbn].
  run. cbn [fst snd]. split; [reflexivity|]. split; [reflexivity|].
  now eexists.
Qed.

(** X20.  What a successful run returns.  A result of [execute_app] is
    for the device and the host it was called with; and when the result
    is without error, it carries the file of the device log and an empty
    message: a run whose log could not be stopped or pulled is never
    reported as successful. *)
Theorem execute_app_success_carries_the_log E devid stored_file server_name
    execution_time sign_app custom_cmd w r :
  fst (app_executor.execute_app E devid stored_file server_name execution_time
         sign_app custom_cmd w)
  = Returned r ->
  app_executor.devid r = devid
  /\ app_executor.server_name r = Some server_name
  /\ (app_executor.error r = false ->
      app_executor.result r = EmptyString
      /\ app_executor.logcat_file r <> None).
Proof.
  unfold app_executor.execute_app, DeviceUsage.__enter__.
  run. unfold app_executor.try_finally. run.
  match goal with
  | |- context [app_executor.try_block E ?er devid stored_file execution_time
                  sign_app custom_cmd w] =>
      destruct (try_block_result E er devid stored_file execution_time
                  sign_app custom_cmd w) as (D1 & S1 & R1);
      destruct (app_executor.try_block E er devid stored_file execution_time
                  sign_app custom_cmd w) as [[er1 tried] w1]
  end.
  cbn [fst app_executor.devid app_executor.server_name app_executor.error]
    in D1, S1, R1.
  run.
  destruct (finally_block_result E er1 devid w1) as (D2 & S2 & R2).
  destruct (app_executor.finally_block E er1 devid w1) as [[er2 finished] w2].
  cbn [fst snd] in D2, S2, R2. run.
  destruct (DeviceUsage.__exit__ E devid w2) as [u w3]. cbn [fst].
  intros Hr.
  assert (Hids : app_executor.devid er2 = devid
                 /\ app_executor.server_name er2 = Some server_name)
    by (split; congruence).
  destruct finished as [|e|].
  - injection Hr as <-. split; [apply Hids|]. split; [apply Hids|].
    intros Herr. congruence.
  - discriminate Hr.
  - destruct R2 as (f & ->).
    assert (Hr' : r = app_executor.set_logcat_file (Some f) er1)
      by (destruct tried; congruence).
    subst r. split; [apply Hids|]. split; [apply Hids|].
    cbn [app_executor.error app_executor.result app_executor.logcat_file
         app_executor.set_logcat_file].
    intros Herr. split; [|discriminate].
    destruct R1 as [->|R1]; [reflexivity|congruence].
Qed.

Lemma execute_app_success_carries_the_log_witness :
  fst (app_executor.execute_app
         (Ex.pipeline_env Ex.responsive (Returned 4711%Z) Terminated Ex.delivered)
         "A" "UploadedFiles/a.apk" "host" 5 false EmptyString Ex.ready)
  = Returned {| app_executor.error := false; app_executor.devid := "A";
                app_executor.result := EmptyString;
                app_executor.logcat_file := Some "/tmp/tmp25";
                app_executor.server_name := Some "host" |}
  /\ app_executor.logcat_file
       {| app_executor.error := false; app_executor.devid := "A";
          app_executor.result := EmptyString;
          app_executor.logcat_file := Some "/tmp/tmp25";
          app_executor.server_name := Some "host" |}
     <> None.
Proof.
  assert (H : fst (app_executor.execute_app
                     (Ex.pipeline_env Ex.responsive (Returned 4711%Z) Terminated
                        Ex.delivered)
                     "A" "UploadedFiles/a.apk" "host" 5 false EmptyString
                     Ex.ready)
              = Returned {| app_executor.error := false;
                            app_executor.devid := "A";
                            app_executor.result := EmptyString;
                            app_executor.logcat_file := Some "/tmp/tmp25";
                            app_executor.server_name := Some "host" |})
    by (vm_compute; reflexivity).
  split; [exact H|].
  exact (proj2 (proj2 (proj2 (execute_app_success_carries_the_log _ _ _ _ _ _ _
                                _ _ H)) eq_refl)).
Defined.

(* ===================================================================== *)
(** ** The device keys of the HTTP façade                                  *)
(* ===================================================================== *)

Lemma split_length_cons sep c s :
  List.length (Py.split sep (String c s))
  = (if Ascii.eqb c sep then 1 else 0) + List.length (Py.split sep s).
Proof.
  cbn [Py.split]. destruct (Ascii.eqb c sep); [reflexivity|].
  pose proof (split_nonempty sep s).
  now destruct (Py.split sep s).
Qed.

Lemma split_length_app sep a b :
  List.length (Py.split sep (a +:+ String sep b))
  = List.length (Py.split sep a) + List.length (Py.split sep b).
Proof.
  induction a as [|c a IH].
  - change (EmptyString +:+ String sep b) with (String sep b).
    rewrite split_length_cons, Ascii.eqb_refl. reflexivity.
  - change (String c a +:+ String sep b) with (String c (a +:+ String sep b)).
    rewrite !split_length_cons, IH. lia.
Qed.

Lemma split_length_pos sep s : 1 <= List.length (Py.split sep s).
Proof.
  pose proof (split_nonempty sep s). destruct (Py.split sep s); [easy|cbn; lia].
Qed.

Lemma split_length_contains sep s :
  Py.contains (String sep EmptyString) s = true <->
  2 <= List.length (Py.split sep s).
Proof.
  induction s as [|c s IH]; [cbn; split; [discriminate|lia]|].
  rewrite contains_char_cons, split_length_cons, Ascii.eqb_sym.
  pose proof (split_length_pos sep s).
  destruct (Ascii.eqb c sep); cbn [orb]; [split; [lia|reflexivity]|].
  rewrite IH. cbn. reflexivity.
Qed.

Lemma device_key_not_empty id server_name :
  String.eqb (fastapi_backend.device_key id server_name) EmptyString = false.
Proof. unfold fastapi_backend.device_key. now destruct id. Qed.

Lemma unpack2_returns parts :
  (exists p, fastapi_backend.unpack2 parts = Returned p)
  <-> List.length parts = 2.
Proof.
  destruct parts as [|a [|b [|c parts]]]; cbn; split;
    try (intros [p H]; discriminate H); try discriminate; try lia.
  intros _. now eexists.
Qed.

(** X21.  A device key read back.  The key [getdevices] gives a device,
    its id and the name of its host joined by an underscore, is read
    back as that id on that host, by [getdevices] and by [executeApp],
    when neither the id nor the name holds an underscore or a comma, or
    begins or ends with white space ([executeApp] strips both). *)
Theorem device_key_round_trip U id server_name :
  Py.contains "_" id = false ->
  Py.contains "_" server_name = false ->
  Py.contains "," id = false ->
  Py.contains "," server_name = false ->
  Py.strip U id = id ->
  Py.strip U server_name = server_name ->
  fastapi_backend.requested_ids (fastapi_backend.device_key id server_name)
  = inr [(server_name, [id])]
  /\ fastapi_backend.devs_per_server U
       (fastapi_backend.device_key id server_name)
     = Returned [(server_name, [id])]
  /\ fastapi_backend.validate_devices
       (fastapi_backend.device_key id server_name)
     = Returned (fastapi_backend.device_key id server_name).
Proof.
  intros Hid Hserver Hcid Hcserver Hsid Hsserver.
  assert (Hcomma : Py.split "," (fastapi_backend.device_key id server_name)
                   = [fastapi_backend.device_key id server_name]).
  { apply split_without. unfold fastapi_backend.device_key.
    rewrite !contains_char_app, Hcid, Hcserver. reflexivity. }
  assert (Hparts : Py.split "_" (fastapi_backend.device_key id server_name)
                   = [id; server_name]).
  { unfold fastapi_backend.device_key.
    change ("_" +:+ server_name) with (String "_" server_name).
    rewrite (split_at_first _ _ _ Hid), (split_without _ _ Hserver).
    reflexivity. }
  assert (Hhas : Py.contains "_" (fastapi_backend.device_key id server_name)
                 = true).
  { apply split_length_contains. now rewrite Hparts. }
  unfold fastapi_backend.requested_ids, fastapi_backend.devs_per_server,
    fastapi_backend.validate_devices.
  rewrite device_key_not_empty, Hcomma.
  cbn [fastapi_backend.group_ids fastapi_backend.group_devs
       fastapi_backend.validate_items].
  rewrite Hparts, Hhas. cbn [fastapi_backend.unpack2 negb List.length Nat.eqb].
  rewrite Hsid, Hsserver. repeat split.
Qed.

Lemma device_key_round_trip_witness :
  Py.contains "_" "emulator-5554" = false
  /\ Py.strip Ex.below_u0080 "emulator-5554" = "emulator-5554"
  /\ fastapi_backend.requested_ids
       (fastapi_backend.device_key "emulator-5554" "lab1")
     = inr [("lab1", ["emulator-5554"])]
  /\ fastapi_backend.devs_per_server Ex.below_u0080
       (fastapi_backend.device_key "emulator-5554" "lab1")
     = Returned [("lab1", ["emulator-5554"])].
Proof.
  split; [reflexivity|]. split; [reflexivity|].
  destruct (device_key_round_trip Ex.below_u0080 "emulator-5554" "lab1"
              eq_refl eq_refl eq_refl eq_refl eq_refl eq_refl)
    as (H1 & H2 & _).
  now split.
Defined.

(** X22.  A device key that cannot be read back.  When the id of a
    device, or the name of its host, holds an underscore, the key that
    [getdevices] gives the device is refused wherever it is read:
    [getdevices] answers a request for it with status 406, the
    validation of [executeApp] rejects it, and its unpacking raises. *)
Theorem device_key_with_underscore_is_refused U id server_name :
  Py.contains "," (fastapi_backend.device_key id server_name) = false ->
  Py.contains "_" id = true \/ Py.contains "_" server_name = true ->
  (exists d,
     fastapi_backend.requested_ids (fastapi_backend.device_key id server_name)
     = inl {| fastapi_backend.status_code := 406;
              fastapi_backend.detail := d |})
  /\ (exists e,
        fastapi_backend.validate_devices
          (fastapi_backend.device_key id server_name)
        = Raised e)
  /\ exists e,
       fastapi_backend.devs_per_server U
         (fastapi_backend.device_key id server_name)
       = Raised e.
Proof.
  intros Hcomma Hunder.
  assert (Hlen : 3 <= List.length
                   (Py.split "_" (fastapi_backend.device_key id server_name))).
  { unfold fastapi_backend.device_key.
    change ("_" +:+ server_name) with (String "_" server_name).
    rewrite split_length_app.
    pose proof (split_length_pos "_" id).
    pose proof (split_length_pos "_" server_name).
    destruct Hunder as [Hu|Hu]; apply split_length_contains in Hu; lia. }
  assert (Hhas : Py.contains "_" (fastapi_backend.device_key id server_name)
                 = true).
  { apply split_length_contains. lia. }
  unfold fastapi_backend.requested_ids, fastapi_backend.devs_per_server,
    fastapi_backend.validate_devices.
  rewrite device_key_not_empty, (split_without _ _ Hcomma).
  cbn [fastapi_backend.group_ids fastapi_backend.group_devs
       fastapi_backend.validate_items].
  rewrite Hhas. cbn [negb].
  destruct (Py.split "_" (fastapi_backend.device_key id server_name))
    as [|a [|b [|c parts]]]; cbn [List.length] in Hlen; try lia.
  cbn [fastapi_backend.unpack2 List.length Nat.eqb negb].
  split; [now eexists|]. split; now eexists.
Qed.

Lemma device_key_with_underscore_is_refused_witness :
  Py.contains "," (fastapi_backend.device_key "adb-R58M_tls" "lab1") = false
  /\ (Py.contains "_" "adb-R58M_tls" = true \/ Py.contains "_" "lab1" = true)
  /\ exists d,
       fastapi_backend.requested_ids
         (fastapi_backend.device_key "adb-R58M_tls" "lab1")
       = inl {| fastapi_backend.status_code := 406;
                fastapi_backend.detail := d |}.
Proof.
  split; [reflexivity|]. split; [now left|].
  exact (proj1 (device_key_with_underscore_is_refused Ex.below_u0080
                  "adb-R58M_tls" "lab1" eq_refl (or_introl eq_refl))).
Defined.

Lemma validate_items_group_devs U items :
  forall acc,
    fastapi_backend.validate_items items = Returned tt
    <-> exists d, fastapi_backend.group_devs U items acc = Returned d.
Proof.
  induction items as [|dev items IH]; intros acc;
    cbn [fastapi_backend.validate_items fastapi_backend.group_devs].
  - split; [intros _; now eexists|reflexivity].
  - pose proof (split_length_contains "_" dev) as Hc.
    pose proof (unpack2_returns (Py.split "_" dev)) as Hu.
    destruct (fastapi_backend.unpack2 (Py.split "_" dev)) as [[devid server]|e].
    + assert (Hlen : List.length (Py.split "_" dev) = 2)
        by (apply Hu; now eexists).
      rewrite Hlen. cbn [Nat.eqb negb].
      assert (Hhas : Py.contains "_" dev = true) by (apply Hc; lia).
      rewrite Hhas. cbn [negb]. apply IH.
    + split; [|intros [d H]; discriminate H].
      destruct (Py.contains "_" dev); cbn [negb]; [|discriminate].
      destruct (List.length (Py.split "_" dev) =? 2)%nat eqn:Hlen;
        cbn [negb]; [|discriminate].
      apply Nat.eqb_eq in Hlen. apply Hu in Hlen as [p Hp]. discriminate Hp.
Qed.

(** X23.  Validation and unpacking agree.  The device list of a request
    to [executeApp] passes [validate_devices] exactly when the loop of
    [executeApp] unpacks every entry of it: a request that passed the
    validation never fails at the unpacking, and the validation rejects
    nothing that the loop would accept. *)
Theorem validate_devices_iff_unpacked U v :
  fastapi_backend.validate_devices v = Returned v
  <-> exists d, fastapi_backend.devs_per_server U v = Returned d.
Proof.
  unfold fastapi_backend.validate_devices, fastapi_backend.devs_per_server.
  destruct (String.eqb_spec v EmptyString) as [->|Hne].
  - split; [discriminate|]. intros [d H]. discriminate H.
  - rewrite <- (validate_items_group_devs U (Py.split "," v) []).
    destruct (fastapi_backend.validate_items (Py.split "," v)) as [[]|e];
      split; try reflexivity; discriminate.
Qed.

(* ===================================================================== *)
(** ** The name of a package                                               *)
(* ===================================================================== *)

Lemma split_head_without sep s :
  match Py.split sep s with
  | h :: _ => Py.contains (String sep EmptyString) h = false
  | [] => True
  end.
Proof.
  induction s as [|c s IH]; [reflexivity|].
  cbn [Py.split]. destruct (Ascii.eqb c sep) eqn:Hc; [reflexivity|].
  destruct (Py.split sep s) as [|h t].
  - rewrite contains_char_cons, Ascii.eqb_sym, Hc. reflexivity.
  - rewrite contains_char_cons, Ascii.eqb_sym, Hc. exact IH.
Qed.

(** The badging of a package, as [aapt2] prints it. *)
Example get_package_name_of_badging :
  apktools.get_package_name
    (Some [Py.encode "package: name='com.example.app' versionCode='7'
";
           Py.encode "sdkVersion:'24'
"])
  = Some "com.example.app".
Proof. vm_compute. reflexivity. Qed.

(** X24.  The name [get_package_name] returns.  When no line that the
    tool printed holds [package: name=], the function returns the empty
    name, not [None]; a name it returns never holds a quote; and it
    returns [None] when the tool could not be run. *)
Theorem get_package_name_edge_cases :
  (forall out,
     Forall (fun line =>
               apktools.bytes_contains (Py.encode "package: name=") line = false)
            out ->
     apktools.get_package_name (Some out) = Some EmptyString)
  /\ (forall aapt2 name,
        apktools.get_package_name aapt2 = Some name ->
        Py.contains "'" name = false)
  /\ apktools.get_package_name None = None.
Proof.
  split; [|split; [|reflexivity]].
  - intros out Hout. cbn [apktools.get_package_name].
    induction Hout as [|line out Hline _ IH]; [reflexivity|].
    cbn [apktools.package_name_of]. now rewrite Hline.
  - intros [out|] name; [|discriminate]. cbn [apktools.get_package_name].
    induction out as [|line out IH]; cbn [apktools.package_name_of].
    + now intros [= <-].
    + destruct (apktools.bytes_contains _ line); [|exact IH].
      destruct (Py.decode Py.replace line) as [e|text]; [discriminate|].
      destruct (apktools.split_str "name='" 0 text) as [|before [|after parts]];
        try discriminate.
      pose proof (split_head_without "'" after) as Hhead.
      destruct (Py.split "'" after) as [|first others]; [discriminate|].
      now intros [= <-].
Qed.

(* ===================================================================== *)
(** ** When the transport or the finalization fails                       *)
(* ===================================================================== *)

(** X25.  A lease whose answer is lost.  When the request of
    [get_free_device] does not reach the host, nothing is leased.  When
    the request is served and only the answer is lost, the caller gets
    an exception and no ids, yet the registry is the one that the lease
    left: the devices are marked as in use. *)
Theorem lease_outlives_a_lost_response E num_devices device_list w :
  (channel E (now w) GetFreeDevices = RequestLost ->
   grpc_client.GRPCClient.get_free_device E num_devices device_list w
   = (Raised (grpc_client.transport_error E (now w) GetFreeDevices),
      set_now (S (now w))
        (set_rpc_log (rpc_log w ++ [(GetFreeDevices, EmptyString)]) w)))
  /\ (channel E (now w) GetFreeDevices = ResponseLost ->
      exists r w',
        VTestFunctions.getFreeDevices E num_devices device_list
          (set_now (S (now w))
             (set_rpc_log (rpc_log w ++ [(GetFreeDevices, EmptyString)]) w))
        = (Returned r, w')
        /\ grpc_client.GRPCClient.get_free_device E num_devices device_list w
           = (Raised (grpc_client.transport_error E (now w) GetFreeDevices),
              w')).
Proof.
  unfold grpc_client.GRPCClient.get_free_device, grpc_client.GRPCClient.wrap,
    grpc_client.get_free_device, grpc_client.stub,
    CommunicationServicer.GetFreeDevices.
  split; intros Hnet; run; cbn [now set_rpc_log]; rewrite Hnet; [reflexivity|].
  destruct (getFreeDevices_effect E num_devices device_list
              (set_now (S (now w))
                 (set_rpc_log (rpc_log w ++ [(GetFreeDevices, EmptyString)]) w)))
    as (r & w' & Heq & _).
  exists r, w'. split; [exact Heq|]. run. now rewrite Heq.
Qed.

Lemma lease_outlives_a_lost_response_witness :
  channel (Ex.env Ex.silent CheckTimeoutExpired (fun _ _ => ResponseLost))
    (now Ex.three) GetFreeDevices
  = ResponseLost
  /\ exists r w',
       VTestFunctions.getFreeDevices
         (Ex.env Ex.silent CheckTimeoutExpired (fun _ _ => ResponseLost)) 1 []
         (set_now (S (now Ex.three))
            (set_rpc_log (rpc_log Ex.three ++ [(GetFreeDevices, EmptyString)])
               Ex.three))
       = (Returned r, w')
       /\ grpc_client.GRPCClient.get_free_device
            (Ex.env Ex.silent CheckTimeoutExpired (fun _ _ => ResponseLost)) 1 []
            Ex.three
          = (Raised
               (grpc_client.transport_error
                  (Ex.env Ex.silent CheckTimeoutExpired
                     (fun _ _ => ResponseLost))
                  (now Ex.three) GetFreeDevices),
             w').
Proof.
  split; [reflexivity|].
  exact (proj2 (lease_outlives_a_lost_response
                  (Ex.env Ex.silent CheckTimeoutExpired (fun _ _ => ResponseLost))
                  1 [] Ex.three) eq_refl).
Defined.

Lemma execute_app_outcome E devid stored_file server_name execution_time
    sign_app custom_cmd w :
  fst (app_executor.execute_app E devid stored_file server_name execution_time
         sign_app custom_cmd w)
  = fst (app_executor.try_finally E (fresh_result devid server_name) devid
           stored_file execution_time sign_app custom_cmd w).
Proof.
  unfold app_executor.execute_app, DeviceUsage.__enter__. run.
  fold (fresh_result devid server_name).
  destruct (app_executor.try_finally E (fresh_result devid server_name) devid
              stored_file execution_time sign_app custom_cmd w) as [outcome w1].
  run. now destruct (DeviceUsage.__exit__ E devid w1).
Qed.

(** X26.  A failure of the finalization replaces the outcome of the
    pipeline.  When the stop of the capture answers with an error, or
    the pull of the log fails, [execute_app] returns a result with that
    error, whatever the stages of the pipeline did: their message is
    overwritten and an exception they raised is dropped.  For a failed
    pull the message is [Error pulling logcat: None], as it quotes the
    error of the stop, which is [None] then. *)
Theorem finalization_failure_replaces_outcome E devid stored_file server_name
    execution_time sign_app custom_cmd w :
  (forall response msg,
     fst (grpc_client.GRPCClient.stop_logcat_collect E devid
            (after_try E devid stored_file server_name execution_time sign_app
               custom_cmd w))
     = Returned response ->
     grpc_client.err response = Some msg ->
     exists r,
       fst (app_executor.execute_app E devid stored_file server_name
              execution_time sign_app custom_cmd w)
       = Returned r
       /\ app_executor.error r = true
       /\ app_executor.result r = "Error stopping logcat: " +:+ msg)
  /\ (forall response logcat e,
        fst (grpc_client.GRPCClient.stop_logcat_collect E devid
               (after_try E devid stored_file server_name execution_time
                  sign_app custom_cmd w))
        = Returned response ->
        grpc_client.err response = None ->
        grpc_client.ret response = Some logcat ->
        grpc_client.err
          (fst (grpc_client.GRPCClient.pull_file E logcat
                  (snd (grpc_client.GRPCClient.stop_logcat_collect E devid
                          (after_try E devid stored_file server_name
                             execution_time sign_app custom_cmd w)))))
        = Some e ->
        exists r,
          fst (app_executor.execute_app E devid stored_file server_name
                 execution_time sign_app custom_cmd w)
          = Returned r
          /\ app_executor.error r = true
          /\ app_executor.result r = "Error pulling logcat: None").
Proof.
  rewrite execute_app_outcome. unfold after_try, app_executor.try_finally.
  rewrite bind_eq.
  destruct (app_executor.try_block E (fresh_result devid server_name) devid
              stored_file execution_time sign_app custom_cmd w)
    as [[er1 tried] w1].
  cbn [snd]. cbv beta iota. rewrite bind_eq.
  unfold app_executor.finally_block. rewrite bind_eq.
  destruct (grpc_client.GRPCClient.stop_logcat_collect E devid w1) as [r1 w2].
  cbn [fst snd]. split.
  - intros response msg -> Herr. rewrite Herr. unfold pure. cbn [fst].
    eexists. split; [reflexivity|]. now split.
  - intros response logcat e -> Herr Hret Hpull. rewrite Herr, Hret.
    rewrite bind_eq.
    destruct (grpc_client.GRPCClient.pull_file E logcat w2) as [r2 w3].
    cbn [fst] in Hpull. rewrite Hpull. unfold pure. cbn [fst].
    eexists. split; [reflexivity|]. now split.
Qed.

Lemma finalization_failure_replaces_outcome_witness :
  fst (grpc_client.GRPCClient.stop_logcat_collect
         (Ex.pipeline_env Ex.silent (Raised (Exception "adb not found"))
            Terminated Ex.delivered) "A"
         (after_try
            (Ex.pipeline_env Ex.silent (Raised (Exception "adb not found"))
               Terminated Ex.delivered)
            "A" "UploadedFiles/a.apk" "host" 5 false EmptyString Ex.ready))
  = Returned {| grpc_client.ret := Some EmptyString;
                grpc_client.err := Some "Logcat stop failed, no output file!" |}
  /\ exists r,
       fst (app_executor.execute_app
              (Ex.pipeline_env Ex.silent (Raised (Exception "adb not found"))
                 Terminated Ex.delivered)
              "A" "UploadedFiles/a.apk" "host" 5 false EmptyString Ex.ready)
       = Returned r
       /\ app_executor.error r = true
       /\ app_executor.result r
          = "Error stopping logcat: Logcat stop failed, no output file!".
Proof.
  assert (H : fst (grpc_client.GRPCClient.stop_logcat_collect
                     (Ex.pipeline_env Ex.silent
                        (Raised (Exception "adb not found"))
                        Terminated Ex.delivered) "A"
                     (after_try
                        (Ex.pipeline_env Ex.silent
                           (Raised (Exception "adb not found"))
                           Terminated Ex.delivered)
                        "A" "UploadedFiles/a.apk" "host" 5 false EmptyString
                        Ex.ready))
              = Returned {| grpc_client.ret := Some EmptyString;
                            grpc_client.err :=
                              Some "Logcat stop failed, no output file!" |})
    by (vm_compute; reflexivity).
  split; [exact H|].
  exact (proj1 (finalization_failure_replaces_outcome _ _ _ _ _ _ _ _)
           _ _ H eq_refl).
Defined.

(** X27.  What a successful run means.  [runLastInstalledApk] answers
    without error only for a registered device that tracks a package
    with a name, and only when a process of that package was found
    after the start: the pid that [pidof] printed is then stored in the
    record of the device.  The duration asked for plays no part in the
    answer, except that a negative one makes the wait raise. *)
Theorem runLastInstalledApk_success_means_running E did execution_time
    custom_cmd w r :
  fst (VTestFunctions.runLastInstalledApk E did execution_time custom_cmd w)
  = Returned r ->
  error r = EmptyString ->
  exists dev app pid,
    Py.dict_get did (devices w) = Some dev
    /\ last_installed_app dev = Some app
    /\ app <> EmptyString
    /\ fst (device.is_running E dev EmptyString (set_now (S (S (now w))) w))
       = Some pid
    /\ Py.dict_get did
         (devices (snd (VTestFunctions.runLastInstalledApk E did execution_time
                          custom_cmd w)))
       = Some (set_running_app_pid pid dev)
    /\ (0 <= execution_time)%Z.
Proof.
  destruct (VTestFunctions.runLastInstalledApk E did execution_time custom_cmd w)
    as [r0 w'] eqn:Hrun.
  cbn [fst snd]. intros -> Herr.
  unfold VTestFunctions.runLastInstalledApk, VTestStation.get_device in Hrun.
  rewrite bind_eq in Hrun. unfold gets at 1 in Hrun.
  destruct (Py.dict_get did (devices w)) as [dev|] eqn:Hget;
    [|unfold pure in Hrun; injection Hrun as <- <-; discriminate Herr].
  rewrite bind_eq in Hrun.
  destruct (last_installed_app dev) as [app|] eqn:Happ.
  - rewrite (run_apk_tracked E dev custom_cmd app w Happ) in Hrun.
    cbn [negb] in Hrun. rewrite bind_eq in Hrun.
    destruct (device.is_running E dev EmptyString (set_now (S (S (now w))) w))
      as [[pid|] w1] eqn:Hpid;
      [|unfold pure in Hrun; injection Hrun as <- <-; discriminate Herr].
    rewrite bind_eq in Hrun. unfold VTestStation.store, modify at 1 in Hrun.
    unfold time.sleep in Hrun.
    destruct (execution_time <? 0)%Z eqn:Hneg;
      [unfold pure in Hrun; discriminate Hrun|].
    rewrite bind_eq in Hrun.
    match type of Hrun with
    | context [device.kill_apk E ?d ?w2] =>
        destruct (quiet_kill_apk E d w2) as [Hdev _];
        assert (Hkill : app = EmptyString -> fst (device.kill_apk E d w2) = false)
          by (intros ->; unfold device.kill_apk; cbn [last_installed_app
                set_running_app_pid]; rewrite Happ; reflexivity);
        destruct (device.kill_apk E d w2) as [killed w3]
    end.
    cbn [fst snd] in Hdev, Hkill.
    destruct killed; cbn [negb] in Hrun; unfold pure in Hrun;
      injection Hrun as <- <-; [|discriminate Herr].
    exists dev, app, pid. split; [reflexivity|]. split; [exact Happ|].
    split; [intros Hempty; now specialize (Hkill Hempty)|].
    split; [now rewrite Hpid|].
    split; [|now apply Z.ltb_ge].
    rewrite Hdev. cbn [devices set_devices].
    destruct (quiet_is_running E dev EmptyString (set_now (S (S (now w))) w))
      as [Hdev1 _].
    rewrite Hpid in Hdev1. cbn [snd] in Hdev1.
    apply dict_get_set_eq.
  - unfold device.run_apk in Hrun. rewrite Happ in Hrun.
    unfold pure in Hrun. cbn [negb] in Hrun.
    injection Hrun as <- <-. discriminate Herr.
Qed.

(** A run of five seconds on a device whose app starts; and a run of a
    negative time raises once the pid is stored. *)
Lemma runLastInstalledApk_success_means_running_witness :
  fst (VTestFunctions.runLastInstalledApk
         (Ex.pipeline_env Ex.responsive (Returned 4711%Z) Terminated
            Ex.delivered) "A" 5 EmptyString Ex.leased)
  = Returned (VTestFunctions.ok true)
  /\ fst (VTestFunctions.runLastInstalledApk
            (Ex.pipeline_env Ex.responsive (Returned 4711%Z) Terminated
               Ex.delivered) "A" (-1) EmptyString Ex.leased)
     = Raised (Exception "sleep length must be non-negative")
  /\ exists dev app pid,
       Py.dict_get "A" (devices Ex.leased) = Some dev
       /\ last_installed_app dev = Some app
       /\ app <> EmptyString
       /\ fst (device.is_running
                 (Ex.pipeline_env Ex.responsive (Returned 4711%Z) Terminated
                    Ex.delivered) dev EmptyString
                 (set_now (S (S (now Ex.leased))) Ex.leased))
          = Some pid
       /\ Py.dict_get "A"
            (devices (snd (VTestFunctions.runLastInstalledApk
                             (Ex.pipeline_env Ex.responsive (Returned 4711%Z)
                                Terminated Ex.delivered) "A" 5 EmptyString
                             Ex.leased)))
          = Some (set_running_app_pid pid dev)
       /\ (0 <= 5)%Z.
Proof.
  assert (H : fst (VTestFunctions.runLastInstalledApk
                     (Ex.pipeline_env Ex.responsive (Returned 4711%Z)
                        Terminated Ex.delivered) "A" 5 EmptyString
                     Ex.leased)
              = Returned (VTestFunctions.ok true)) by (vm_compute; reflexivity).
  split; [exact H|]. split; [vm_compute; reflexivity|].
  exact (runLastInstalledApk_success_means_running _ _ _ _ _ _ H eq_refl).
Defined.
